(** * net-audit: the probe-and-parse pipeline of [network_monitor.py]

    A shallow embedding of the monitoring script: the text primitives of
    Python it relies on ([str.strip], [str.split], [str.splitlines],
    [str.startswith], [int], [float]), the fragment of [re] its nine
    patterns use, the probes ([check_connection], [get_whois_info],
    [run_traceroute], [get_network_interface_stats],
    [check_application_response_time]) and one iteration of the loop of
    [main], over an explicit world that records every effect.

    Text is modelled by [string]: a character is a code point below 256,
    which covers the output of the diagnostic commands. *)

From Stdlib Require Import String Ascii ZArith QArith List Bool Lia DecimalString.
From stdpp Require Import gmap strings.
Import ListNotations.

Local Open Scope Z_scope.
Local Open Scope string_scope.

(** ** Characters and the string methods of Python *)

Module PyStr.

Definition code (c : ascii) : nat := nat_of_ascii c.

Definition between (lo hi : nat) (c : ascii) : bool :=
  (Nat.leb lo (code c) && Nat.leb (code c) hi)%bool.

(** [\d] on [str]: the decimal digits; below 256 these are [0-9]. *)
Definition is_digit (c : ascii) : bool := between 48 57 c.

(** [\s] on [str] and [str.isspace]: below 256 the white space is
    TAB..CR, FS..US, SPACE, NEL and NBSP. *)
Definition is_space (c : ascii) : bool :=
  (between 9 13 c || between 28 32 c
   || Nat.eqb (code c) 133 || Nat.eqb (code c) 160)%bool.

Definition is_upper (c : ascii) : bool := between 65 90 c.
Definition is_lower (c : ascii) : bool := between 97 122 c.

(** ASCII case folding, what [re.IGNORECASE] does to a letter below 256
    of a pattern written in ASCII. *)
Definition to_lower (c : ascii) : ascii :=
  if is_upper c then ascii_of_nat (code c + 32) else c.

Definition digit_val (c : ascii) : Z := Z.of_nat (code c - 48).

Definition LF : ascii := ascii_of_nat 10.
Definition CR : ascii := ascii_of_nat 13.
Definition nl : string := String LF EmptyString.

(** [s.startswith(p)] *)
Fixpoint startswith (s p : string) {struct p} : bool :=
  match p with
  | EmptyString => true
  | String a p' =>
      match s with
      | EmptyString => false
      | String b s' => (Ascii.eqb a b && startswith s' p')%bool
      end
  end.

(** [s.startswith((p1, p2, ...))] *)
Definition startswith_any (s : string) (ps : list string) : bool :=
  existsb (startswith s) ps.

Fixpoint lstrip (s : string) : string :=
  match s with
  | String c s' => if is_space c then lstrip s' else s
  | EmptyString => EmptyString
  end.

(** [rstrip]: a trailing white space character is dropped when all that
    follows it has been dropped. *)
Fixpoint rstrip (s : string) : string :=
  match s with
  | EmptyString => EmptyString
  | String c s' =>
      match rstrip s' with
      | EmptyString => if is_space c then EmptyString else String c EmptyString
      | t => String c t
      end
  end.

(** [s.strip()] *)
Definition strip (s : string) : string := rstrip (lstrip s).

(** [s.split()]: the maximal runs of characters that are not white space.
    [cur] is the run being read, [None] between two runs. *)
Fixpoint split_from (cur : option string) (s : string) : list string :=
  match s with
  | EmptyString => match cur with Some w => [w] | None => [] end
  | String c s' =>
      if is_space c
      then match cur with
           | Some w => w :: split_from None s'
           | None => split_from None s'
           end
      else split_from
             (Some (match cur with
                    | Some w => w ++ String c EmptyString
                    | None => String c EmptyString
                    end)) s'
  end.

Definition split (s : string) : list string := split_from None s.

(** The line boundaries of [str.splitlines] below 256, CR LF apart:
    LF, VT, FF, CR, FS, GS, RS and NEL. *)
Definition is_linebreak (c : ascii) : bool :=
  (between 10 13 c || between 28 30 c || Nat.eqb (code c) 133)%bool.

(** [s.splitlines()]: a line ends at a boundary, which is dropped; what
    follows the last boundary is a line only when it is not empty. *)
Fixpoint splitlines_from (cur : string) (s : string) : list string :=
  match s with
  | EmptyString => match cur with EmptyString => [] | _ => [cur] end
  | String c s' =>
      if Ascii.eqb c CR
      then match s' with
           | String d s'' =>
               if Ascii.eqb d LF then cur :: splitlines_from EmptyString s''
               else cur :: splitlines_from EmptyString s'
           | EmptyString => cur :: splitlines_from EmptyString s'
           end
      else if is_linebreak c then cur :: splitlines_from EmptyString s'
      else splitlines_from (cur ++ String c EmptyString) s'
  end.

Definition splitlines (s : string) : list string :=
  splitlines_from EmptyString s.

(** [sep.join(l)] *)
Fixpoint join (sep : string) (l : list string) : string :=
  match l with
  | [] => EmptyString
  | [x] => x
  | x :: l' => x ++ sep ++ join sep l'
  end.

(** *** [int(s)] and [float(s)] *)

(** Where the reader of a decimal literal stands: nothing read yet, a
    digit read last, or an underscore read last. *)
Inductive lit_state := AtStart | AfterDigit | AfterUnderscore.

(** The digits of a literal, single underscores allowed between two digits. *)
Fixpoint int_digits (acc : Z) (st : lit_state) (s : string) : option Z :=
  match s with
  | EmptyString => match st with AfterDigit => Some acc | _ => None end
  | String c s' =>
      if is_digit c then int_digits (10 * acc + digit_val c) AfterDigit s'
      else if Ascii.eqb c "_"
           then match st with
                | AfterDigit => int_digits acc AfterUnderscore s'
                | _ => None
                end
           else None
  end.

(** [int(s)] in base ten: white space around, an optional sign, digits.
    [None] is [ValueError]. The cap some versions of Python put on the
    number of digits (4300 by default) is a setting of the interpreter
    and is not modelled. *)
Definition py_int (s : string) : option Z :=
  match strip s with
  | String c body =>
      if Ascii.eqb c "-" then option_map Z.opp (int_digits 0 AtStart body)
      else if Ascii.eqb c "+" then int_digits 0 AtStart body
      else int_digits 0 AtStart (String c body)
  | EmptyString => None
  end.

(** The longest prefix of digits, and what follows it. *)
Fixpoint span_digits (s : string) : string * string :=
  match s with
  | String c s' =>
      if is_digit c
      then let (d, r) := span_digits s' in (String c d, r)
      else (EmptyString, s)
  | EmptyString => (EmptyString, EmptyString)
  end.

(** The number a run of digits denotes; 0 for the empty run. *)
Fixpoint digits_value (acc : Z) (s : string) : Z :=
  match s with
  | String c s' => digits_value (10 * acc + digit_val c) s'
  | EmptyString => acc
  end.

Definition pow10 (n : nat) : positive := Z.to_pos (10 ^ Z.of_nat n).

(** [float(s)] on a text of digits and dots, the only texts the script
    passes to it (captures of [[\d.]+]): digits, then optionally a dot and
    digits, with a digit on one side at least. [None] is [ValueError]. The
    float is modelled by the rational the literal denotes; the script only
    compares it with -1 and prints it. *)
Definition py_float (s : string) : option Q :=
  let (ip, r) := span_digits s in
  match r with
  | EmptyString =>
      match ip with
      | EmptyString => None
      | _ => Some (digits_value 0 ip # 1)
      end
  | String "." r' =>
      let (fp, r'') := span_digits r' in
      match r'' with
      | EmptyString =>
          match ip, fp with
          | EmptyString, EmptyString => None
          | _, _ => Some (digits_value 0 (ip ++ fp) # pow10 (String.length fp))
          end
      | _ => None
      end
  | _ => None
  end.

End PyStr.

(** ** Numbers: Python mixes [int] and [float] in one dictionary slot *)

Inductive pynum :=
| PInt (z : Z)
| PFloat (q : Q).

Definition num_Q (x : pynum) : Q :=
  match x with
  | PInt z => z # 1
  | PFloat q => q
  end.

(** [x == y] on numbers compares the values, across [int] and [float]. *)
Definition num_eqb (x y : pynum) : bool := Qeq_bool (num_Q x) (num_Q y).

(** The sentinel of the script for an unknown latency. *)
Definition minus_one : pynum := PInt (-1).

(** [x != -1] *)
Definition known (x : pynum) : bool := negb (num_eqb x minus_one).

(** ** The fragment of [re] the patterns of the script use

    Every repetition in the nine patterns is over a single character
    class, so [Rep] repeats a class; [Grp] numbers a capturing group,
    [Bol] is [^] without [re.MULTILINE]. *)

Module Re.

Inductive re :=
| Eps
| Chr (p : ascii -> bool)
| Rep (greedy : bool) (p : ascii -> bool)
| Seq (r1 r2 : re)
| Alt (r1 r2 : re)
| Grp (i : nat) (r : re)
| Bol.

(** The groups matched so far, the latest first. *)
Definition caps := list (nat * string).

(** A match object: [group m i] is [m.group(i)] for a group that took
    part in the match (all groups of the nine patterns do). *)
Fixpoint group (m : caps) (i : nat) : string :=
  match m with
  | (j, s) :: m' => if Nat.eqb i j then s else group m' i
  | [] => EmptyString
  end.

Section Matcher.
Context {A : Type}.

(** What is left to match: the rest of the text, the position reached
    and the groups so far give the final answer or fail. *)
Definition cont := string -> nat -> caps -> option A.

(** [p*]: as many characters as possible first, giving them back one
    by one while the rest fails. *)
Fixpoint rep_greedy (p : ascii -> bool) (s : string) (pos : nat)
    (c : caps) (k : cont) : option A :=
  match s with
  | String a s' =>
      if p a
      then match rep_greedy p s' (S pos) c k with
           | Some x => Some x
           | None => k s pos c
           end
      else k s pos c
  | EmptyString => k s pos c
  end.

(** [p*?]: as few characters as possible first. *)
Fixpoint rep_lazy (p : ascii -> bool) (s : string) (pos : nat)
    (c : caps) (k : cont) : option A :=
  match k s pos c with
  | Some x => Some x
  | None =>
      match s with
      | String a s' => if p a then rep_lazy p s' (S pos) c k else None
      | EmptyString => None
      end
  end.

(** The backtracking matcher: alternatives are tried in the order of
    [re], the first complete match wins. *)
Fixpoint mt (r : re) (s : string) (pos : nat) (c : caps) (k : cont)
    : option A :=
  match r with
  | Eps => k s pos c
  | Chr p =>
      match s with
      | String a s' => if p a then k s' (S pos) c else None
      | EmptyString => None
      end
  | Rep g p => if g then rep_greedy p s pos c k else rep_lazy p s pos c k
  | Seq r1 r2 => mt r1 s pos c (fun s' pos' c' => mt r2 s' pos' c' k)
  | Alt r1 r2 =>
      match mt r1 s pos c k with
      | Some x => Some x
      | None => mt r2 s pos c k
      end
  | Grp i r' =>
      mt r' s pos c
         (fun s' pos' c' => k s' pos' ((i, substring 0 (pos' - pos) s) :: c'))
  | Bol => if Nat.eqb pos 0 then k s pos c else None
  end.
End Matcher.

Definition match_at (r : re) (s : string) (pos : nat) : option caps :=
  mt r s pos [] (fun _ _ c => Some c).

(** [re.search]: the match at the leftmost position that has one; the
    position after the last character is tried too. *)
Fixpoint search_from (r : re) (s : string) (pos : nat) : option caps :=
  match match_at r s pos with
  | Some m => Some m
  | None =>
      match s with
      | String _ s' => search_from r s' (S pos)
      | EmptyString => None
      end
  end.

Definition search (r : re) (s : string) : option caps := search_from r s 0.

(** *** Writing patterns *)

Definition chr (a : ascii) : re := Chr (Ascii.eqb a).

(** A literal character under [re.IGNORECASE]. *)
Definition chr_ci (a : ascii) : re :=
  Chr (fun b => Ascii.eqb (PyStr.to_lower a) (PyStr.to_lower b)).

Fixpoint lit (s : string) : re :=
  match s with
  | String a EmptyString => chr a
  | String a s' => Seq (chr a) (lit s')
  | EmptyString => Eps
  end.

Fixpoint lit_ci (s : string) : re :=
  match s with
  | String a EmptyString => chr_ci a
  | String a s' => Seq (chr_ci a) (lit_ci s')
  | EmptyString => Eps
  end.

Definition star (p : ascii -> bool) : re := Rep true p.
Definition lazy_star (p : ascii -> bool) : re := Rep false p.
Definition plus (p : ascii -> bool) : re := Seq (Chr p) (Rep true p).

Fixpoint seqs (l : list re) : re :=
  match l with
  | [] => Eps
  | [r] => r
  | r :: l' => Seq r (seqs l')
  end.

(** *** Character classes *)

(** [\d] *)
Definition d : ascii -> bool := PyStr.is_digit.
(** [\s] *)
Definition sp : ascii -> bool := PyStr.is_space.
(** [[^\s]] *)
Definition not_sp (c : ascii) : bool := negb (PyStr.is_space c).
(** [.]: any character but the line feed *)
Definition dot (c : ascii) : bool := negb (Ascii.eqb c PyStr.LF).
(** [[\d.]] *)
Definition d_dot (c : ascii) : bool := (PyStr.is_digit c || Ascii.eqb c ".")%bool.
(** [[\d.<*]] *)
Definition d_dot_lt_star (c : ascii) : bool :=
  (PyStr.is_digit c || Ascii.eqb c "." || Ascii.eqb c "<" || Ascii.eqb c "*")%bool.
(** [[a-zA-Z0-9.-]] *)
Definition host_char (c : ascii) : bool :=
  (PyStr.is_lower c || PyStr.is_upper c || PyStr.between 48 57 c
   || Ascii.eqb c "." || Ascii.eqb c "-")%bool.

End Re.

(** ** The nine patterns of the script *)

Module Pat.
Import Re.

(** [\((\d+)% loss\)] *)
Definition win_loss : re :=
  seqs [chr "("; Grp 1 (plus d); lit "% loss)"].

(** [Average = (\d+)ms] *)
Definition win_avg : re :=
  seqs [lit "Average = "; Grp 1 (plus d); lit "ms"].

(** [(\d+)% packet loss] *)
Definition unix_loss : re :=
  seqs [Grp 1 (plus d); lit "% packet loss"].

(** [min/avg/max/mdev = [\d.]+/([\d.]+)/[\d.]+/[\d.]+ ms] *)
Definition unix_avg : re :=
  seqs [lit "min/avg/max/mdev = "; plus d_dot; chr "/"; Grp 1 (plus d_dot);
        chr "/"; plus d_dot; chr "/"; plus d_dot; lit " ms"].

(** [(OrgName|organization|descr):\s+(.+)] with [re.IGNORECASE] *)
Definition whois_org : re :=
  seqs [Grp 1 (Alt (lit_ci "OrgName") (Alt (lit_ci "organization") (lit_ci "descr")));
        chr ":"; plus sp; Grp 2 (plus dot)].

(** [(Country|country):\s+(.+)] with [re.IGNORECASE] *)
Definition whois_country : re :=
  seqs [Grp 1 (Alt (lit_ci "Country") (lit_ci "country"));
        chr ":"; plus sp; Grp 2 (plus dot)].

(** [^\s*(\d+)\s+[\d.<*]+ms\s+[\d.<*]+ms\s+[\d.<*]+ms\s+([a-zA-Z0-9.-]+)\s+\[([\d.]+|Request)\]] *)
Definition win_hop : re :=
  seqs [Bol; star sp; Grp 1 (plus d); plus sp;
        plus d_dot_lt_star; lit "ms"; plus sp;
        plus d_dot_lt_star; lit "ms"; plus sp;
        plus d_dot_lt_star; lit "ms"; plus sp;
        Grp 2 (plus host_char); plus sp; chr "[";
        Grp 3 (Alt (plus d_dot) (lit "Request")); chr "]"].

(** [^\s*(\d+)\s+\* \*\s*\*.*] *)
Definition win_timeout : re :=
  seqs [Bol; star sp; Grp 1 (plus d); plus sp; lit "* *"; star sp; chr "*";
        star dot].

(** [^\s*(\d+)\s+([^\s]+)\s+\(([\d.]+)\).*?([\d.]+) ms] *)
Definition unix_hop : re :=
  seqs [Bol; star sp; Grp 1 (plus d); plus sp; Grp 2 (plus not_sp); plus sp;
        chr "("; Grp 3 (plus d_dot); chr ")"; lazy_star dot;
        Grp 4 (plus d_dot); lit " ms"].

(** [^\s*\d+\s+\* \*\s*\*.*] *)
Definition unix_timeout : re :=
  seqs [Bol; star sp; plus d; plus sp; lit "* *"; star sp; chr "*"; star dot].

End Pat.

(** ** Exceptions, and a monad for code that changes a state and may raise *)

(** The exceptions the script names in its handlers, the [TypeError] the
    Windows branch of [run_traceroute] runs into, and [OtherError] for
    any other exception (a [PermissionError], say). All of them are
    instances of [Exception]. *)
Inductive exn :=
| TimeoutExpired
| FileNotFoundError
| IndexError
| ValueError
| CalledProcessError
| RequestException
| TypeError
| OtherError.

Definition exn_eqb (a b : exn) : bool :=
  match a, b with
  | TimeoutExpired, TimeoutExpired
  | FileNotFoundError, FileNotFoundError
  | IndexError, IndexError
  | ValueError, ValueError
  | CalledProcessError, CalledProcessError
  | RequestException, RequestException
  | TypeError, TypeError
  | OtherError, OtherError => true
  | _, _ => false
  end.

(** [except (E1, E2, ...)] *)
Definition one_of (es : list exn) (e : exn) : bool := existsb (exn_eqb e) es.

(** [except Exception] *)
Definition any_exception (e : exn) : bool := true.

Inductive res (A : Type) :=
| Ok (a : A)
| Raise (e : exn).
Arguments Ok {A} a.
Arguments Raise {A} e.

(** A computation over a state [S]: its result, or the exception it
    raised, and the state it leaves; a raise does not undo effects. *)
Definition M (S A : Type) : Type := S -> res A * S.

Definition ret {S A} (a : A) : M S A := fun s => (Ok a, s).

Definition raise {S A} (e : exn) : M S A := fun s => (Raise e, s).

Definition bind {S A B} (m : M S A) (k : A -> M S B) : M S B :=
  fun s =>
    match m s with
    | (Ok a, s') => k a s'
    | (Raise e, s') => (Raise e, s')
    end.

(** [try: m  except <caught>: h] *)
Definition try_except {S A} (m : M S A) (caught : exn -> bool)
    (h : exn -> M S A) : M S A :=
  fun s =>
    match m s with
    | (Ok a, s') => (Ok a, s')
    | (Raise e, s') => if caught e then h e s' else (Raise e, s')
    end.

Definition modify {S} (f : S -> S) : M S unit := fun s => (Ok tt, f s).

Definition gets {S A} (f : S -> A) : M S A := fun s => (Ok (f s), s).

Declare Scope py_scope.
Delimit Scope py_scope with py.
Notation "'let*' x ':=' m 'in' k" := (bind m (fun x => k))
  (at level 10, x name, m at level 100, k at level 200) : py_scope.
Notation "m1 ';;' m2" := (bind m1 (fun _ => m2))
  (at level 100, m2 at level 200, right associativity) : py_scope.

Local Open Scope py_scope.

(** [for x in l: body x] *)
Fixpoint for_each {S A} (l : list A) (body : A -> M S unit) : M S unit :=
  match l with
  | [] => ret tt
  | x :: l' => body x ;; for_each l' body
  end.

(** [if c: m] *)
Definition when {S} (c : bool) (m : M S unit) : M S unit :=
  if c then m else ret tt.

(** A function body with a local variable of type [L] that a handler of
    the body still reads after a raise: the local is part of the state. *)
Definition with_local {S L A} (init : L) (m : M (L * S) A) : M S A :=
  fun s => let '(r, (_, s')) := m (init, s) in (r, s').

Definition lift {S L A} (m : M S A) : M (L * S) A :=
  fun ls => let '(r, s') := m (snd ls) in (r, (fst ls, s')).

Definition local {S L} : M (L * S) L := gets fst.

Definition set_local {S L} (f : L -> L) : M (L * S) unit :=
  modify (fun ls => (f (fst ls), snd ls)).

(** ** The data of the script *)

(** The dictionary [check_connection] returns. *)
Record ping_result := {
  success : bool;
  packet_loss : Z;
  avg_latency : pynum
}.

(** The dictionary [get_whois_info] returns. *)
Record whois_info := {
  org_name : string;
  country : string
}.

(** An element of the list [run_traceroute] returns. *)
Record hop_record := {
  hop : Z;
  hostname : string;
  ip : string;
  latency : pynum;
  whois : whois_info
}.

(** The counters of [psutil.net_io_counters] the script reads. *)
Record snetio := {
  bytes_sent : Z;
  bytes_recv : Z;
  dropin : Z;
  dropout : Z
}.

(** ** The environment and the world *)

(** How a child process ends for its caller: it exits with a return code
    and the text it printed, or the call raises ([TimeoutExpired],
    [FileNotFoundError], some other error). *)
Inductive proc_outcome :=
| Exited (returncode : Z) (stdout : string)
| ProcRaise (e : exn).

(** [requests.get]: a response with its status code, or a raise. *)
Inductive http_outcome :=
| Response (status_code : Z)
| HttpRaise (e : exn).

(** [psutil.net_io_counters]: the counters, [None], or a raise. *)
Inductive netio_outcome :=
| NetIO (c : snetio)
| NetNone
| NetRaise (e : exn).

(** What the script asks of its surroundings. Answers are indexed by the
    number of earlier questions of the same kind, so that two runs of one
    command may differ. [start_server port] is what happens when the
    metrics server is started on [port]: [None] when it starts, the
    exception raised otherwise (an [OSError] when the port is taken). The
    text forms of floats, dates and exceptions are left to the
    environment. *)
Record env := {
  system_os : string;                              (* platform.system() *)
  spawn : nat -> list string -> proc_outcome;      (* a child process *)
  http_get : nat -> string -> http_outcome;        (* requests.get *)
  start_server : Z -> option exn;                  (* start_http_server *)
  net_io_counters : nat -> netio_outcome;          (* psutil *)
  time_time : nat -> Q;                            (* time.time() *)
  str_now : nat -> string;                         (* str(datetime.now()) *)
  strftime_now : nat -> string;                    (* '%Y-%m-%d %H:%M:%S' *)
  str_float : Q -> string;                         (* f"{x}" of a float *)
  fmt_2f : Q -> string;                            (* f"{x:.2f}" *)
  str_exn : exn -> string                          (* f"{e}" *)
}.

(** The gauges of the script. [Gauge.set] keeps the value of its
    argument; the labelled gauge is keyed by its labels hop, ip and
    hostname. *)
Record metrics := {
  PING_LATENCY_GAUGE : pynum;
  PACKET_LOSS_GAUGE : pynum;
  TRACEROUTE_HOPS_GAUGE : pynum;
  TRACEROUTE_HOP_LATENCY : gmap (string * string * string) pynum;
  bytes_received_gauge : pynum;
  bytes_transmitted_gauge : pynum;
  APPLICATION_RESPONSE_TIME_GAUGE : pynum;
  packets_dropped_gauge : pynum
}.

(** Everything the script changes, each list in the order of the events. *)
Record world := {
  procs : list (list string);          (* the child processes started *)
  requests : list string;              (* the URLs fetched *)
  stats_reads : nat;                   (* calls of psutil *)
  clock_reads : nat;                   (* readings of the clock *)
  console : list string;               (* what print wrote *)
  files : gmap string (list string);   (* what was written to each file *)
  threads : list string;               (* alert threads started, by sound *)
  sleeps : list Z;                     (* time.sleep *)
  gauges : metrics
}.

Definition set_procs (f : list (list string) -> list (list string)) (w : world) : world :=
  {| procs := f (procs w); requests := requests w; stats_reads := stats_reads w;
     clock_reads := clock_reads w; console := console w; files := files w;
     threads := threads w; sleeps := sleeps w; gauges := gauges w |}.

Definition set_requests (f : list string -> list string) (w : world) : world :=
  {| procs := procs w; requests := f (requests w); stats_reads := stats_reads w;
     clock_reads := clock_reads w; console := console w; files := files w;
     threads := threads w; sleeps := sleeps w; gauges := gauges w |}.

Definition set_stats_reads (f : nat -> nat) (w : world) : world :=
  {| procs := procs w; requests := requests w; stats_reads := f (stats_reads w);
     clock_reads := clock_reads w; console := console w; files := files w;
     threads := threads w; sleeps := sleeps w; gauges := gauges w |}.

Definition set_clock_reads (f : nat -> nat) (w : world) : world :=
  {| procs := procs w; requests := requests w; stats_reads := stats_reads w;
     clock_reads := f (clock_reads w); console := console w; files := files w;
     threads := threads w; sleeps := sleeps w; gauges := gauges w |}.

Definition set_console (f : list string -> list string) (w : world) : world :=
  {| procs := procs w; requests := requests w; stats_reads := stats_reads w;
     clock_reads := clock_reads w; console := f (console w); files := files w;
     threads := threads w; sleeps := sleeps w; gauges := gauges w |}.

Definition set_files (f : gmap string (list string) -> gmap string (list string))
    (w : world) : world :=
  {| procs := procs w; requests := requests w; stats_reads := stats_reads w;
     clock_reads := clock_reads w; console := console w; files := f (files w);
     threads := threads w; sleeps := sleeps w; gauges := gauges w |}.

Definition set_threads (f : list string -> list string) (w : world) : world :=
  {| procs := procs w; requests := requests w; stats_reads := stats_reads w;
     clock_reads := clock_reads w; console := console w; files := files w;
     threads := f (threads w); sleeps := sleeps w; gauges := gauges w |}.

Definition set_sleeps (f : list Z -> list Z) (w : world) : world :=
  {| procs := procs w; requests := requests w; stats_reads := stats_reads w;
     clock_reads := clock_reads w; console := console w; files := files w;
     threads := threads w; sleeps := f (sleeps w); gauges := gauges w |}.

Definition set_gauges (f : metrics -> metrics) (w : world) : world :=
  {| procs := procs w; requests := requests w; stats_reads := stats_reads w;
     clock_reads := clock_reads w; console := console w; files := files w;
     threads := threads w; sleeps := sleeps w; gauges := f (gauges w) |}.

(** [GAUGE.set(v)] for each gauge, [clear()] and [labels(...).set(v)]
    for the labelled one. *)
Module Gauge.

Definition set_PING_LATENCY (v : pynum) (g : metrics) : metrics :=
  {| PING_LATENCY_GAUGE := v;
     PACKET_LOSS_GAUGE := PACKET_LOSS_GAUGE g;
     TRACEROUTE_HOPS_GAUGE := TRACEROUTE_HOPS_GAUGE g;
     TRACEROUTE_HOP_LATENCY := TRACEROUTE_HOP_LATENCY g;
     bytes_received_gauge := bytes_received_gauge g;
     bytes_transmitted_gauge := bytes_transmitted_gauge g;
     APPLICATION_RESPONSE_TIME_GAUGE := APPLICATION_RESPONSE_TIME_GAUGE g;
     packets_dropped_gauge := packets_dropped_gauge g |}.

Definition set_PACKET_LOSS (v : pynum) (g : metrics) : metrics :=
  {| PING_LATENCY_GAUGE := PING_LATENCY_GAUGE g;
     PACKET_LOSS_GAUGE := v;
     TRACEROUTE_HOPS_GAUGE := TRACEROUTE_HOPS_GAUGE g;
     TRACEROUTE_HOP_LATENCY := TRACEROUTE_HOP_LATENCY g;
     bytes_received_gauge := bytes_received_gauge g;
     bytes_transmitted_gauge := bytes_transmitted_gauge g;
     APPLICATION_RESPONSE_TIME_GAUGE := APPLICATION_RESPONSE_TIME_GAUGE g;
     packets_dropped_gauge := packets_dropped_gauge g |}.

Definition set_TRACEROUTE_HOPS (v : pynum) (g : metrics) : metrics :=
  {| PING_LATENCY_GAUGE := PING_LATENCY_GAUGE g;
     PACKET_LOSS_GAUGE := PACKET_LOSS_GAUGE g;
     TRACEROUTE_HOPS_GAUGE := v;
     TRACEROUTE_HOP_LATENCY := TRACEROUTE_HOP_LATENCY g;
     bytes_received_gauge := bytes_received_gauge g;
     bytes_transmitted_gauge := bytes_transmitted_gauge g;
     APPLICATION_RESPONSE_TIME_GAUGE := APPLICATION_RESPONSE_TIME_GAUGE g;
     packets_dropped_gauge := packets_dropped_gauge g |}.

Definition upd_TRACEROUTE_HOP_LATENCY
    (f : gmap (string * string * string) pynum -> gmap (string * string * string) pynum)
    (g : metrics) : metrics :=
  {| PING_LATENCY_GAUGE := PING_LATENCY_GAUGE g;
     PACKET_LOSS_GAUGE := PACKET_LOSS_GAUGE g;
     TRACEROUTE_HOPS_GAUGE := TRACEROUTE_HOPS_GAUGE g;
     TRACEROUTE_HOP_LATENCY := f (TRACEROUTE_HOP_LATENCY g);
     bytes_received_gauge := bytes_received_gauge g;
     bytes_transmitted_gauge := bytes_transmitted_gauge g;
     APPLICATION_RESPONSE_TIME_GAUGE := APPLICATION_RESPONSE_TIME_GAUGE g;
     packets_dropped_gauge := packets_dropped_gauge g |}.

Definition set_bytes_received (v : pynum) (g : metrics) : metrics :=
  {| PING_LATENCY_GAUGE := PING_LATENCY_GAUGE g;
     PACKET_LOSS_GAUGE := PACKET_LOSS_GAUGE g;
     TRACEROUTE_HOPS_GAUGE := TRACEROUTE_HOPS_GAUGE g;
     TRACEROUTE_HOP_LATENCY := TRACEROUTE_HOP_LATENCY g;
     bytes_received_gauge := v;
     bytes_transmitted_gauge := bytes_transmitted_gauge g;
     APPLICATION_RESPONSE_TIME_GAUGE := APPLICATION_RESPONSE_TIME_GAUGE g;
     packets_dropped_gauge := packets_dropped_gauge g |}.

Definition set_bytes_transmitted (v : pynum) (g : metrics) : metrics :=
  {| PING_LATENCY_GAUGE := PING_LATENCY_GAUGE g;
     PACKET_LOSS_GAUGE := PACKET_LOSS_GAUGE g;
     TRACEROUTE_HOPS_GAUGE := TRACEROUTE_HOPS_GAUGE g;
     TRACEROUTE_HOP_LATENCY := TRACEROUTE_HOP_LATENCY g;
     bytes_received_gauge := bytes_received_gauge g;
     bytes_transmitted_gauge := v;
     APPLICATION_RESPONSE_TIME_GAUGE := APPLICATION_RESPONSE_TIME_GAUGE g;
     packets_dropped_gauge := packets_dropped_gauge g |}.

Definition set_APPLICATION_RESPONSE_TIME (v : pynum) (g : metrics) : metrics :=
  {| PING_LATENCY_GAUGE := PING_LATENCY_GAUGE g;
     PACKET_LOSS_GAUGE := PACKET_LOSS_GAUGE g;
     TRACEROUTE_HOPS_GAUGE := TRACEROUTE_HOPS_GAUGE g;
     TRACEROUTE_HOP_LATENCY := TRACEROUTE_HOP_LATENCY g;
     bytes_received_gauge := bytes_received_gauge g;
     bytes_transmitted_gauge := bytes_transmitted_gauge g;
     APPLICATION_RESPONSE_TIME_GAUGE := v;
     packets_dropped_gauge := packets_dropped_gauge g |}.

Definition set_packets_dropped (v : pynum) (g : metrics) : metrics :=
  {| PING_LATENCY_GAUGE := PING_LATENCY_GAUGE g;
     PACKET_LOSS_GAUGE := PACKET_LOSS_GAUGE g;
     TRACEROUTE_HOPS_GAUGE := TRACEROUTE_HOPS_GAUGE g;
     TRACEROUTE_HOP_LATENCY := TRACEROUTE_HOP_LATENCY g;
     bytes_received_gauge := bytes_received_gauge g;
     bytes_transmitted_gauge := bytes_transmitted_gauge g;
     APPLICATION_RESPONSE_TIME_GAUGE := APPLICATION_RESPONSE_TIME_GAUGE g;
     packets_dropped_gauge := v |}.

End Gauge.

(** ** Configuration *)

Definition INTERNET_HOST : string := "8.8.8.8".
Definition APPLICATION_URL : string := "https://www.google.com".
Definition LOG_FILE : string := "connection_log.txt".
Definition INTERVAL : Z := 10.
Definition PROMETHEUS_PORT : Z := 8000.
Definition VERBOSE : bool := true.

Definition ESC : string := String (ascii_of_nat 27) EmptyString.
Definition GREEN : string := ESC ++ "[92m".
Definition YELLOW : string := ESC ++ "[93m".
Definition RED : string := ESC ++ "[91m".
Definition RESET : string := ESC ++ "[0m".

Definition SOUND_ENABLED : bool := true.
Definition YELLOW_SOUND_PATH : string := "yellow_alert.wav".
Definition RED_SOUND_PATH : string := "red_alert.wav".

(** [str(n)] of an [int] *)
Definition str_int (n : Z) : string :=
  DecimalString.NilEmpty.string_of_int (Z.to_int n).

(** ** The script *)

Section Script.

Variable E : env.

(** [f"{x}"] of a number *)
Definition str_num (x : pynum) : string :=
  match x with
  | PInt z => str_int z
  | PFloat q => str_float E q
  end.

(** *** The primitives *)

Definition print (s : string) : M world unit :=
  modify (set_console (fun c => (c ++ [s])%list)).

(** One [f.write(chunk)] on a file opened for appending. *)
Definition file_append (name chunk : string) : M world unit :=
  modify (set_files (fun fs => <[name := (default [] (fs !! name) ++ [chunk])%list]> fs)).

(** Reading the clock gives the rank of the reading. *)
Definition read_clock : M world nat :=
  fun w => (Ok (clock_reads w), set_clock_reads S w).

Definition start_process (argv : list string) : M world proc_outcome :=
  fun w => (Ok (spawn E (length (procs w)) argv), set_procs (fun p => (p ++ [argv])%list) w).

(** [subprocess.run(argv, capture_output=True, text=True, timeout=...).stdout] *)
Definition subprocess_run (argv : list string) : M world string :=
  let* o := start_process argv in
  match o with
  | Exited _ out => ret out
  | ProcRaise e => raise e
  end.

(** [subprocess.check_output(argv, text=True, timeout=...)] *)
Definition check_output (argv : list string) : M world string :=
  let* o := start_process argv in
  match o with
  | Exited rc out => if Z.eqb rc 0 then ret out else raise CalledProcessError
  | ProcRaise e => raise e
  end.

(** [subprocess.Popen(argv, ...)]: the child is not waited for. *)
Definition Popen (argv : list string) : M world unit :=
  let* o := start_process argv in
  match o with
  | Exited _ _ => ret tt
  | ProcRaise e => raise e
  end.

(** [requests.get(url, timeout=5)] gives the status code of the response. *)
Definition requests_get (url : string) : M world Z :=
  fun w =>
    (match http_get E (length (requests w)) url with
     | Response st => Ok st
     | HttpRaise e => Raise e
     end, set_requests (fun r => (r ++ [url])%list) w).

(** [response.raise_for_status()] *)
Definition raise_for_status (status_code : Z) : M world unit :=
  if (Z.leb 400 status_code && Z.ltb status_code 600)%bool
  then raise RequestException else ret tt.

(** [int(s)] *)
Definition int {S} (s : string) : M S Z :=
  match PyStr.py_int s with
  | Some z => ret z
  | None => raise ValueError
  end.

(** [float(s)] *)
Definition float {S} (s : string) : M S pynum :=
  match PyStr.py_float s with
  | Some q => ret (PFloat q)
  | None => raise ValueError
  end.

(** [l[0]] *)
Definition first {S A} (l : list A) : M S A :=
  match l with
  | x :: _ => ret x
  | [] => raise IndexError
  end.

(** [threading.Thread(target=play_sound_mac, args=(path,), daemon=True).start()]:
    the loop only starts the thread. *)
Definition start_alert_thread (path : string) : M world unit :=
  modify (set_threads (fun t => (t ++ [path])%list)).

Definition time_sleep (seconds : Z) : M world unit :=
  modify (set_sleeps (fun l => (l ++ [seconds])%list)).

Definition set_gauge (f : metrics -> metrics) : M world unit :=
  modify (set_gauges f).

(** *** [play_sound_mac] *)

Definition play_sound_mac (file_path : string) : M world unit :=
  try_except
    (Popen ["afplay"; file_path])
    any_exception
    (fun e => print ("Error playing sound with afplay: " ++ str_exn E e)).

(** *** [check_connection] *)

Definition is_windows : bool := String.eqb (system_os E) "Windows".

Definition check_connection (host : string) : M world ping_result :=
  try_except
    (let command :=
       if is_windows then ["ping"; "-n"; "4"; host]
       else ["ping"; "-c"; "4"; host] in
     when VERBOSE (print ("Executing command: " ++ PyStr.join " " command)) ;;
     let* output := subprocess_run command in
     let* parsed :=
       if is_windows then
         let packet_loss_match := Re.search Pat.win_loss output in
         let avg_latency_match := Re.search Pat.win_avg output in
         let* loss :=
           match packet_loss_match with
           | Some m => int (Re.group m 1)
           | None => ret 100
           end in
         let* avg :=
           match avg_latency_match with
           | Some m => let* n := int (Re.group m 1) in ret (PInt n)
           | None => ret (PInt (-1))
           end in
         ret (loss, avg)
       else
         let packet_loss_match := Re.search Pat.unix_loss output in
         let avg_latency_match := Re.search Pat.unix_avg output in
         let* loss :=
           match packet_loss_match with
           | Some m => int (Re.group m 1)
           | None => ret 100
           end in
         let* avg :=
           match avg_latency_match with
           | Some m => float (Re.group m 1)
           | None => ret (PInt (-1))
           end in
         ret (loss, avg) in
     ret {| success := Z.ltb (fst parsed) 100;
            packet_loss := fst parsed;
            avg_latency := snd parsed |})
    (one_of [TimeoutExpired; FileNotFoundError; IndexError; ValueError])
    (fun _ => ret {| success := false; packet_loss := 100; avg_latency := PInt (-1) |}).

(** *** [get_whois_info] *)

Definition default_whois : whois_info := {| org_name := "N/A"; country := "N/A" |}.

Definition private_prefixes : list string :=
  ["192.168."; "10."; "172.16."; "172.17."; "172.18."; "172.19."; "172.20.";
   "172.21."; "172.22."; "172.23."; "172.24."; "172.25."; "172.26."; "172.27.";
   "172.28."; "172.29."; "172.30."; "172.31."].

(** The dictionary [whois_info] is the local of the body: it is filled
    in place and returned. *)
Definition get_whois_info (ip_address : string) : M world whois_info :=
  with_local default_whois
    (if PyStr.startswith_any ip_address private_prefixes then local
     else
       try_except
         (let* whois_output := lift (check_output ["whois"; ip_address]) in
          let org_name_match := Re.search Pat.whois_org whois_output in
          let country_match := Re.search Pat.whois_country whois_output in
          match org_name_match with
          | Some m =>
              set_local (fun i => {| org_name := PyStr.strip (Re.group m 2);
                                     country := country i |})
          | None => ret tt
          end ;;
          match country_match with
          | Some m =>
              set_local (fun i => {| org_name := org_name i;
                                     country := PyStr.strip (Re.group m 2) |})
          | None => ret tt
          end)
         (one_of [TimeoutExpired; FileNotFoundError; IndexError; ValueError;
                  CalledProcessError])
         (fun _ => ret tt) ;;
       local).

(** *** [run_traceroute] *)

Definition timed_out_hop (hop_num : Z) : hop_record :=
  {| hop := hop_num; hostname := "Timed Out"; ip := "Timed Out";
     latency := PInt (-1); whois := default_whois |}.

Definition failed_hop : hop_record :=
  {| hop := -1; hostname := "Traceroute Failed"; ip := "Traceroute Failed";
     latency := PInt (-1); whois := default_whois |}.

(** [traceroute_results.append(h)] *)
Definition append_hop {S} (h : hop_record) : M (list hop_record * S) unit :=
  set_local (fun l => (l ++ [h])%list).

(** The body of [for line in lines]; the list [traceroute_results] is
    the local. In the Windows branch a matching line ends in
    [match(3)], a call of the match object, which raises [TypeError]. *)
Definition trace_line (line : string) : M (list hop_record * world) unit :=
  match line with
  | EmptyString => ret tt
  | _ =>
      if is_windows then
        match Re.search Pat.win_hop line with
        | Some m =>
            let* hop_num := int (Re.group m 1) in
            let hostname := Re.group m 2 in
            raise TypeError
        | None =>
            match Re.search Pat.win_timeout line with
            | Some _ =>
                let* tok := first (PyStr.split (PyStr.strip line)) in
                let* hop_num := int tok in
                append_hop (timed_out_hop hop_num)
            | None => ret tt
            end
        end
      else
        match Re.search Pat.unix_hop line with
        | Some m =>
            let* hop_num := int (Re.group m 1) in
            let hostname := Re.group m 2 in
            let ip_address := Re.group m 3 in
            let* latency := float (Re.group m 4) in
            let* whois_info := lift (get_whois_info ip_address) in
            append_hop {| hop := hop_num; hostname := hostname; ip := ip_address;
                          latency := latency; whois := whois_info |}
        | None =>
            match Re.search Pat.unix_timeout line with
            | Some _ =>
                let* tok := first (PyStr.split (PyStr.strip line)) in
                let* hop_num := int tok in
                append_hop (timed_out_hop hop_num)
            | None => ret tt
            end
        end
  end.

Definition run_traceroute (host : string) : M world (list hop_record) :=
  with_local []
    (try_except
       (let command :=
          if is_windows then ["tracert"; "-w"; "1000"; host]
          else ["traceroute"; "-w"; "1"; host] in
        lift (when VERBOSE (print ("Executing command: " ++ PyStr.join " " command))) ;;
        let* full_traceroute_output := lift (check_output command) in
        let* t := lift read_clock in
        lift (file_append "traceroute_log.txt"
                (PyStr.nl ++ "--- Traceroute to " ++ host ++ " at " ++ str_now E t
                 ++ " ---" ++ PyStr.nl)) ;;
        lift (file_append "traceroute_log.txt" full_traceroute_output) ;;
        let lines := PyStr.splitlines full_traceroute_output in
        for_each lines trace_line)
       (one_of [TimeoutExpired; FileNotFoundError; IndexError; ValueError;
                CalledProcessError])
       (fun _ => append_hop failed_hop) ;;
     local).

(** *** [get_network_interface_stats] *)

(** [psutil.net_io_counters(pernic=False, nowrap=True)] *)
Definition psutil_net_io_counters : M world (option snetio) :=
  fun w =>
    (match net_io_counters E (stats_reads w) with
     | NetIO c => Ok (Some c)
     | NetNone => Ok None
     | NetRaise e => Raise e
     end, set_stats_reads S w).

Definition zero_interface_gauges : M world unit :=
  set_gauge (Gauge.set_bytes_received (PInt 0)) ;;
  set_gauge (Gauge.set_bytes_transmitted (PInt 0)) ;;
  set_gauge (Gauge.set_packets_dropped (PInt 0)).

Definition get_network_interface_stats : M world unit :=
  try_except
    (let* net_io := psutil_net_io_counters in
     match net_io with
     | Some c =>
         set_gauge (Gauge.set_bytes_received (PInt (bytes_recv c))) ;;
         set_gauge (Gauge.set_bytes_transmitted (PInt (bytes_sent c))) ;;
         set_gauge (Gauge.set_packets_dropped (PInt (dropin c + dropout c))) ;;
         print ("Network stats: Received " ++ str_int (bytes_recv c)
                ++ " bytes, Transmitted " ++ str_int (bytes_sent c)
                ++ " bytes. Dropped packets: " ++ str_int (dropin c + dropout c))
     | None =>
         print "Could not retrieve network I/O counters." ;;
         zero_interface_gauges
     end)
    any_exception
    (fun e =>
       print ("Error getting network stats with psutil: " ++ str_exn E e) ;;
       zero_interface_gauges).

(** *** [check_application_response_time] *)

Definition check_application_response_time (url : string) : M world pynum :=
  try_except
    (let* t0 := read_clock in
     let start_time := time_time E t0 in
     let* status_code := requests_get url in
     let* t1 := read_clock in
     let end_time := time_time E t1 in
     let response_time := ((end_time - start_time) * (1000 # 1))%Q in
     raise_for_status status_code ;;
     ret (PFloat response_time))
    (one_of [RequestException])
    (fun e =>
       print ("Error checking application response time for " ++ url ++ ": "
              ++ str_exn E e) ;;
       ret (PInt (-1))).

(** *** [main]: what comes before the loop *)

(** [start_http_server(port)]: the server that exposes the gauges runs
    beside the script and leaves no trace in the world; the call raises
    when the server cannot start. *)
Definition start_http_server (port : Z) : M world unit :=
  match start_server E port with
  | None => ret tt
  | Some e => raise e
  end.

Definition main_startup : M world unit :=
  print "Starting network connection quality monitoring..." ;;
  print ("Checking connections every " ++ str_int INTERVAL
         ++ " seconds. Press Ctrl+C to stop.") ;;
  start_http_server PROMETHEUS_PORT ;;
  print ("Prometheus metrics exposed on port " ++ str_int PROMETHEUS_PORT ++ ".") ;;
  print "Testing sound alerts..." ;;
  when SOUND_ENABLED
    (try_except
       (play_sound_mac YELLOW_SOUND_PATH ;;
        time_sleep 1 ;;
        play_sound_mac RED_SOUND_PATH ;;
        time_sleep 1 ;;
        print "Sound test complete.")
       any_exception
       (fun e => print ("Sound test failed: " ++ str_exn E e))) ;;
  file_append LOG_FILE ("--- Network Quality Monitoring Log --- " ++ PyStr.nl) ;;
  let* t := read_clock in
  file_append LOG_FILE ("Started at: " ++ strftime_now E t ++ PyStr.nl) ;;
  file_append LOG_FILE ("Monitoring host: " ++ INTERNET_HOST ++ PyStr.nl) ;;
  file_append LOG_FILE ("-------------------------------------" ++ PyStr.nl).

(** *** [main]: one iteration of the loop, after the four probes *)

(** The key of [TRACEROUTE_HOP_LATENCY.labels(hop=..., ip=..., hostname=...)]. *)
Definition labels_of (h : hop_record) : string * string * string :=
  (str_int (hop h), ip h, hostname h).

(** "Update Prometheus metrics with the latest data" *)
Definition update_metrics (internet_ping_result : ping_result)
    (traceroute_results : list hop_record) (application_response_time : pynum)
    : M world unit :=
  set_gauge (Gauge.set_PING_LATENCY (avg_latency internet_ping_result)) ;;
  set_gauge (Gauge.set_PACKET_LOSS (PInt (packet_loss internet_ping_result))) ;;
  set_gauge (Gauge.set_TRACEROUTE_HOPS (PInt (Z.of_nat (length traceroute_results)))) ;;
  when (known application_response_time)
    (set_gauge (Gauge.set_APPLICATION_RESPONSE_TIME application_response_time)) ;;
  set_gauge (Gauge.upd_TRACEROUTE_HOP_LATENCY (fun _ => ∅)) ;;
  for_each traceroute_results
    (fun h =>
       when (known (latency h))
         (set_gauge (Gauge.upd_TRACEROUTE_HOP_LATENCY
                       (fun m => <[labels_of h := latency h]> m)))).

(** "Determine color based on overall status" *)
Definition determine_color (loss : Z) : M world string :=
  if Z.eqb loss 0 then ret GREEN
  else if (Z.gtb loss 0 && Z.ltb loss 100)%bool then
    when SOUND_ENABLED (start_alert_thread YELLOW_SOUND_PATH) ;;
    ret YELLOW
  else
    when SOUND_ENABLED (start_alert_thread RED_SOUND_PATH) ;;
    ret RED.

Definition hop_report (h : hop_record) : string :=
  (if known (latency h)
   then PyStr.nl ++ "  Hop " ++ str_int (hop h) ++ ": " ++ hostname h ++ " ("
        ++ ip h ++ ") (" ++ str_num (latency h) ++ "ms)"
   else PyStr.nl ++ "  Hop " ++ str_int (hop h) ++ ": " ++ hostname h ++ " ("
        ++ ip h ++ ")")
  ++ (if String.eqb (org_name (whois h)) "N/A" then EmptyString
      else PyStr.nl ++ "    - Owned by: " ++ org_name (whois h) ++ ", Country: "
           ++ country (whois h)).

(** "Prepare verbose console output" *)
Definition console_report (current_time : string)
    (internet_ping_result : ping_result)
    (traceroute_results : list hop_record) (application_response_time : pynum)
    : string :=
  PyStr.nl ++ current_time
  ++ PyStr.nl ++ "--------------------------------------------"
  ++ (if success internet_ping_result
      then PyStr.nl ++ "- The internet connection is STABLE."
           ++ " Latency is at " ++ str_num (avg_latency internet_ping_result)
           ++ "ms with " ++ str_int (packet_loss internet_ping_result)
           ++ "% packet loss."
      else PyStr.nl ++ "- The internet connection is DOWN."
           ++ " There is " ++ str_int (packet_loss internet_ping_result)
           ++ "% packet loss to the internet, indicating a complete outage.")
  ++ (if known application_response_time
      then PyStr.nl ++ "- The application response time for " ++ APPLICATION_URL
           ++ " is " ++ fmt_2f E (num_Q application_response_time) ++ "ms."
      else PyStr.nl ++ "- Failed to get application response time for "
           ++ APPLICATION_URL ++ ".")
  ++ (match traceroute_results with
      | [] => EmptyString
      | _ => PyStr.nl ++ PyStr.nl ++ "Path to " ++ INTERNET_HOST ++ ":"
             ++ String.concat EmptyString (map hop_report traceroute_results)
      end).

(** [packet_loss > 0 or any(hop['latency'] == -1 for hop in traceroute_results)] *)
Definition should_log (loss : Z) (traceroute_results : list hop_record) : bool :=
  (Z.gtb loss 0 || existsb (fun h => num_eqb (latency h) minus_one) traceroute_results)%bool.

Definition process_results (current_time : string)
    (internet_ping_result : ping_result)
    (traceroute_results : list hop_record) (application_response_time : pynum)
    : M world unit :=
  let loss := packet_loss internet_ping_result in
  update_metrics internet_ping_result traceroute_results application_response_time ;;
  let* color := determine_color loss in
  let console_output :=
    console_report current_time internet_ping_result traceroute_results
      application_response_time in
  print (color ++ console_output ++ RESET) ;;
  when (should_log loss traceroute_results)
    (file_append LOG_FILE (console_output ++ PyStr.nl)) ;;
  time_sleep INTERVAL.

(** *** [main]: the loop *)

(** One iteration of [while True]. *)
Definition loop_iteration : M world unit :=
  let* t := read_clock in
  let current_time := strftime_now E t in
  let* internet_ping_result := check_connection INTERNET_HOST in
  let* traceroute_results := run_traceroute INTERNET_HOST in
  get_network_interface_stats ;;
  let* application_response_time :=
    check_application_response_time APPLICATION_URL in
  process_results current_time internet_ping_result traceroute_results
    application_response_time.

(** The first [n] iterations. *)
Fixpoint iterations (n : nat) : M world unit :=
  match n with
  | O => ret tt
  | S n' => loop_iteration ;; iterations n'
  end.

Definition main (n : nat) : M world unit :=
  main_startup ;; iterations n.

End Script.

(** ** Vocabulary of the statements *)

(** Every character of [t] is in the class [p]. *)
Fixpoint all_chars (p : ascii -> bool) (t : string) : bool :=
  match t with
  | String a t' => (p a && all_chars p t')%bool
  | EmptyString => true
  end.

(** What a pattern matches, read off the pattern: [den r pos t c c']
    holds when [r] matches exactly the text [t] starting at position
    [pos], and turns the groups [c] into [c']. *)
Fixpoint den (r : Re.re) (pos : nat) (t : string) (c c' : Re.caps) : Prop :=
  match r with
  | Re.Eps => t = EmptyString /\ c' = c
  | Re.Chr p => (exists a, t = String a EmptyString /\ p a = true) /\ c' = c
  | Re.Rep _ p => all_chars p t = true /\ c' = c
  | Re.Seq r1 r2 =>
      exists t1 t2 c1,
        t = t1 ++ t2 /\ den r1 pos t1 c c1
        /\ den r2 (pos + String.length t1) t2 c1 c'
  | Re.Alt r1 r2 => den r1 pos t c c' \/ den r2 pos t c c'
  | Re.Grp i r' => exists c0, den r' pos t c c0 /\ c' = (i, t) :: c0
  | Re.Bol => pos = O /\ t = EmptyString /\ c' = c
  end.

(** The command line of each probe. *)
Definition ping_command (E : env) (host : string) : list string :=
  if is_windows E then ["ping"; "-n"; "4"; host] else ["ping"; "-c"; "4"; host].

Definition traceroute_command (E : env) (host : string) : list string :=
  if is_windows E then ["tracert"; "-w"; "1000"; host]
  else ["traceroute"; "-w"; "1"; host].

(** The patterns [check_connection] looks for on the platform of [E]. *)
Definition loss_pattern (E : env) : Re.re :=
  if is_windows E then Pat.win_loss else Pat.unix_loss.

Definition avg_pattern (E : env) : Re.re :=
  if is_windows E then Pat.win_avg else Pat.unix_avg.

(** [if m:] on the result of [re.search] *)
Definition found {A} (m : option A) : bool :=
  match m with Some _ => true | None => false end.

(** A line of the output of the path command that [run_traceroute]
    takes for a hop, answered or timed out. *)
Definition hop_line (E : env) (line : string) : bool :=
  if is_windows E
  then (found (Re.search Pat.win_hop line) || found (Re.search Pat.win_timeout line))%bool
  else (found (Re.search Pat.unix_hop line) || found (Re.search Pat.unix_timeout line))%bool.

(** The probe did not run to its end: the exceptions the handlers of
    [check_connection] name for a command that is missing or too slow. *)
Definition ping_command_fails (o : proc_outcome) : Prop :=
  o = ProcRaise FileNotFoundError \/ o = ProcRaise TimeoutExpired.

(** The path command did not run to its end, or ended with an error status. *)
Definition traceroute_command_fails (o : proc_outcome) : Prop :=
  o = ProcRaise FileNotFoundError \/ o = ProcRaise TimeoutExpired
  \/ exists rc out, o = Exited rc out /\ rc <> 0.

(** The request ended in a status [raise_for_status] rejects, or raised
    an error of [requests]. *)
Definition request_fails (o : http_outcome) : Prop :=
  (exists st, o = Response st /\ 400 <= st < 600) \/ o = HttpRaise RequestException.

(** The dotted decimal text of an IPv4 address. *)
Definition dotted (a b c d : Z) : string :=
  str_int a ++ "." ++ str_int b ++ "." ++ str_int c ++ "." ++ str_int d.

(** 10.0.0.0/8, 172.16.0.0/12 and 192.168.0.0/16, by the first two bytes. *)
Definition private_address (a b : Z) : Prop :=
  a = 10 \/ (a = 172 /\ 16 <= b <= 31) \/ (a = 192 /\ b = 168).

(** What [check_connection] reads in the output of the command: the
    loss, 100 when the pattern is absent, and the average latency, -1
    when the pattern is absent. [None] is the [ValueError] of [int] or
    [float]. *)
Definition parse_loss (E : env) (out : string) : option Z :=
  match Re.search (loss_pattern E) out with
  | Some m => PyStr.py_int (Re.group m 1)
  | None => Some 100
  end.

Definition parse_avg (E : env) (out : string) : option pynum :=
  match Re.search (avg_pattern E) out with
  | Some m =>
      if is_windows E then option_map PInt (PyStr.py_int (Re.group m 1))
      else option_map PFloat (PyStr.py_float (Re.group m 1))
  | None => Some (PInt (-1))
  end.

(** The dictionary of the handler of [check_connection]. *)
Definition ping_failed : ping_result :=
  {| success := false; packet_loss := 100; avg_latency := PInt (-1) |}.

Definition ping_handled : list exn :=
  [TimeoutExpired; FileNotFoundError; IndexError; ValueError].

Definition traceroute_handled : list exn :=
  [TimeoutExpired; FileNotFoundError; IndexError; ValueError; CalledProcessError].

(** The world once [check_connection] has echoed and started its command. *)
Definition ping_started (E : env) (host : string) (w : world) : world :=
  set_procs (fun p => (p ++ [ping_command E host])%list)
    (set_console
       (fun c => (c ++ [("Executing command: "
                         ++ PyStr.join " " (ping_command E host))%string])%list) w).

(** The labelled series after the loop over the hops, from the series [m]. *)
Definition hop_series (tr : list hop_record)
    (m : gmap (string * string * string) pynum) : gmap (string * string * string) pynum :=
  fold_left (fun m h => if known (latency h) then <[labels_of h := latency h]> m else m)
    tr m.

(** The sound of the alert a loss calls for, if any. *)
Definition alert_for (loss : Z) : list string :=
  if Z.eqb loss 0 then []
  else if (Z.gtb loss 0 && Z.ltb loss 100)%bool then [YELLOW_SOUND_PATH]
  else [RED_SOUND_PATH].

Definition color_for (loss : Z) : string :=
  if Z.eqb loss 0 then GREEN
  else if (Z.gtb loss 0 && Z.ltb loss 100)%bool then YELLOW
  else RED.

(** A computation leaves an observation [f] of the state as it found it. *)
Definition keeps {S X A} (f : S -> X) (m : M S A) : Prop :=
  forall s, f (snd (m s)) = f s.

(** The gauges once [update_metrics] has run on the gauges [g]. *)
Definition published (p : ping_result) (tr : list hop_record) (app : pynum)
    (g : metrics) : metrics :=
  {| PING_LATENCY_GAUGE := avg_latency p;
     PACKET_LOSS_GAUGE := PInt (packet_loss p);
     TRACEROUTE_HOPS_GAUGE := PInt (Z.of_nat (length tr));
     TRACEROUTE_HOP_LATENCY := hop_series tr ∅;
     bytes_received_gauge := bytes_received_gauge g;
     bytes_transmitted_gauge := bytes_transmitted_gauge g;
     APPLICATION_RESPONSE_TIME_GAUGE :=
       if known app then app else APPLICATION_RESPONSE_TIME_GAUGE g;
     packets_dropped_gauge := packets_dropped_gauge g |}.

(** What the probes before the application probe must leave alone for
    the application gauge to stay: the requests made and the gauge. *)
Definition app_view (w : world) : list string * pynum :=
  (requests w, APPLICATION_RESPONSE_TIME_GAUGE (gauges w)).

Definition echoed (argv : list string) (w : world) : world :=
  set_console
    (fun c => (c ++ [("Executing command: " ++ PyStr.join " " argv)%string])%list) w.

(** The world once [run_traceroute] has echoed and started its command,
    and once it has written the output to its own log. *)
Definition traceroute_started (E : env) (host : string) (w : world) : world :=
  set_procs (fun p => (p ++ [traceroute_command E host])%list)
    (echoed (traceroute_command E host) w).

Definition traceroute_logged (E : env) (host out : string) (w : world) : world :=
  let w1 := traceroute_started E host w in
  let header := PyStr.nl ++ "--- Traceroute to " ++ host ++ " at "
                ++ str_now E (clock_reads w1) ++ " ---" ++ PyStr.nl in
  set_files (fun fs =>
      <["traceroute_log.txt" := (default [] (fs !! "traceroute_log.txt") ++ [out])%list]> fs)
    (set_files (fun fs =>
         <["traceroute_log.txt" := (default [] (fs !! "traceroute_log.txt") ++ [header])%list]> fs)
       (set_clock_reads S w1)).

(** ** Sample inputs *)

Module Sample.

Definition line (s : string) : string := s ++ PyStr.nl.

(** Four replies out of four. *)
Definition ping_reply : string :=
  line "PING 8.8.8.8 (8.8.8.8) 56(84) bytes of data."
  ++ line "64 bytes from 8.8.8.8: icmp_seq=1 ttl=117 time=11.1 ms"
  ++ line "--- 8.8.8.8 ping statistics ---"
  ++ line "4 packets transmitted, 4 received, 0% packet loss, time 3004ms"
  ++ line "rtt min/avg/max/mdev = 11.1/12.3/13.5/0.9 ms".

(** No reply at all: the summary has no round-trip line. *)
Definition ping_all_lost : string :=
  line "PING 8.8.8.8 (8.8.8.8) 56(84) bytes of data."
  ++ line "--- 8.8.8.8 ping statistics ---"
  ++ line "4 packets transmitted, 0 received, 100% packet loss, time 3055ms".

(** A loss that is not a whole number of percent. *)
Definition ping_third_lost : string :=
  line "PING 8.8.8.8 (8.8.8.8) 56(84) bytes of data."
  ++ line "--- 8.8.8.8 ping statistics ---"
  ++ line "3 packets transmitted, 2 received, 33.3333% packet loss, time 2003ms"
  ++ line "rtt min/avg/max/mdev = 11.1/12.3/13.5/0.9 ms".

(** One reply lost, in an output cut before its round-trip line. *)
Definition ping_quarter_lost : string :=
  line "PING 8.8.8.8 (8.8.8.8) 56(84) bytes of data."
  ++ line "--- 8.8.8.8 ping statistics ---"
  ++ line "4 packets transmitted, 3 received, 25% packet loss, time 3004ms".

(** The command ran and printed nothing the patterns know. *)
Definition ping_unreachable : string :=
  line "ping: connect: Network is unreachable".

Definition path_header : string :=
  line "traceroute to 8.8.8.8 (8.8.8.8), 30 hops max, 60 byte packets".

(** A gateway, a silent hop and the target. *)
Definition path_reply : string :=
  path_header
  ++ line " 1  gw.local (192.168.1.1)  1.234 ms  1.1 ms  1.0 ms"
  ++ line " 2  * * *"
  ++ line " 3  dns.google (8.8.8.8)  9.5 ms  9.1 ms  9.0 ms".

(** Every hop lost its first probe: no line has the shape of a hop
    line or of a silent hop. *)
Definition path_first_probes_lost : string :=
  path_header
  ++ line " 1  * gw.local (192.168.1.1)  1.1 ms  1.0 ms"
  ++ line " 2  * dns.google (8.8.8.8)  9.1 ms  9.0 ms".

Definition whois_reply : string :=
  line "NetRange:       8.8.8.0 - 8.8.8.255"
  ++ line "OrgName:        Google LLC"
  ++ line "Country:        US".

Definition counters : snetio :=
  {| bytes_sent := 1000; bytes_recv := 2000; dropin := 1; dropout := 2 |}.

(** A Linux host on which [ping], [traceroute] and the request end as
    given; [whois] answers, [afplay] is missing. *)
Definition linux (ping path : proc_outcome) (http : http_outcome) : env :=
  {| system_os := "Linux";
     spawn := fun _ argv =>
       match argv with
       | "ping" :: _ => ping
       | "traceroute" :: _ => path
       | "whois" :: _ => Exited 0 whois_reply
       | _ => ProcRaise FileNotFoundError
       end;
     http_get := fun _ _ => http;
     start_server := fun _ => None;
     net_io_counters := fun _ => NetIO counters;
     time_time := fun n => Z.of_nat n # 4;
     str_now := fun _ => "2026-01-01 00:00:00.000000";
     strftime_now := fun _ => "2026-01-01 00:00:00";
     str_float := fun _ => "<float>";
     fmt_2f := fun _ => "<float:.2f>";
     str_exn := fun _ => "<exception>" |}.

(** All is well. *)
Definition healthy : env := linux (Exited 0 ping_reply) (Exited 0 path_reply) (Response 200).


(** The gauges of a fresh process read 0. *)
Definition gauges0 : metrics :=
  {| PING_LATENCY_GAUGE := PInt 0;
     PACKET_LOSS_GAUGE := PInt 0;
     TRACEROUTE_HOPS_GAUGE := PInt 0;
     TRACEROUTE_HOP_LATENCY := ∅;
     bytes_received_gauge := PInt 0;
     bytes_transmitted_gauge := PInt 0;
     APPLICATION_RESPONSE_TIME_GAUGE := PInt 0;
     packets_dropped_gauge := PInt 0 |}.

Definition world0 : world :=
  {| procs := []; requests := []; stats_reads := 0; clock_reads := 0;
     console := []; files := ∅; threads := []; sleeps := [];
     gauges := gauges0 |}.

(** The world after one iteration on the healthy host: the gauges hold
    that iteration's values. *)
Definition world1 : world := snd (loop_iteration healthy world0).

Definition gateway : hop_record :=
  {| hop := 1; hostname := "gw.local"; ip := "192.168.1.1";
     latency := PFloat (1234 # 1000); whois := default_whois |}.

Definition silent : hop_record := timed_out_hop 2.

Definition nominal : ping_result :=
  {| success := true; packet_loss := 0; avg_latency := PFloat (123 # 10) |}.

End Sample.

(** ** Vocabulary of the further statements *)

(** The command line of the ownership lookup. *)
Definition whois_command (ip_address : string) : list string :=
  ["whois"; ip_address].

(** The ownership lookup did not run to its end, or ended with an error
    status. *)
Definition whois_command_fails (o : proc_outcome) : Prop :=
  o = ProcRaise FileNotFoundError \/ o = ProcRaise TimeoutExpired
  \/ exists rc out, o = Exited rc out /\ rc <> 0.

(** A byte of an address. *)
Definition octet (n : Z) : Prop := 0 <= n <= 255.

(** [private_address], decided. *)
Definition private_addressb (a b : Z) : bool :=
  (Z.eqb a 10 || (Z.eqb a 172 && Z.leb 16 b && Z.leb b 31)
   || (Z.eqb a 192 && Z.eqb b 168))%bool.

(** Two texts differ at a position both have. *)
Fixpoint differ (s p : string) : bool :=
  match s, p with
  | String a s', String b p' => (negb (Ascii.eqb b a) || differ s' p')%bool
  | _, _ => false
  end.

(** The numbers 0 to 255. *)
Definition octets : list Z := map Z.of_nat (seq 0 256).

(** The first two bytes of an address and their dots. *)
Definition dotted_head (a b : Z) : string :=
  str_int a ++ "." ++ str_int b ++ ".".

(** A latency is the sentinel itself or is not negative. *)
Definition sentinel_or_nonneg (x : pynum) : Prop :=
  x = minus_one \/ (0 <= num_Q x)%Q.

(** The numbers of the groups of a pattern. *)
Fixpoint grp_ids (r : Re.re) : list nat :=
  match r with
  | Re.Seq r1 r2 | Re.Alt r1 r2 => (grp_ids r1 ++ grp_ids r2)%list
  | Re.Grp i r' => i :: grp_ids r'
  | _ => []
  end.

(** The header [run_traceroute] writes to its log before the raw output. *)
Definition trace_header (E : env) (host : string) (w : world) : string :=
  PyStr.nl ++ "--- Traceroute to " ++ host ++ " at " ++ str_now E (clock_reads w)
  ++ " ---" ++ PyStr.nl.

(** What [get_whois_info] reads in the answer of the registry. *)
Definition parse_whois (out : string) : whois_info :=
  {| org_name :=
       match Re.search Pat.whois_org out with
       | Some m => PyStr.strip (Re.group m 2)
       | None => "N/A"
       end;
     country :=
       match Re.search Pat.whois_country out with
       | Some m => PyStr.strip (Re.group m 2)
       | None => "N/A"
       end |}.

(** A line [run_traceroute] takes for a hop that did not answer: it has
    not the shape of an answered hop and has the shape of a silent one. *)
Definition silent_line (E : env) (line : string) : bool :=
  if is_windows E
  then (negb (found (Re.search Pat.win_hop line))
        && found (Re.search Pat.win_timeout line))%bool
  else (negb (found (Re.search Pat.unix_hop line))
        && found (Re.search Pat.unix_timeout line))%bool.

(** [s.lower()] on the letters below 128, the way [re.IGNORECASE]
    compares a text with a pattern written in ASCII. *)
Fixpoint lower (s : string) : string :=
  match s with
  | String a s' => String (PyStr.to_lower a) (lower s')
  | EmptyString => EmptyString
  end.

(** [v] is a value the text [out] gives under one of the [labels]: [out]
    has the label, in any case, a colon, white space, then [v], which
    runs to the end of its line. *)
Definition labelled_value (labels : list string) (out v : string) : Prop :=
  exists pre lab sps post,
    out = pre ++ lab ++ String ":" (sps ++ v ++ post)
    /\ In (lower lab) labels
    /\ sps <> EmptyString /\ all_chars PyStr.is_space sps = true
    /\ v <> EmptyString /\ all_chars Re.dot v = true
    /\ (post = EmptyString \/ exists post', post = String PyStr.LF post').

(** * Properties *)

(** ** The model at work *)

Example search_unix_loss :
  Re.search Pat.unix_loss
    "4 packets transmitted, 4 received, 0% packet loss, time 3004ms"
  = Some [(1%nat, "0")].
Proof. reflexivity. Qed.

Example search_unix_avg :
  Re.search Pat.unix_avg "rtt min/avg/max/mdev = 11.1/12.3/13.5/0.9 ms"
  = Some [(1%nat, "12.3")].
Proof. reflexivity. Qed.

(** The lazy [.*?] stops at the first latency of the line. *)
Example search_unix_hop :
  Re.search Pat.unix_hop " 1  gw.local (192.168.1.1)  1.234 ms  1.1 ms  1.0 ms"
  = Some [(4%nat, "1.234"); (3%nat, "192.168.1.1"); (2%nat, "gw.local");
          (1%nat, "1")].
Proof. reflexivity. Qed.

Example search_unix_hop_header :
  Re.search Pat.unix_hop
    "traceroute to 8.8.8.8 (8.8.8.8), 30 hops max, 60 byte packets" = None.
Proof. reflexivity. Qed.

Example search_whois_org :
  Re.search Pat.whois_org Sample.whois_reply
  = Some [(2%nat, "Google LLC"); (1%nat, "OrgName")].
Proof. reflexivity. Qed.

Example int_and_float :
  PyStr.py_int " 0042 " = Some 42 /\ PyStr.py_int "4x" = None
  /\ PyStr.py_float "12.3" = Some (123 # 10) /\ PyStr.py_float "1.2.3" = None.
Proof. repeat split. Qed.

Example splitlines_sample :
  PyStr.splitlines Sample.path_first_probes_lost
  = ["traceroute to 8.8.8.8 (8.8.8.8), 30 hops max, 60 byte packets";
     " 1  * gw.local (192.168.1.1)  1.1 ms  1.0 ms";
     " 2  * dns.google (8.8.8.8)  9.1 ms  9.0 ms"].
Proof. reflexivity. Qed.

Example healthy_ping :
  fst (check_connection Sample.healthy INTERNET_HOST Sample.world0)
  = Ok Sample.nominal.
Proof. reflexivity. Qed.

Example healthy_path :
  fst (run_traceroute Sample.healthy INTERNET_HOST Sample.world0)
  = Ok [Sample.gateway; Sample.silent;
        {| hop := 3; hostname := "dns.google"; ip := "8.8.8.8";
           latency := PFloat (95 # 10);
           whois := {| org_name := "Google LLC"; country := "US" |} |}].
Proof. vm_compute. reflexivity. Qed.

(** ** Texts *)

Lemma append_cons (a : ascii) (s t : string) : String a s ++ t = String a (s ++ t).
Proof. reflexivity. Qed.

Lemma append_nil_l (s : string) : EmptyString ++ s = s.
Proof. reflexivity. Qed.

Lemma append_assoc (s1 s2 s3 : string) : (s1 ++ s2) ++ s3 = s1 ++ (s2 ++ s3).
Proof.
  induction s1 as [|a s1 IH]; [reflexivity|]. now rewrite !append_cons, IH.
Qed.

Lemma length_append (s1 s2 : string) :
  String.length (s1 ++ s2) = (String.length s1 + String.length s2)%nat.
Proof.
  induction s1 as [|a s1 IH]; [reflexivity|].
  rewrite append_cons. simpl. now rewrite IH.
Qed.

Lemma substring_append (t s : string) : substring 0 (String.length t) (t ++ s) = t.
Proof.
  induction t as [|a t IH].
  - now destruct s.
  - rewrite append_cons. simpl. now rewrite IH.
Qed.

(** ** The matcher finds only what the pattern denotes *)

Section MatcherSound.
Context {A : Type}.
Implicit Types (k : @Re.cont A) (s t : string) (c : Re.caps).

Lemma rep_greedy_sound p s pos c k x :
  Re.rep_greedy p s pos c k = Some x ->
  exists t s', s = t ++ s' /\ all_chars p t = true
               /\ k s' (pos + String.length t)%nat c = Some x.
Proof.
  revert pos. induction s as [|a s IH]; intros pos H; simpl in H.
  - exists EmptyString, EmptyString. now rewrite Nat.add_0_r.
  - destruct (p a) eqn:Hp.
    + destruct (Re.rep_greedy p s (S pos) c k) as [y|] eqn:Hr.
      * injection H as ->. apply IH in Hr as (t & s' & -> & Ht & Hk).
        exists (String a t), s'. simpl. rewrite Hp, Ht, Nat.add_succ_r.
        repeat split. exact Hk.
      * exists EmptyString, (String a s). now rewrite Nat.add_0_r.
    + exists EmptyString, (String a s). now rewrite Nat.add_0_r.
Qed.

Lemma rep_lazy_sound p s pos c k x :
  Re.rep_lazy p s pos c k = Some x ->
  exists t s', s = t ++ s' /\ all_chars p t = true
               /\ k s' (pos + String.length t)%nat c = Some x.
Proof.
  revert pos. induction s as [|a s IH]; intros pos H; simpl in H.
  - destruct (k EmptyString pos c) as [y|] eqn:Hk; [|discriminate].
    injection H as ->.
    exists EmptyString, EmptyString. now rewrite Nat.add_0_r.
  - destruct (k (String a s) pos c) as [y|] eqn:Hk.
    + injection H as ->.
      exists EmptyString, (String a s). now rewrite Nat.add_0_r.
    + destruct (p a) eqn:Hp; [|discriminate].
      apply IH in H as (t & s' & -> & Ht & Hk').
      exists (String a t), s'. simpl. rewrite Hp, Ht, Nat.add_succ_r.
      repeat split. exact Hk'.
Qed.

Lemma mt_sound r : forall s pos c k x,
  Re.mt r s pos c k = Some x ->
  exists t s' c', s = t ++ s' /\ den r pos t c c'
                  /\ k s' (pos + String.length t)%nat c' = Some x.
Proof.
  induction r as [|p|g p|r1 IH1 r2 IH2|r1 IH1 r2 IH2|i r IH|];
    intros s pos c k x H; simpl in H.
  - exists EmptyString, s, c. simpl. now rewrite Nat.add_0_r.
  - destruct s as [|a s]; [discriminate|].
    destruct (p a) eqn:Hp; [|discriminate].
    exists (String a EmptyString), s, c. simpl.
    rewrite Nat.add_1_r. eauto 6.
  - assert (exists t s', s = t ++ s' /\ all_chars p t = true
              /\ k s' (pos + String.length t)%nat c = Some x) as (t & s' & ? & ? & ?).
    { destruct g; [eapply rep_greedy_sound | eapply rep_lazy_sound]; eassumption. }
    exists t, s', c. simpl. auto.
  - apply IH1 in H as (t1 & s1 & c1 & -> & D1 & H).
    apply IH2 in H as (t2 & s2 & c2 & -> & D2 & H).
    exists (t1 ++ t2), s2, c2. split; [now rewrite append_assoc|].
    split; [simpl; eauto 8|].
    now rewrite length_append, Nat.add_assoc.
  - destruct (Re.mt r1 s pos c k) as [y|] eqn:H1.
    + injection H as ->. apply IH1 in H1 as (t & s' & c' & ? & ? & ?).
      exists t, s', c'. simpl. auto.
    + apply IH2 in H as (t & s' & c' & ? & ? & ?).
      exists t, s', c'. simpl. auto.
  - apply IH in H as (t & s' & c' & -> & D & H).
    replace (pos + String.length t - pos)%nat with (String.length t) in H by lia.
    rewrite substring_append in H.
    exists t, s', ((i, t) :: c'). simpl. eauto.
  - destruct (Nat.eqb pos 0) eqn:Hp; [|discriminate].
    apply Nat.eqb_eq in Hp.
    exists EmptyString, s, c. simpl. now rewrite Nat.add_0_r.
Qed.
End MatcherSound.

Lemma search_from_sound r s : forall pos m,
  Re.search_from r s pos = Some m -> exists pos' t, den r pos' t [] m.
Proof.
  induction s as [|a s IH]; intros pos m H; simpl in H.
  - destruct (Re.match_at r EmptyString pos) as [y|] eqn:Hm; [|discriminate].
    injection H as ->. apply mt_sound in Hm as (t & s' & c' & _ & D & Hk).
    injection Hk as ->. eauto.
  - destruct (Re.match_at r (String a s) pos) as [y|] eqn:Hm.
    + injection H as ->. apply mt_sound in Hm as (t & s' & c' & _ & D & Hk).
      injection Hk as ->. eauto.
    + eauto.
Qed.

Lemma search_sound r s m :
  Re.search r s = Some m -> exists pos t, den r pos t [] m.
Proof. apply search_from_sound. Qed.

(** ** Digits *)

Lemma digit_not_space (a : ascii) : PyStr.is_digit a = true -> PyStr.is_space a = false.
Proof. destruct a as [[] [] [] [] [] [] [] []]; vm_compute; congruence. Qed.

Lemma digit_not_sign (a : ascii) :
  PyStr.is_digit a = true -> Ascii.eqb a "-" = false /\ Ascii.eqb a "+" = false.
Proof. destruct a as [[] [] [] [] [] [] [] []]; vm_compute; intuition congruence. Qed.

Lemma digit_val_nonneg (a : ascii) : 0 <= PyStr.digit_val a.
Proof. unfold PyStr.digit_val. lia. Qed.

Lemma rstrip_digits (t : string) :
  all_chars PyStr.is_digit t = true -> PyStr.rstrip t = t.
Proof.
  induction t as [|a t IH]; simpl; [reflexivity|].
  intros [Ha Ht]%andb_prop. rewrite (IH Ht).
  destruct t; [|reflexivity]. now rewrite (digit_not_space a Ha).
Qed.

Lemma strip_digits (t : string) :
  all_chars PyStr.is_digit t = true -> PyStr.strip t = t.
Proof.
  intros Ht. unfold PyStr.strip.
  assert (PyStr.lstrip t = t) as ->; [|now apply rstrip_digits].
  destruct t as [|a t]; [reflexivity|]. simpl in *.
  apply andb_prop in Ht as [Ha _]. now rewrite (digit_not_space a Ha).
Qed.

Lemma int_digits_all (t : string) : forall acc st,
  all_chars PyStr.is_digit t = true ->
  t <> EmptyString \/ st = PyStr.AfterDigit ->
  PyStr.int_digits acc st t = Some (PyStr.digits_value acc t).
Proof.
  induction t as [|a t IH]; intros acc st Ht Hne; simpl.
  - destruct Hne as [Hne | ->]; [now destruct Hne | reflexivity].
  - simpl in Ht. apply andb_prop in Ht as [Ha Ht]. rewrite Ha.
    apply IH; auto.
Qed.

Lemma digits_value_nonneg (t : string) : forall acc,
  0 <= acc -> 0 <= PyStr.digits_value acc t.
Proof.
  induction t as [|a t IH]; intros acc Hacc; simpl; [assumption|].
  apply IH. pose proof (digit_val_nonneg a). lia.
Qed.

(** [int] reads any nonempty run of digits, as a natural number. *)
Lemma py_int_digits (t : string) :
  all_chars PyStr.is_digit t = true -> t <> EmptyString ->
  PyStr.py_int t = Some (PyStr.digits_value 0 t) /\ 0 <= PyStr.digits_value 0 t.
Proof.
  intros Ht Hne. split; [|apply digits_value_nonneg; lia].
  unfold PyStr.py_int. rewrite (strip_digits t Ht).
  destruct t as [|a t]; [now destruct Hne|].
  pose proof Ht as Ht'. simpl in Ht'. apply andb_prop in Ht' as [Ha _].
  destruct (digit_not_sign a Ha) as [-> ->].
  apply int_digits_all; [assumption | left; discriminate].
Qed.

(** ** What the groups of the loss patterns hold *)

Lemma den_chr a pos t c c' : den (Re.chr a) pos t c c' -> c' = c.
Proof. now intros [_ ->]. Qed.

Lemma den_lit s : forall pos t c c', den (Re.lit s) pos t c c' -> c' = c.
Proof.
  induction s as [|a s IH]; intros pos t c c' H.
  - now destruct H.
  - destruct s as [|b s].
    + now apply den_chr in H.
    + destruct H as (t1 & t2 & c1 & _ & H1 & H2).
      apply den_chr in H1 as ->. now apply IH in H2.
Qed.

Lemma den_plus p pos t c c' :
  den (Re.plus p) pos t c c' ->
  t <> EmptyString /\ all_chars p t = true /\ c' = c.
Proof.
  intros (t1 & t2 & c1 & -> & [(a & -> & Ha) ->] & [Ht ->]).
  rewrite append_cons, append_nil_l. simpl. rewrite Ha, Ht.
  repeat split. discriminate.
Qed.

Lemma unix_loss_group out m :
  Re.search Pat.unix_loss out = Some m ->
  Re.group m 1 <> EmptyString /\ all_chars PyStr.is_digit (Re.group m 1) = true.
Proof.
  intros (pos & t & D)%search_sound.
  destruct D as (t1 & t2 & c1 & _ & (c0 & D1 & ->) & D2).
  apply den_lit in D2 as ->. apply den_plus in D1 as (Hne & Hd & ->).
  simpl. auto.
Qed.

Lemma win_loss_group out m :
  Re.search Pat.win_loss out = Some m ->
  Re.group m 1 <> EmptyString /\ all_chars PyStr.is_digit (Re.group m 1) = true.
Proof.
  intros (pos & t & D)%search_sound.
  destruct D as (t0 & t' & c' & _ & D0 & t1 & t2 & c1 & _ & (c0 & D1 & ->) & D2).
  apply den_chr in D0 as ->.
  apply den_lit in D2 as ->. apply den_plus in D1 as (Hne & Hd & ->).
  simpl. auto.
Qed.

Lemma loss_group_digits E out m :
  Re.search (loss_pattern E) out = Some m ->
  Re.group m 1 <> EmptyString /\ all_chars PyStr.is_digit (Re.group m 1) = true.
Proof.
  unfold loss_pattern.
  destruct (is_windows E); [apply win_loss_group | apply unix_loss_group].
Qed.

Lemma loss_group E out m :
  Re.search (loss_pattern E) out = Some m ->
  exists n, PyStr.py_int (Re.group m 1) = Some n /\ 0 <= n.
Proof.
  unfold loss_pattern. intros H.
  assert (Re.group m 1 <> EmptyString
          /\ all_chars PyStr.is_digit (Re.group m 1) = true) as [Hne Hd].
  { destruct (is_windows E); [eapply win_loss_group | eapply unix_loss_group]; eauto. }
  destruct (py_int_digits _ Hd Hne). eauto.
Qed.

(** ** [check_connection] in one equation *)

Lemma check_connection_eq E host w :
  check_connection E host w =
  (match spawn E (length (procs w)) (ping_command E host) with
   | Exited _ out =>
       match parse_loss E out, parse_avg E out with
       | Some l, Some a =>
           Ok {| success := Z.ltb l 100; packet_loss := l; avg_latency := a |}
       | _, _ => Ok ping_failed
       end
   | ProcRaise e => if one_of ping_handled e then Ok ping_failed else Raise e
   end, ping_started E host w).
Proof.
  unfold check_connection, parse_loss, parse_avg, loss_pattern, avg_pattern,
    ping_command, ping_started, ping_command.
  destruct (is_windows E) eqn:Hw.
  - unfold try_except, bind, when, VERBOSE, print, modify, subprocess_run,
      start_process, bind, ret, raise, int. cbn [procs set_console].
    destruct (spawn E _ _) as [rc out|e]; cbn -[Pat.win_loss Pat.win_avg].
    + destruct (Re.search Pat.win_loss out) as [m|];
        destruct (Re.search Pat.win_avg out) as [m'|]; cbn;
        repeat (match goal with |- context [PyStr.py_int ?x] => destruct (PyStr.py_int x) end; cbn);
        reflexivity.
    + destruct e; reflexivity.
  - unfold try_except, bind, when, VERBOSE, print, modify, subprocess_run,
      start_process, bind, ret, raise, int, float. cbn [procs set_console].
    destruct (spawn E _ _) as [rc out|e]; cbn -[Pat.unix_loss Pat.unix_avg].
    + destruct (Re.search Pat.unix_loss out) as [m|];
        destruct (Re.search Pat.unix_avg out) as [m'|]; cbn;
        repeat (match goal with |- context [PyStr.py_int ?x] => destruct (PyStr.py_int x) end; cbn);
        repeat (match goal with |- context [PyStr.py_float ?x] => destruct (PyStr.py_float x) end; cbn);
        reflexivity.
    + destruct e; reflexivity.
Qed.

(** ** Laws of the monad *)

Local Open Scope py_scope.

Lemma bind_Ok_inv {S A B} (m : M S A) (k : A -> M S B) s b s' :
  bind m k s = (Ok b, s') ->
  exists a s1, m s = (Ok a, s1) /\ k a s1 = (Ok b, s').
Proof.
  unfold bind. destruct (m s) as [[a|e] s1]; [eauto | discriminate].
Qed.

Section Keeps.
Context {S X : Type} (f : S -> X).

Lemma keeps_ret {A} (a : A) : keeps f (ret a).
Proof. now intros s. Qed.

Lemma keeps_raise {A} (e : exn) : keeps f (@raise S A e).
Proof. now intros s. Qed.

Lemma keeps_bind {A B} (m : M S A) (k : A -> M S B) :
  keeps f m -> (forall a, keeps f (k a)) -> keeps f (bind m k).
Proof.
  intros Hm Hk s. unfold bind. specialize (Hm s).
  destruct (m s) as [[a|e] s1]; simpl in *; [|assumption].
  now rewrite (Hk a s1).
Qed.

Lemma keeps_try_except {A} (m : M S A) caught (h : exn -> M S A) :
  keeps f m -> (forall e, keeps f (h e)) -> keeps f (try_except m caught h).
Proof.
  intros Hm Hh s. unfold try_except. specialize (Hm s).
  destruct (m s) as [[a|e] s1]; simpl in *; [assumption|].
  destruct (caught e); simpl; [|assumption].
  now rewrite (Hh e s1).
Qed.

Lemma keeps_modify (g : S -> S) : (forall s, f (g s) = f s) -> keeps f (modify g).
Proof. intros H s. apply H. Qed.

Lemma keeps_when (c : bool) (m : M S unit) : keeps f m -> keeps f (when c m).
Proof. destruct c; [trivial | intros _; apply keeps_ret]. Qed.

Lemma keeps_for_each {A} (l : list A) (body : A -> M S unit) :
  (forall x, keeps f (body x)) -> keeps f (for_each l body).
Proof.
  intros Hb. induction l as [|x l IH]; simpl.
  - apply keeps_ret.
  - apply keeps_bind; auto.
Qed.

Lemma keeps_int {A} (t : string) (k : Z -> M S A) :
  (forall z, keeps f (k z)) -> keeps f (bind (int t) k).
Proof.
  intros Hk. apply keeps_bind; [|assumption].
  unfold int. destruct (PyStr.py_int t); [apply keeps_ret | apply keeps_raise].
Qed.
End Keeps.

Section KeepsLocal.
Context {S L X : Type} (f : S -> X).

Lemma keeps_lift {A} (m : M S A) :
  keeps f m -> keeps (fun ls : L * S => f (snd ls)) (lift m).
Proof.
  intros Hm [l s]. unfold lift. simpl. specialize (Hm s).
  now destruct (m s) as [r s1].
Qed.

Lemma keeps_with_local {A} (init : L) (m : M (L * S) A) :
  keeps (fun ls : L * S => f (snd ls)) m -> keeps f (with_local init m).
Proof.
  intros Hm s. unfold with_local. specialize (Hm (init, s)).
  now destruct (m (init, s)) as [r [l s1]].
Qed.

Lemma keeps_local : keeps (fun ls : L * S => f (snd ls)) (@local S L).
Proof. now intros s. Qed.

Lemma keeps_set_local (g : L -> L) :
  keeps (fun ls : L * S => f (snd ls)) (@set_local S L g).
Proof. now intros s. Qed.
End KeepsLocal.

(** ** The probes before the application probe leave [app_view] alone *)

Ltac frame_step :=
  lazymatch goal with
  | |- forall _, _ => intro
  | |- keeps _ (match ?x with _ => _ end) => destruct x
  | |- keeps _ _ =>
      first
        [ apply keeps_ret | apply keeps_raise | apply keeps_local
        | apply keeps_set_local | apply keeps_lift | apply keeps_with_local
        | apply keeps_when | apply keeps_for_each
        | apply keeps_try_except | apply keeps_bind
        | apply keeps_modify; intros ?; reflexivity ]
  end.

Ltac frame := repeat frame_step.

Lemma start_process_app_view E argv : keeps app_view (start_process E argv).
Proof. now intros w. Qed.

Lemma read_clock_app_view : keeps app_view read_clock.
Proof. now intros w. Qed.

Lemma psutil_app_view E : keeps app_view (psutil_net_io_counters E).
Proof. now intros w. Qed.

Lemma check_output_app_view E argv : keeps app_view (check_output E argv).
Proof. unfold check_output. apply keeps_bind; [apply start_process_app_view|]. frame. Qed.

Lemma check_connection_app_view E host : keeps app_view (check_connection E host).
Proof. intros w. now rewrite check_connection_eq. Qed.

Lemma get_whois_info_app_view E ip_address : keeps app_view (get_whois_info E ip_address).
Proof.
  unfold get_whois_info. apply keeps_with_local.
  destruct (PyStr.startswith_any _ _); [apply keeps_local|].
  apply keeps_bind; [|intros; apply keeps_local].
  apply keeps_try_except; [|frame].
  apply keeps_bind; [apply keeps_lift, check_output_app_view|].
  intros out. apply keeps_bind; [|intros _]; destruct (Re.search _ out); frame.
Qed.

Lemma trace_line_app_view E line :
  keeps (fun ls : list hop_record * world => app_view (snd ls)) (trace_line E line).
Proof.
  unfold trace_line. destruct line as [|a line]; [apply keeps_ret|].
  destruct (is_windows E).
  - destruct (Re.search Pat.win_hop _).
    + apply keeps_int. frame.
    + destruct (Re.search Pat.win_timeout _); [|apply keeps_ret].
      apply keeps_bind; [unfold first; frame|]. intros tok.
      apply keeps_int. intros; apply keeps_set_local.
  - destruct (Re.search Pat.unix_hop _).
    + apply keeps_int. intros n. apply keeps_bind.
      { unfold float. destruct (PyStr.py_float _); frame. }
      intros lat. apply keeps_bind;
        [apply keeps_lift, get_whois_info_app_view | intros; apply keeps_set_local].
    + destruct (Re.search Pat.unix_timeout _); [|apply keeps_ret].
      apply keeps_bind; [unfold first; frame|]. intros tok.
      apply keeps_int. intros; apply keeps_set_local.
Qed.

Lemma run_traceroute_app_view E host : keeps app_view (run_traceroute E host).
Proof.
  unfold run_traceroute. apply keeps_with_local.
  apply keeps_bind; [|intros; apply keeps_local].
  apply keeps_try_except; [|intros; apply keeps_set_local].
  apply keeps_bind; [apply keeps_lift; unfold print; frame|]. intros _.
  apply keeps_bind; [apply keeps_lift, check_output_app_view|]. intros out.
  apply keeps_bind; [apply keeps_lift, read_clock_app_view|]. intros t.
  apply keeps_bind; [apply keeps_lift; unfold file_append; frame|]. intros _.
  apply keeps_bind; [apply keeps_lift; unfold file_append; frame|]. intros _.
  apply keeps_for_each. intros line. apply trace_line_app_view.
Qed.

Lemma get_network_interface_stats_app_view E :
  keeps app_view (get_network_interface_stats E).
Proof.
  unfold get_network_interface_stats, zero_interface_gauges, set_gauge, print.
  apply keeps_try_except.
  - apply keeps_bind; [apply psutil_app_view|]. frame.
  - frame.
Qed.

(** ** [update_metrics] and [process_results] in equations *)

Lemma hop_loop_eq (tr : list hop_record) : forall w,
  for_each tr
    (fun h =>
       when (known (latency h))
         (set_gauge (Gauge.upd_TRACEROUTE_HOP_LATENCY
                       (fun m => <[labels_of h := latency h]> m)))) w
  = (Ok tt, set_gauges (Gauge.upd_TRACEROUTE_HOP_LATENCY (hop_series tr)) w).
Proof.
  induction tr as [|h tr IH]; intros w.
  - destruct w as [? ? ? ? ? ? ? ? []]. reflexivity.
  - cbn [for_each]. unfold bind at 1.
    destruct (known (latency h)) eqn:Hk; cbn [when].
    + unfold set_gauge at 1, modify at 1. rewrite IH.
      destruct w as [? ? ? ? ? ? ? ? []]. unfold hop_series. cbn. now rewrite Hk.
    + unfold ret at 1. rewrite IH.
      destruct w as [? ? ? ? ? ? ? ? []]. unfold hop_series. cbn. now rewrite Hk.
Qed.

Lemma update_metrics_eq p tr app w :
  update_metrics p tr app w = (Ok tt, set_gauges (published p tr app) w).
Proof.
  unfold update_metrics.
  unfold bind at 1 2 3 4 5, set_gauge at 1 2 3 4, modify at 1 2 3 4.
  destruct (known app) eqn:Hk; cbn [when];
    unfold set_gauge at 1, modify at 1; try unfold set_gauge at 1, modify at 1;
    try unfold ret at 1; rewrite hop_loop_eq;
    destruct w as [? ? ? ? ? ? ? ? []]; unfold published; cbn; now rewrite Hk.
Qed.

Lemma determine_color_eq loss w :
  determine_color loss w
  = (Ok (color_for loss), set_threads (fun t => (t ++ alert_for loss)%list) w).
Proof.
  unfold determine_color, color_for, alert_for.
  destruct (Z.eqb loss 0); [|destruct (Z.gtb loss 0 && Z.ltb loss 100)%bool];
    destruct w; cbn; unfold ret, set_threads; cbn; now rewrite ?app_nil_r.
Qed.

(** The world [process_results] leaves. *)
Lemma process_results_eq E t p tr app w :
  process_results E t p tr app w
  = (Ok tt,
     set_sleeps (fun l => (l ++ [INTERVAL])%list)
       ((if should_log (packet_loss p) tr
         then set_files (fun fs =>
                <[LOG_FILE := (default [] (fs !! LOG_FILE)
                               ++ [(console_report E t p tr app ++ PyStr.nl)%string])%list]> fs)
         else fun w => w)
          (set_console (fun c =>
             (c ++ [(color_for (packet_loss p) ++ console_report E t p tr app
                     ++ RESET)%string])%list)
             (set_threads (fun th => (th ++ alert_for (packet_loss p))%list)
                (set_gauges (published p tr app) w))))).
Proof.
  unfold process_results. unfold bind at 1. rewrite update_metrics_eq.
  unfold bind at 1. rewrite determine_color_eq.
  destruct (should_log (packet_loss p) tr); reflexivity.
Qed.

(** ** [run_traceroute]: the loop over the lines *)

Lemma hop_line_empty E : hop_line E EmptyString = false.
Proof. unfold hop_line. now destruct (is_windows E). Qed.

(** One line adds at most one record; a line that is not a hop line
    changes nothing, a hop line that goes through adds a record. *)
Lemma trace_line_spec E line acc w :
  exists more,
    fst (snd (trace_line E line (acc, w))) = (acc ++ more)%list
    /\ (fst (trace_line E line (acc, w)) = Ok tt ->
        hop_line E line = true -> more <> [])
    /\ (hop_line E line = false -> trace_line E line (acc, w) = (Ok tt, (acc, w))).
Proof.
  destruct line as [|a line].
  { exists []. rewrite app_nil_r, hop_line_empty. unfold ret. cbn.
    intuition discriminate. }
  unfold trace_line, hop_line. set (l := String a line).
  destruct (is_windows E).
  - destruct (Re.search Pat.win_hop l) as [m|].
    + exists []. rewrite app_nil_r. unfold bind, int, raise, ret.
      destruct (PyStr.py_int _); cbn; intuition discriminate.
    + destruct (Re.search Pat.win_timeout l) as [m|].
      * unfold bind, first, int, append_hop, set_local, modify, raise, ret.
        destruct (PyStr.split _) as [|tok ?]; cbn;
          [exists []; rewrite app_nil_r; intuition discriminate|].
        destruct (PyStr.py_int tok); cbn;
          [|exists []; rewrite app_nil_r; intuition discriminate].
        eexists [_]. intuition discriminate.
      * exists []. rewrite app_nil_r. unfold ret. cbn. intuition discriminate.
  - destruct (Re.search Pat.unix_hop l) as [m|].
    + unfold bind, int, float, lift, append_hop, set_local, modify, raise, ret.
      destruct (PyStr.py_int _); cbn;
        [|exists []; rewrite app_nil_r; intuition discriminate].
      destruct (PyStr.py_float _); cbn;
        [|exists []; rewrite app_nil_r; intuition discriminate].
      destruct (get_whois_info E _ w) as [[i|e] w1]; cbn;
        [|exists []; rewrite app_nil_r; intuition discriminate].
      eexists [_]. intuition discriminate.
    + destruct (Re.search Pat.unix_timeout l) as [m|].
      * unfold bind, first, int, append_hop, set_local, modify, raise, ret.
        destruct (PyStr.split _) as [|tok ?]; cbn;
          [exists []; rewrite app_nil_r; intuition discriminate|].
        destruct (PyStr.py_int tok); cbn;
          [|exists []; rewrite app_nil_r; intuition discriminate].
        eexists [_]. intuition discriminate.
      * exists []. rewrite app_nil_r. unfold ret. cbn. intuition discriminate.
Qed.


(** [run_traceroute] by the end of its command and of its loop. *)
Lemma run_traceroute_eq E host w :
  run_traceroute E host w =
  match spawn E (length (procs w)) (traceroute_command E host) with
  | Exited rc out =>
      if Z.eqb rc 0 then
        match for_each (PyStr.splitlines out) (trace_line E)
                ([], traceroute_logged E host out w) with
        | (Ok _, (l, w')) => (Ok l, w')
        | (Raise e, (l, w')) =>
            if one_of traceroute_handled e
            then (Ok (l ++ [failed_hop])%list, w') else (Raise e, w')
        end
      else (Ok [failed_hop], traceroute_started E host w)
  | ProcRaise e =>
      if one_of traceroute_handled e
      then (Ok [failed_hop], traceroute_started E host w)
      else (Raise e, traceroute_started E host w)
  end.
Proof.
  unfold run_traceroute, with_local, traceroute_logged, traceroute_started,
    traceroute_command, echoed.
  unfold bind at 1, try_except, bind at 1.
  unfold lift at 1, when, VERBOSE, print, modify. cbn [fst snd].
  unfold bind at 1, lift at 1, check_output, bind at 1, start_process.
  cbn [fst snd procs set_console].
  destruct (spawn E _ _) as [rc out|e].
  - destruct (Z.eqb rc 0).
    + unfold ret at 1. cbn [fst snd].
      unfold bind at 1, lift at 1, read_clock. cbn [fst snd].
      unfold bind at 1, lift at 1, file_append, modify. cbn [fst snd].
      unfold bind at 1, lift at 1. cbn [fst snd].
      match goal with
      | |- context [for_each ?l ?b ?s] => destruct (for_each l b s) as [[[]|e] [l' w']]
      end.
      * reflexivity.
      * unfold traceroute_handled.
        destruct (one_of _ e); reflexivity.
    + reflexivity.
  - unfold raise at 1. cbn [fst snd]. unfold traceroute_handled.
    destruct (one_of _ e); reflexivity.
Qed.

(** ** The labelled series after the loop over the hops *)

Lemma hop_series_cons h tr m :
  hop_series (h :: tr) m
  = hop_series tr (if known (latency h) then <[labels_of h := latency h]> m else m).
Proof. reflexivity. Qed.

(** An entry of the series comes from a hop of known latency, or was
    there before the loop. *)
Lemma hop_series_lookup (tr : list hop_record) :
  forall (m : gmap (string * string * string) pynum) l v,
    hop_series tr m !! l = Some v ->
    m !! l = Some v
    \/ exists h, In h tr /\ known (latency h) = true
                 /\ labels_of h = l /\ latency h = v.
Proof.
  induction tr as [|h tr IH]; intros m l v H; [now left|].
  rewrite hop_series_cons in H. apply IH in H as [H | (h' & Hin & Hk & Hl & Hv)].
  - destruct (known (latency h)) eqn:Hk; [|now left].
    destruct (decide (labels_of h = l)) as [Heq | Hne].
    + subst l. rewrite lookup_insert_eq in H. injection H as <-.
      right. exists h. cbn. auto.
    + rewrite lookup_insert_ne in H by assumption. now left.
  - right. exists h'. cbn. auto.
Qed.

Lemma hop_series_mono (tr : list hop_record) :
  forall (m : gmap (string * string * string) pynum) l,
    is_Some (m !! l) -> is_Some (hop_series tr m !! l).
Proof.
  induction tr as [|h tr IH]; intros m l H; [assumption|].
  rewrite hop_series_cons. apply IH.
  destruct (known (latency h)); [|assumption].
  destruct (decide (labels_of h = l)) as [<- | Hne].
  - rewrite lookup_insert_eq. eauto.
  - now rewrite lookup_insert_ne.
Qed.

(** Every hop of known latency has its entry. *)
Lemma hop_series_In (tr : list hop_record) :
  forall (m : gmap (string * string * string) pynum) h,
    In h tr -> known (latency h) = true ->
    is_Some (hop_series tr m !! labels_of h).
Proof.
  induction tr as [|h' tr IH]; intros m h Hin Hk; [destruct Hin|].
  rewrite hop_series_cons. destruct Hin as [-> | Hin].
  - rewrite Hk. apply hop_series_mono. rewrite lookup_insert_eq. eauto.
  - now apply IH.
Qed.

(** ** [check_application_response_time] in one equation *)

Lemma check_application_response_time_eq E url w :
  check_application_response_time E url w =
  let asked := set_requests (fun r => (r ++ [url])%list) (set_clock_reads S w) in
  let complain e :=
    set_console
      (fun c => (c ++ [("Error checking application response time for " ++ url
                        ++ ": " ++ str_exn E e)%string])%list) in
  match http_get E (length (requests w)) url with
  | Response st =>
      if (Z.leb 400 st && Z.ltb st 600)%bool
      then (Ok minus_one, complain RequestException (set_clock_reads S asked))
      else (Ok (PFloat ((time_time E (S (clock_reads w)) - time_time E (clock_reads w))
                        * (1000 # 1))%Q),
            set_clock_reads S asked)
  | HttpRaise e =>
      if exn_eqb e RequestException
      then (Ok minus_one, complain e asked) else (Raise e, asked)
  end.
Proof.
  unfold check_application_response_time, try_except, bind, read_clock,
    requests_get, raise_for_status, raise, ret, print, modify, one_of.
  cbn [requests set_clock_reads clock_reads existsb].
  destruct (http_get E _ url) as [st|e].
  - destruct (Z.leb 400 st && Z.ltb st 600)%bool; reflexivity.
  - rewrite orb_false_r. destruct (exn_eqb e RequestException); reflexivity.
Qed.

Lemma check_application_response_time_fails E url w :
  request_fails (http_get E (length (requests w)) url) ->
  fst (check_application_response_time E url w) = Ok minus_one
  /\ APPLICATION_RESPONSE_TIME_GAUGE
       (gauges (snd (check_application_response_time E url w)))
     = APPLICATION_RESPONSE_TIME_GAUGE (gauges w).
Proof.
  rewrite check_application_response_time_eq. cbv zeta.
  intros [(st & -> & Hst) | ->].
  - assert ((Z.leb 400 st && Z.ltb st 600)%bool = true) as ->.
    { apply andb_true_intro. split; [apply Z.leb_le | apply Z.ltb_lt]; lia. }
    split; reflexivity.
  - split; reflexivity.
Qed.

(** * What the probes and the loop guarantee *)

(** ** [check_connection] *)

(** C3. A ping command that fails to start should give the dictionary
    of total loss and no exception. The code misses a case: its handler
    names [FileNotFoundError] but no other error of starting a process,
    so when the command is there and cannot be run (a
    [PermissionError]), [check_connection] raises to its caller. *)
Lemma check_connection_raises_unnamed_error :
  fst (check_connection
         (Sample.linux (ProcRaise OtherError) (Exited 0 Sample.path_reply)
            (Response 200))
         INTERNET_HOST Sample.world0)
  = Raise OtherError.
Proof. reflexivity. Qed.

(** X24. If the ping command is not found or times out, or if it runs
    and its output has neither the loss pattern nor the latency pattern,
    then [check_connection] returns, without raising, the dictionary
    with [success] false, [packet_loss] 100 and [avg_latency] -1. *)
Theorem check_connection_failure_is_total_loss (E : env) (host : string) (w : world) :
  ping_command_fails (spawn E (length (procs w)) (ping_command E host))
  \/ (exists rc out,
        spawn E (length (procs w)) (ping_command E host) = Exited rc out
        /\ Re.search (loss_pattern E) out = None
        /\ Re.search (avg_pattern E) out = None) ->
  fst (check_connection E host w)
  = Ok {| success := false; packet_loss := 100; avg_latency := minus_one |}.
Proof.
  rewrite check_connection_eq. cbn [fst].
  intros [[-> | ->] | (rc & out & -> & Hl & Ha)]; try reflexivity.
  unfold parse_loss, parse_avg. now rewrite Hl, Ha.
Qed.

Lemma check_connection_failure_is_total_loss_witness :
  fst (check_connection
         (Sample.linux (ProcRaise TimeoutExpired) (Exited 0 Sample.path_reply)
            (Response 200))
         INTERNET_HOST Sample.world0)
  = Ok {| success := false; packet_loss := 100; avg_latency := minus_one |}
  /\ fst (check_connection
            (Sample.linux (Exited 2 Sample.ping_unreachable)
               (Exited 0 Sample.path_reply) (Response 200))
            INTERNET_HOST Sample.world0)
     = Ok {| success := false; packet_loss := 100; avg_latency := minus_one |}.
Proof.
  split; apply check_connection_failure_is_total_loss.
  - left. right. reflexivity.
  - right. exists 2, Sample.ping_unreachable. repeat split; vm_compute; reflexivity.
Defined.

(** C10. When the ping command runs and its output has the loss pattern
    but not the latency pattern, [check_connection] returns a partial
    result: [packet_loss] is the number the captured digits write,
    [success] says whether it is below 100, and [avg_latency] is -1. *)
Theorem check_connection_partial_parse (E : env) (host : string) (w : world)
    (rc : Z) (out : string) (m : Re.caps) :
  spawn E (length (procs w)) (ping_command E host) = Exited rc out ->
  Re.search (loss_pattern E) out = Some m ->
  Re.search (avg_pattern E) out = None ->
  Re.group m 1 <> EmptyString
  /\ all_chars PyStr.is_digit (Re.group m 1) = true
  /\ PyStr.py_int (Re.group m 1) = Some (PyStr.digits_value 0 (Re.group m 1))
  /\ fst (check_connection E host w)
     = Ok {| success := Z.ltb (PyStr.digits_value 0 (Re.group m 1)) 100;
             packet_loss := PyStr.digits_value 0 (Re.group m 1);
             avg_latency := minus_one |}.
Proof.
  intros Ho Hl Ha. destruct (loss_group_digits E out m Hl) as [Hne Hd].
  destruct (py_int_digits _ Hd Hne) as [Hn _].
  repeat split; try assumption.
  rewrite check_connection_eq, Ho. cbn [fst].
  unfold parse_loss, parse_avg. now rewrite Hl, Ha, Hn.
Qed.

(** One reply in four lost and no round-trip line: the result is
    partial, and is not the dictionary of total loss. *)
Lemma check_connection_partial_parse_witness :
  fst (check_connection
         (Sample.linux (Exited 0 Sample.ping_quarter_lost)
            (Exited 0 Sample.path_reply) (Response 200))
         INTERNET_HOST Sample.world0)
  = Ok {| success := true; packet_loss := 25; avg_latency := minus_one |}.
Proof.
  destruct (check_connection_partial_parse
              (Sample.linux (Exited 0 Sample.ping_quarter_lost)
                 (Exited 0 Sample.path_reply) (Response 200))
              INTERNET_HOST Sample.world0 0 Sample.ping_quarter_lost
              [(1%nat, "25")]) as (_ & _ & _ & H).
  - reflexivity.
  - vm_compute. reflexivity.
  - vm_compute. reflexivity.
  - exact H.
Defined.

(** X25. The [packet_loss] that [check_connection] returns is never
    negative: it is 100, or the number written by the digits the loss
    pattern captured in the output of the command. *)
Theorem packet_loss_is_nonnegative (E : env) (host : string) (w : world)
    (r : ping_result) :
  fst (check_connection E host w) = Ok r ->
  0 <= packet_loss r
  /\ (packet_loss r = 100
      \/ exists rc out m,
           spawn E (length (procs w)) (ping_command E host) = Exited rc out
           /\ Re.search (loss_pattern E) out = Some m
           /\ PyStr.py_int (Re.group m 1) = Some (packet_loss r)).
Proof.
  rewrite check_connection_eq. cbn [fst].
  destruct (spawn E _ _) as [rc out|e].
  - unfold parse_loss.
    destruct (Re.search (loss_pattern E) out) as [m|] eqn:Hl.
    + destruct (loss_group E out m Hl) as (n & Hn & Hpos). rewrite Hn.
      destruct (parse_avg E out); intros [= <-]; cbn; [|auto with zarith].
      split; [assumption|]. right. exists rc, out, m. auto.
    + destruct (parse_avg E out); intros [= <-]; cbn; auto with zarith.
  - destruct (one_of ping_handled e); [|discriminate].
    intros [= <-]. cbn. auto with zarith.
Qed.

Lemma packet_loss_is_nonnegative_witness :
  0 <= 3333
  /\ (3333 = 100
      \/ exists rc out m,
           Exited 0 Sample.ping_third_lost = Exited rc out
           /\ Re.search Pat.unix_loss out = Some m
           /\ PyStr.py_int (Re.group m 1) = Some 3333).
Proof.
  apply (packet_loss_is_nonnegative
           (Sample.linux (Exited 0 Sample.ping_third_lost)
              (Exited 0 Sample.path_reply) (Response 200))
           INTERNET_HOST Sample.world0
           {| success := false; packet_loss := 3333;
              avg_latency := PFloat (123 # 10) |}).
  vm_compute. reflexivity.
Defined.

(** C2. The packet loss is a percentage and should lie between 0 and
    100. The code breaks this: its pattern takes the digits before
    [% packet loss] without asking where the number starts, so on an
    output that reports a loss of 33.3333% the leftmost match is
    [3333% packet loss] and the [packet_loss] returned is 3333. *)
Lemma packet_loss_above_100 :
  exists r,
    fst (check_connection
           (Sample.linux (Exited 0 Sample.ping_third_lost)
              (Exited 0 Sample.path_reply) (Response 200))
           INTERNET_HOST Sample.world0) = Ok r
    /\ ~ (0 <= packet_loss r <= 100).
Proof.
  exists {| success := false; packet_loss := 3333; avg_latency := PFloat (123 # 10) |}.
  split; [vm_compute; reflexivity | cbn; lia].
Qed.

(** C4. For every result of [check_connection], [success] holds exactly
    when [packet_loss] is below 100; and the iteration that reports it is
    green with no alert when the loss is 0 (nominal), yellow with the
    yellow alert when the loss is strictly between 0 and 100 (degraded),
    red with the red alert when the loss is 100 (outage). *)
Theorem success_and_severity (E : env) (host : string) (w : world)
    (r : ping_result) :
  fst (check_connection E host w) = Ok r ->
  (success r = true <-> packet_loss r < 100)
  /\ forall (t : string) (tr : list hop_record) (app : pynum) (w1 : world),
       let w2 := snd (process_results E t r tr app w1) in
       let report := console_report E t r tr app in
       (packet_loss r = 0 ->
        console w2 = (console w1 ++ [(GREEN ++ report ++ RESET)%string])%list
        /\ threads w2 = threads w1)
       /\ (0 < packet_loss r < 100 ->
           console w2 = (console w1 ++ [(YELLOW ++ report ++ RESET)%string])%list
           /\ threads w2 = (threads w1 ++ [YELLOW_SOUND_PATH])%list)
       /\ (packet_loss r = 100 ->
           console w2 = (console w1 ++ [(RED ++ report ++ RESET)%string])%list
           /\ threads w2 = (threads w1 ++ [RED_SOUND_PATH])%list).
Proof.
  intros Hr. split.
  - rewrite check_connection_eq in Hr. cbn [fst] in Hr.
    assert (success r = Z.ltb (packet_loss r) 100) as ->.
    { destruct (spawn E _ _) as [rc out|e].
      - destruct (parse_loss E out), (parse_avg E out);
          injection Hr as <-; reflexivity.
      - destruct (one_of ping_handled e); [|discriminate].
        injection Hr as <-. reflexivity. }
    apply Z.ltb_lt.
  - intros t tr app w1 w2 report. subst w2 report.
    rewrite process_results_eq. cbn [snd].
    assert (forall f (x : world),
              console ((if should_log (packet_loss r) tr then set_files f
                        else fun w => w) x) = console x
              /\ threads ((if should_log (packet_loss r) tr then set_files f
                           else fun w => w) x) = threads x) as Hlog.
    { intros f x. now destruct (should_log _ _). }
    cbn [console threads set_sleeps].
    match goal with
    | |- context [(if should_log _ _ then set_files ?f else _) ?x] =>
        destruct (Hlog f x) as [-> ->]
    end.
    cbn [console threads set_console set_threads set_gauges].
    unfold color_for, alert_for.
    split; [|split]; intros Hloss; split.
    + rewrite Hloss. reflexivity.
    + rewrite Hloss. cbn. now rewrite app_nil_r.
    + destruct (Z.eqb_spec (packet_loss r) 0); [lia|].
      destruct (Z.gtb_spec (packet_loss r) 0); [|lia].
      destruct (Z.ltb_spec (packet_loss r) 100); [|lia]. reflexivity.
    + destruct (Z.eqb_spec (packet_loss r) 0); [lia|].
      destruct (Z.gtb_spec (packet_loss r) 0); [|lia].
      destruct (Z.ltb_spec (packet_loss r) 100); [|lia]. reflexivity.
    + rewrite Hloss. reflexivity.
    + rewrite Hloss. reflexivity.
Qed.

Lemma success_and_severity_witness :
  (success Sample.nominal = true <-> packet_loss Sample.nominal < 100)
  /\ threads (snd (process_results Sample.healthy "2026-01-01 00:00:00"
                     Sample.nominal [Sample.gateway] (PFloat (250 # 1))
                     Sample.world0)) = [].
Proof.
  destruct (success_and_severity Sample.healthy INTERNET_HOST Sample.world0
              Sample.nominal) as [Hs Hc].
  - vm_compute. reflexivity.
  - split; [exact Hs|].
    destruct (Hc "2026-01-01 00:00:00" [Sample.gateway] (PFloat (250 # 1))
                Sample.world0) as [H0 _].
    destruct H0 as [_ ->]; reflexivity.
Defined.

(** ** [run_traceroute] *)




(** ** [get_whois_info] *)

(** C5. For the dotted text of every address in 10.0.0.0/8,
    172.16.0.0/12 or 192.168.0.0/16, [get_whois_info] returns the
    default ownership, "N/A" and "N/A", and leaves the world as it was:
    no command is run. *)
Theorem private_address_is_not_looked_up (E : env) (a b c d : Z) (w : world) :
  private_address a b ->
  get_whois_info E (dotted a b c d) w
  = (Ok {| org_name := "N/A"; country := "N/A" |}, w).
Proof.
  intros Hp.
  assert (PyStr.startswith_any (dotted a b c d) private_prefixes = true) as Hpre.
  { unfold dotted.
    destruct Hp as [-> | [[-> Hb] | [-> ->]]]; [vm_compute; reflexivity | | vm_compute; reflexivity].
    assert (b = 16 \/ b = 17 \/ b = 18 \/ b = 19 \/ b = 20 \/ b = 21 \/ b = 22
            \/ b = 23 \/ b = 24 \/ b = 25 \/ b = 26 \/ b = 27 \/ b = 28
            \/ b = 29 \/ b = 30 \/ b = 31) as Hcases by lia.
    repeat (destruct Hcases as [-> | Hcases]; [vm_compute; reflexivity|]).
    subst b. vm_compute. reflexivity. }
  unfold get_whois_info. rewrite Hpre. reflexivity.
Qed.

Lemma private_address_is_not_looked_up_witness :
  get_whois_info Sample.healthy "172.20.0.1" Sample.world0
  = (Ok {| org_name := "N/A"; country := "N/A" |}, Sample.world0).
Proof.
  apply (private_address_is_not_looked_up Sample.healthy 172 20 0 1 Sample.world0).
  right. left. split; [reflexivity | lia].
Defined.

(** ** The loop of [main] *)

(** C6. After the metrics of an iteration are updated, whatever the
    series held before, the per-hop latency series has an entry exactly
    for the hop records of this iteration whose latency is known, each
    holding the latency of such a record; and the hop-count gauge counts
    every hop record, those of unknown latency included. *)
Theorem hop_series_is_this_iteration (p : ping_result) (tr : list hop_record)
    (app : pynum) (w : world) :
  let g := gauges (snd (update_metrics p tr app w)) in
  (forall l v,
     TRACEROUTE_HOP_LATENCY g !! l = Some v ->
     exists h, In h tr /\ known (latency h) = true
               /\ labels_of h = l /\ latency h = v)
  /\ (forall h,
        In h tr -> known (latency h) = true ->
        is_Some (TRACEROUTE_HOP_LATENCY g !! labels_of h))
  /\ TRACEROUTE_HOPS_GAUGE g = PInt (Z.of_nat (length tr)).
Proof.
  rewrite update_metrics_eq. cbn. split; [|split].
  - intros l v H. apply hop_series_lookup in H as [H | H]; [|assumption].
    now rewrite lookup_empty in H.
  - intros h Hin Hk. now apply hop_series_In.
  - reflexivity.
Qed.

Lemma hop_series_is_this_iteration_witness :
  is_Some (TRACEROUTE_HOP_LATENCY
             (gauges (snd (update_metrics Sample.nominal
                             [Sample.gateway; Sample.silent] minus_one
                             Sample.world1)))
           !! ("1", "192.168.1.1", "gw.local"))
  /\ TRACEROUTE_HOP_LATENCY
       (gauges (snd (update_metrics Sample.nominal
                       [Sample.gateway; Sample.silent] minus_one
                       Sample.world1)))
     !! ("3", "8.8.8.8", "dns.google") = None
  /\ is_Some (TRACEROUTE_HOP_LATENCY (gauges Sample.world1)
              !! ("3", "8.8.8.8", "dns.google")).
Proof.
  destruct (hop_series_is_this_iteration Sample.nominal
              [Sample.gateway; Sample.silent] minus_one Sample.world1)
    as (Hfrom & Hin & _).
  split; [|split].
  - apply (Hin Sample.gateway); [left; reflexivity | reflexivity].
  - destruct (TRACEROUTE_HOP_LATENCY _ !! _) as [v|] eqn:Hv; [|reflexivity].
    apply Hfrom in Hv as (h & [<- | [<- | []]] & Hk & Hl & _); discriminate.
  - vm_compute. eauto.
Defined.

(** C7. The report of an iteration is appended to the log file exactly
    when the packet loss is above 0 or some hop record of the iteration
    has the unknown latency -1; otherwise no file is written. *)
Theorem log_iff_loss_or_unknown_hop (E : env) (t : string) (p : ping_result)
    (tr : list hop_record) (app : pynum) (w : world) :
  let w' := snd (process_results E t p tr app w) in
  let trouble :=
    packet_loss p > 0
    \/ exists h, In h tr /\ num_eqb (latency h) minus_one = true in
  (trouble ->
   files w' !! LOG_FILE
   = Some (default [] (files w !! LOG_FILE)
           ++ [(console_report E t p tr app ++ PyStr.nl)%string])%list)
  /\ (~ trouble -> files w' = files w).
Proof.
  intros w' trouble. subst w'. rewrite process_results_eq. cbn [snd].
  assert (should_log (packet_loss p) tr = true <-> trouble) as Hlog.
  { unfold should_log, trouble. rewrite orb_true_iff, existsb_exists.
    rewrite Z.gtb_gt. reflexivity. }
  destruct (should_log (packet_loss p) tr).
  - split; [intros _ | intros Hn; destruct Hn; now apply Hlog].
    cbn. apply lookup_insert_eq.
  - split; [intros Ht; apply Hlog in Ht; discriminate | reflexivity].
Qed.

Lemma log_iff_loss_or_unknown_hop_witness :
  files (snd (process_results Sample.healthy "2026-01-01 00:00:00" Sample.nominal
                [Sample.gateway; Sample.silent] minus_one Sample.world0))
  !! LOG_FILE
  = Some [(console_report Sample.healthy "2026-01-01 00:00:00" Sample.nominal
             [Sample.gateway; Sample.silent] minus_one ++ PyStr.nl)%string]
  /\ files (snd (process_results Sample.healthy "2026-01-01 00:00:00"
                   Sample.nominal [Sample.gateway] (PFloat (250 # 1))
                   Sample.world0))
     = files Sample.world0.
Proof.
  split.
  - apply (log_iff_loss_or_unknown_hop Sample.healthy "2026-01-01 00:00:00"
             Sample.nominal [Sample.gateway; Sample.silent] minus_one
             Sample.world0).
    right. exists Sample.silent. split; [right; left; reflexivity | reflexivity].
  - apply (log_iff_loss_or_unknown_hop Sample.healthy "2026-01-01 00:00:00"
             Sample.nominal [Sample.gateway] (PFloat (250 # 1)) Sample.world0).
    intros [H | (h & [<- | []] & H)]; [cbn in H; lia | discriminate].
Defined.

(** C8. When the request of the application probe ends in a status
    of the 4xx or 5xx range, or raises an error of [requests],
    [check_application_response_time] returns -1, the failure marker,
    and the iteration leaves the application response-time gauge with
    the value it had. *)
Theorem app_gauge_kept_when_probe_fails (E : env) (w : world) :
  request_fails (http_get E (length (requests w)) APPLICATION_URL) ->
  fst (check_application_response_time E APPLICATION_URL w) = Ok minus_one
  /\ APPLICATION_RESPONSE_TIME_GAUGE (gauges (snd (loop_iteration E w)))
     = APPLICATION_RESPONSE_TIME_GAUGE (gauges w).
Proof.
  intros Hfail. split; [now apply check_application_response_time_fails|].
  assert (forall w1 : world,
            app_view w1 = app_view w ->
            APPLICATION_RESPONSE_TIME_GAUGE (gauges w1)
            = APPLICATION_RESPONSE_TIME_GAUGE (gauges w)) as Hview.
  { intros w1 H. now injection H. }
  unfold loop_iteration.
  unfold bind at 1, read_clock.
  set (w0 := set_clock_reads S w).
  assert (app_view w0 = app_view w) as H0 by reflexivity.
  unfold bind at 1.
  pose proof (check_connection_app_view E INTERNET_HOST w0) as H1.
  destruct (check_connection E INTERNET_HOST w0) as [[p|e] w1];
    cbn [snd] in H1; rewrite H0 in H1; [|now apply Hview].
  unfold bind at 1.
  pose proof (run_traceroute_app_view E INTERNET_HOST w1) as H2.
  destruct (run_traceroute E INTERNET_HOST w1) as [[tr|e] w2];
    cbn [snd] in H2; rewrite H1 in H2; [|now apply Hview].
  unfold bind at 1.
  pose proof (get_network_interface_stats_app_view E w2) as H3.
  destruct (get_network_interface_stats E w2) as [[[]|e] w3];
    cbn [snd] in H3; rewrite H2 in H3; [|now apply Hview].
  unfold bind at 1.
  assert (request_fails (http_get E (length (requests w3)) APPLICATION_URL)) as Hfail3.
  { injection H3 as -> _. assumption. }
  destruct (check_application_response_time_fails E APPLICATION_URL w3 Hfail3)
    as [Hr Hg].
  destruct (check_application_response_time E APPLICATION_URL w3) as [r w4].
  cbn [fst snd] in Hr, Hg. subst r.
  rewrite process_results_eq. cbn [snd].
  rewrite <- (Hview w3 H3), <- Hg.
  destruct (should_log (packet_loss p) tr); reflexivity.
Qed.

Lemma app_gauge_kept_when_probe_fails_witness :
  fst (check_application_response_time
         (Sample.linux (Exited 0 Sample.ping_reply) (Exited 0 Sample.path_reply)
            (Response 500))
         APPLICATION_URL Sample.world1) = Ok minus_one
  /\ APPLICATION_RESPONSE_TIME_GAUGE
       (gauges (snd (loop_iteration
                       (Sample.linux (Exited 0 Sample.ping_reply)
                          (Exited 0 Sample.path_reply) (Response 500))
                       Sample.world1)))
     = APPLICATION_RESPONSE_TIME_GAUGE (gauges Sample.world1).
Proof.
  apply (app_gauge_kept_when_probe_fails
           (Sample.linux (Exited 0 Sample.ping_reply) (Exited 0 Sample.path_reply)
              (Response 500))
           Sample.world1).
  left. exists 500. split; [reflexivity | lia].
Defined.

(** C9. The ping latency gauge is set in every iteration that reaches
    the update of the metrics, to the [avg_latency] of that iteration's
    ping result, whatever it held before; so when the ping command is
    missing or times out, the gauge holds -1 after the iteration. *)
Theorem ping_gauge_set_every_iteration (E : env) (w w' : world) :
  loop_iteration E w = (Ok tt, w') ->
  (exists r,
     fst (check_connection E INTERNET_HOST (set_clock_reads S w)) = Ok r
     /\ PING_LATENCY_GAUGE (gauges w') = avg_latency r)
  /\ (ping_command_fails
        (spawn E (length (procs w)) (ping_command E INTERNET_HOST)) ->
      PING_LATENCY_GAUGE (gauges w') = minus_one).
Proof.
  unfold loop_iteration. intros H.
  apply bind_Ok_inv in H as (t & w0 & Ht & H). injection Ht as <- <-.
  apply bind_Ok_inv in H as (p & w1 & Hp & H).
  apply bind_Ok_inv in H as (tr & w2 & Htr & H).
  apply bind_Ok_inv in H as ([] & w3 & Hst & H).
  apply bind_Ok_inv in H as (app & w4 & Happ & H).
  rewrite process_results_eq in H. injection H as <-.
  assert (PING_LATENCY_GAUGE
            (gauges
               (set_sleeps (fun l => (l ++ [INTERVAL])%list)
                  ((if should_log (packet_loss p) tr
                    then set_files (fun fs =>
                           <[LOG_FILE := (default [] (fs !! LOG_FILE)
                              ++ [(console_report E (strftime_now E (clock_reads w))
                                     p tr app ++ PyStr.nl)%string])%list]> fs)
                    else fun w => w)
                     (set_console (fun c =>
                        (c ++ [(color_for (packet_loss p)
                                ++ console_report E (strftime_now E (clock_reads w))
                                     p tr app ++ RESET)%string])%list)
                        (set_threads (fun th => (th ++ alert_for (packet_loss p))%list)
                           (set_gauges (published p tr app) w4))))))
          = avg_latency p) as Hg.
  { destruct (should_log (packet_loss p) tr); reflexivity. }
  split.
  - exists p. rewrite Hp. split; [reflexivity | exact Hg].
  - intros Hfail. rewrite Hg.
    rewrite check_connection_eq in Hp. cbn [procs set_clock_reads] in Hp.
    destruct Hfail as [Ho | Ho]; rewrite Ho in Hp; cbn in Hp;
      injection Hp as <- _; reflexivity.
Qed.

Lemma ping_gauge_set_every_iteration_witness :
  PING_LATENCY_GAUGE
    (gauges (snd (loop_iteration
                    (Sample.linux (ProcRaise TimeoutExpired)
                       (Exited 0 Sample.path_reply) (Response 200))
                    Sample.world1)))
  = minus_one
  /\ PING_LATENCY_GAUGE (gauges Sample.world1) = PFloat (123 # 10).
Proof.
  split; [|vm_compute; reflexivity].
  destruct (ping_gauge_set_every_iteration
              (Sample.linux (ProcRaise TimeoutExpired) (Exited 0 Sample.path_reply)
                 (Response 200))
              Sample.world1
              (snd (loop_iteration
                      (Sample.linux (ProcRaise TimeoutExpired)
                         (Exited 0 Sample.path_reply) (Response 200))
                      Sample.world1))) as [_ H].
  - vm_compute. reflexivity.
  - apply H. right. vm_compute. reflexivity.
Defined.

(** * More of the script *)

(** ** What the probes leave alone *)

(** A view of the world that does not see the console nor the list of
    processes is kept by every step that only prints and runs commands. *)
Section QuietViews.
Context {X : Type} (f : world -> X).
Hypothesis f_console : forall g w, f (set_console g w) = f w.
Hypothesis f_procs : forall g w, f (set_procs g w) = f w.

Lemma print_keeps (s : string) : keeps f (print s).
Proof. intros w. apply f_console. Qed.

Lemma start_process_keeps E argv : keeps f (start_process E argv).
Proof. intros w. apply f_procs. Qed.

Lemma check_output_keeps E argv : keeps f (check_output E argv).
Proof.
  unfold check_output. apply keeps_bind; [apply start_process_keeps|]. frame.
Qed.

Lemma check_connection_keeps E host : keeps f (check_connection E host).
Proof.
  intros w. rewrite check_connection_eq. cbn [snd]. unfold ping_started.
  now rewrite f_procs, f_console.
Qed.

Lemma play_sound_mac_keeps E path : keeps f (play_sound_mac E path).
Proof.
  unfold play_sound_mac. apply keeps_try_except.
  - unfold Popen. apply keeps_bind; [apply start_process_keeps|]. frame.
  - intros e. apply print_keeps.
Qed.

Lemma get_whois_info_keeps E ip_address : keeps f (get_whois_info E ip_address).
Proof.
  unfold get_whois_info. apply keeps_with_local.
  destruct (PyStr.startswith_any _ _); [apply keeps_local|].
  apply keeps_bind; [|intros; apply keeps_local].
  apply keeps_try_except; [|frame].
  apply keeps_bind; [apply keeps_lift, check_output_keeps|].
  intros out. apply keeps_bind; [|intros _]; destruct (Re.search _ out); frame.
Qed.

Lemma trace_line_keeps E line :
  keeps (fun ls : list hop_record * world => f (snd ls)) (trace_line E line).
Proof.
  unfold trace_line. destruct line as [|a line]; [apply keeps_ret|].
  destruct (is_windows E).
  - destruct (Re.search Pat.win_hop _).
    + apply keeps_int. frame.
    + destruct (Re.search Pat.win_timeout _); [|apply keeps_ret].
      apply keeps_bind; [unfold first; frame|]. intros tok.
      apply keeps_int. intros; apply keeps_set_local.
  - destruct (Re.search Pat.unix_hop _).
    + apply keeps_int. intros n. apply keeps_bind.
      { unfold float. destruct (PyStr.py_float _); frame. }
      intros lat. apply keeps_bind;
        [apply keeps_lift, get_whois_info_keeps | intros; apply keeps_set_local].
    + destruct (Re.search Pat.unix_timeout _); [|apply keeps_ret].
      apply keeps_bind; [unfold first; frame|]. intros tok.
      apply keeps_int. intros; apply keeps_set_local.
Qed.

Hypothesis f_clock : forall g w, f (set_clock_reads g w) = f w.
Hypothesis f_trace_log :
  forall chunk, keeps f (file_append "traceroute_log.txt" chunk).

Lemma run_traceroute_keeps E host : keeps f (run_traceroute E host).
Proof.
  unfold run_traceroute. apply keeps_with_local.
  apply keeps_bind; [|intros; apply keeps_local].
  apply keeps_try_except; [|intros; apply keeps_set_local].
  apply keeps_bind; [apply keeps_lift, keeps_when, print_keeps|]. intros _.
  apply keeps_bind; [apply keeps_lift, check_output_keeps|]. intros out.
  apply keeps_bind; [apply keeps_lift; intros w; apply f_clock|]. intros t.
  apply keeps_bind; [apply keeps_lift, f_trace_log|]. intros _.
  apply keeps_bind; [apply keeps_lift, f_trace_log|]. intros _.
  apply keeps_for_each. intros line. apply trace_line_keeps.
Qed.

Hypothesis f_requests : forall g w, f (set_requests g w) = f w.

Lemma check_application_response_time_keeps E url :
  keeps f (check_application_response_time E url).
Proof.
  intros w. rewrite check_application_response_time_eq. cbv zeta.
  destruct (http_get E _ url) as [st|e].
  - destruct (Z.leb 400 st && Z.ltb st 600)%bool; cbn [snd];
      now rewrite ?f_console, ?f_clock, f_requests, f_clock.
  - destruct (exn_eqb e RequestException); cbn [snd];
      now rewrite ?f_console, f_requests, f_clock.
Qed.

Hypothesis f_stats : forall g w, f (set_stats_reads g w) = f w.
Hypothesis f_gauges : forall g w, f (set_gauges g w) = f w.

Lemma get_network_interface_stats_keeps E :
  keeps f (get_network_interface_stats E).
Proof.
  assert (forall g, keeps f (set_gauge g)) as Hg.
  { intros g w. apply f_gauges. }
  unfold get_network_interface_stats, zero_interface_gauges.
  apply keeps_try_except.
  - apply keeps_bind; [intros w; apply f_stats|]. intros [c|].
    + repeat (apply keeps_bind; [apply Hg | intros _]). apply print_keeps.
    + apply keeps_bind; [apply print_keeps | intros _].
      repeat (apply keeps_bind; [apply Hg | intros _]). apply Hg.
  - intros e. apply keeps_bind; [apply print_keeps | intros _].
    repeat (apply keeps_bind; [apply Hg | intros _]). apply Hg.
Qed.

End QuietViews.

(** X1. [check_connection], [run_traceroute], [get_whois_info],
    [check_application_response_time] and [play_sound_mac] never write a
    gauge: only [get_network_interface_stats] and the loop do. *)
Theorem probes_leave_gauges (E : env) (host url path : string) (w : world) :
  gauges (snd (check_connection E host w)) = gauges w
  /\ gauges (snd (run_traceroute E host w)) = gauges w
  /\ gauges (snd (get_whois_info E host w)) = gauges w
  /\ gauges (snd (check_application_response_time E url w)) = gauges w
  /\ gauges (snd (play_sound_mac E path w)) = gauges w.
Proof.
  repeat split.
  - now apply check_connection_keeps.
  - now apply run_traceroute_keeps.
  - now apply get_whois_info_keeps.
  - now apply check_application_response_time_keeps.
  - now apply play_sound_mac_keeps.
Qed.

(** X2. No probe writes to the report log [connection_log.txt]: the
    ping probe, the ownership lookup, the interface statistics and the
    application probe write to no file at all, and [run_traceroute]
    leaves every file but [traceroute_log.txt] as it was. *)
Theorem probes_leave_report_log (E : env) (host url : string) (w : world) :
  files (snd (check_connection E host w)) = files w
  /\ files (snd (get_whois_info E host w)) = files w
  /\ files (snd (get_network_interface_stats E w)) = files w
  /\ files (snd (check_application_response_time E url w)) = files w
  /\ forall name,
       name <> "traceroute_log.txt" ->
       files (snd (run_traceroute E host w)) !! name = files w !! name.
Proof.
  repeat split.
  - now apply check_connection_keeps.
  - now apply get_whois_info_keeps.
  - now apply get_network_interface_stats_keeps.
  - now apply check_application_response_time_keeps.
  - intros name Hname.
    apply (run_traceroute_keeps (fun w => files w !! name)); try reflexivity.
    intros chunk w0. cbn. now apply lookup_insert_ne.
Qed.

Lemma probes_leave_report_log_witness :
  files (snd (run_traceroute Sample.healthy INTERNET_HOST Sample.world1))
  !! LOG_FILE
  = files Sample.world1 !! LOG_FILE.
Proof.
  apply (probes_leave_report_log Sample.healthy INTERNET_HOST APPLICATION_URL
           Sample.world1).
  discriminate.
Defined.

(** ** [get_whois_info] *)

Lemma get_whois_info_eq E ip_address w :
  get_whois_info E ip_address w =
  if PyStr.startswith_any ip_address private_prefixes then (Ok default_whois, w)
  else
    let asked := set_procs (fun p => (p ++ [whois_command ip_address])%list) w in
    match spawn E (length (procs w)) (whois_command ip_address) with
    | Exited rc out =>
        if Z.eqb rc 0 then (Ok (parse_whois out), asked)
        else (Ok default_whois, asked)
    | ProcRaise e =>
        if one_of traceroute_handled e then (Ok default_whois, asked)
        else (Raise e, asked)
    end.
Proof.
  unfold get_whois_info, with_local, whois_command.
  destruct (PyStr.startswith_any ip_address private_prefixes); [reflexivity|].
  unfold bind at 1, try_except, bind at 1, lift, check_output, bind at 1,
    start_process. cbn [fst snd].
  destruct (spawn E _ _) as [rc out|e].
  - destruct (Z.eqb rc 0); [|reflexivity].
    unfold ret at 1. cbn [fst snd]. unfold parse_whois, bind.
    destruct (Re.search Pat.whois_org out), (Re.search Pat.whois_country out);
      reflexivity.
  - unfold raise at 1. cbn [fst snd]. unfold traceroute_handled.
    destruct (one_of _ e); reflexivity.
Qed.

(** X3. When the ownership lookup is missing, times out or ends with
    an error status, or when its answer has neither an organisation nor
    a country line, [get_whois_info] returns the default ownership,
    "N/A" and "N/A", without raising. *)
Theorem whois_failure_is_default (E : env) (ip_address : string) (w : world) :
  whois_command_fails (spawn E (length (procs w)) (whois_command ip_address))
  \/ (exists out,
        spawn E (length (procs w)) (whois_command ip_address) = Exited 0 out
        /\ Re.search Pat.whois_org out = None
        /\ Re.search Pat.whois_country out = None) ->
  fst (get_whois_info E ip_address w)
  = Ok {| org_name := "N/A"; country := "N/A" |}.
Proof.
  rewrite get_whois_info_eq.
  destruct (PyStr.startswith_any ip_address private_prefixes); [reflexivity|].
  cbv zeta.
  intros [[-> | [-> | (rc & out & -> & Hrc)]] | (out & -> & Ho & Hc)];
    try reflexivity.
  - apply Z.eqb_neq in Hrc. now rewrite Hrc.
  - cbn [Z.eqb fst]. unfold parse_whois. now rewrite Ho, Hc.
Qed.

Lemma whois_failure_is_default_witness :
  fst (get_whois_info
         {| system_os := "Linux";
            spawn := fun _ _ => Exited 1 "No whois server is known for this kind of object.";
            http_get := http_get Sample.healthy;
            start_server := start_server Sample.healthy;
            net_io_counters := net_io_counters Sample.healthy;
            time_time := time_time Sample.healthy;
            str_now := str_now Sample.healthy;
            strftime_now := strftime_now Sample.healthy;
            str_float := str_float Sample.healthy;
            fmt_2f := fmt_2f Sample.healthy;
            str_exn := str_exn Sample.healthy |}
         "8.8.8.8" Sample.world0)
  = Ok {| org_name := "N/A"; country := "N/A" |}.
Proof.
  apply whois_failure_is_default.
  left. right. right. exists 1, "No whois server is known for this kind of object.".
  split; [reflexivity | discriminate].
Defined.

Lemma differ_startswith (s p rest : string) :
  differ s p = true -> PyStr.startswith (s ++ rest) p = false.
Proof.
  revert s. induction p as [|b p IH]; intros [|a s] H; try discriminate.
  rewrite append_cons. cbn in *.
  destruct (Ascii.eqb b a); cbn in *; [now apply IH | reflexivity].
Qed.

Lemma octet_in_octets (n : Z) : octet n -> In n octets.
Proof.
  intros [H0 H1]. unfold octets. rewrite <- (Z2Nat.id n H0).
  apply in_map, in_seq. lia.
Qed.

(** Either an address is private, or the text of its first two bytes
    already differs from every prefix the script tests. *)
Lemma public_heads_differ :
  forallb (fun a =>
    forallb (fun b =>
      (private_addressb a b
       || forallb (differ (dotted_head a b)) private_prefixes)%bool) octets)
    octets = true.
Proof. vm_compute. reflexivity. Qed.

Lemma private_addressb_spec (a b : Z) :
  private_addressb a b = true <-> private_address a b.
Proof.
  unfold private_addressb, private_address.
  rewrite !orb_true_iff, !andb_true_iff, !Z.eqb_eq, !Z.leb_le. tauto.
Qed.

(** X4. For the dotted text of an address outside 10.0.0.0/8,
    172.16.0.0/12 and 192.168.0.0/16, the prefix test lets the address
    through: [get_whois_info] runs the lookup command, once. *)
Theorem public_address_is_looked_up (E : env) (a b c d : Z) (w : world) :
  octet a -> octet b -> ~ private_address a b ->
  procs (snd (get_whois_info E (dotted a b c d) w))
  = (procs w ++ [["whois"; dotted a b c d]])%list.
Proof.
  intros Ha Hb Hpub.
  assert (PyStr.startswith_any (dotted a b c d) private_prefixes = false) as Hpre.
  { pose proof public_heads_differ as H.
    rewrite forallb_forall in H. specialize (H a (octet_in_octets a Ha)).
    rewrite forallb_forall in H. specialize (H b (octet_in_octets b Hb)).
    apply orb_prop in H as [H | H]; [now apply private_addressb_spec in H|].
    rewrite forallb_forall in H.
    unfold PyStr.startswith_any.
    destruct (existsb _ _) eqn:Hex; [|reflexivity].
    apply existsb_exists in Hex as (p & Hin & Hp).
    specialize (H p Hin).
    replace (dotted a b c d)
      with (dotted_head a b ++ (str_int c ++ "." ++ str_int d)) in Hp.
    - now rewrite (differ_startswith _ _ _ H) in Hp.
    - unfold dotted, dotted_head. now rewrite !append_assoc. }
  rewrite get_whois_info_eq, Hpre. cbv zeta.
  destruct (spawn E _ _) as [rc out|e].
  - destruct (Z.eqb rc 0); reflexivity.
  - destruct (one_of _ e); reflexivity.
Qed.

Lemma public_address_is_looked_up_witness :
  procs (snd (get_whois_info Sample.healthy "8.8.8.8" Sample.world0))
  = [["whois"; "8.8.8.8"]].
Proof.
  apply (public_address_is_looked_up Sample.healthy 8 8 8 8 Sample.world0).
  - unfold octet. lia.
  - unfold octet. lia.
  - unfold private_address. lia.
Defined.

(** ** [run_traceroute]: the raw log *)

Lemma trace_lines_keep_files E lines (s : list hop_record * world) :
  files (snd (snd (for_each lines (trace_line E) s))) = files (snd s).
Proof.
  apply (keeps_for_each (fun ls : list hop_record * world => files (snd ls))).
  intros line. now apply (trace_line_keeps files).
Qed.

(** X5. When the path command runs to its end, its raw output is
    appended to [traceroute_log.txt], after a header with the host and
    the time, whatever the parsing of the lines does then, a raise
    included; when the command fails, no file is written. *)
Theorem raw_output_is_logged (E : env) (host : string) (w : world) :
  (forall out,
     spawn E (length (procs w)) (traceroute_command E host) = Exited 0 out ->
     files (snd (run_traceroute E host w)) !! "traceroute_log.txt"
     = Some (default [] (files w !! "traceroute_log.txt")
             ++ [trace_header E host w; out])%list)
  /\ (traceroute_command_fails
        (spawn E (length (procs w)) (traceroute_command E host)) ->
      files (snd (run_traceroute E host w)) = files w).
Proof.
  rewrite run_traceroute_eq. split.
  - intros out ->. cbn [Z.eqb].
    pose proof (trace_lines_keep_files E (PyStr.splitlines out)
                  ([], traceroute_logged E host out w)) as Hk.
    destruct (for_each _ _ _) as [[[]|e] [l w']]; cbn [snd] in Hk.
    + cbn [snd]. rewrite Hk. cbn. rewrite lookup_insert_eq, lookup_insert_eq.
      cbn. now rewrite <- app_assoc.
    + assert (files (snd (if one_of traceroute_handled e
                          then (Ok (l ++ [failed_hop])%list, w')
                          else (@Raise (list hop_record) e, w'))) = files w') as ->.
      { now destruct (one_of _ e). }
      rewrite Hk. cbn. rewrite lookup_insert_eq, lookup_insert_eq.
      cbn. now rewrite <- app_assoc.
  - intros [-> | [-> | (rc & out & -> & Hrc)]]; try reflexivity.
    apply Z.eqb_neq in Hrc. now rewrite Hrc.
Qed.

Lemma raw_output_is_logged_witness :
  files (snd (run_traceroute Sample.healthy INTERNET_HOST Sample.world0))
  !! "traceroute_log.txt"
  = Some [trace_header Sample.healthy INTERNET_HOST Sample.world0;
          Sample.path_reply].
Proof.
  apply (raw_output_is_logged Sample.healthy INTERNET_HOST Sample.world0).
  reflexivity.
Defined.

(** ** [play_sound_mac] and [get_network_interface_stats] *)

(** X6. [play_sound_mac] never raises, whatever happens to the player:
    it asks for one [afplay] process on the file and, when that fails,
    prints the error instead. *)
Theorem play_sound_mac_never_raises (E : env) (file_path : string) (w : world) :
  fst (play_sound_mac E file_path w) = Ok tt
  /\ procs (snd (play_sound_mac E file_path w))
     = (procs w ++ [["afplay"; file_path]])%list
  /\ (forall e,
        spawn E (length (procs w)) ["afplay"; file_path] = ProcRaise e ->
        console (snd (play_sound_mac E file_path w))
        = (console w
           ++ [("Error playing sound with afplay: " ++ str_exn E e)%string])%list).
Proof.
  unfold play_sound_mac, try_except, Popen, bind, start_process, any_exception.
  destruct (spawn E _ _) as [rc out|e]; cbn; repeat split; try discriminate.
  now intros e' [= <-].
Qed.

Lemma play_sound_mac_never_raises_witness :
  console (snd (play_sound_mac Sample.healthy RED_SOUND_PATH Sample.world0))
  = ["Error playing sound with afplay: <exception>"].
Proof.
  destruct (play_sound_mac_never_raises Sample.healthy RED_SOUND_PATH
              Sample.world0) as (_ & _ & H).
  apply (H FileNotFoundError). reflexivity.
Defined.

(** X7. [get_network_interface_stats] never raises. With counters read,
    the three interface gauges hold the bytes received, the bytes sent
    and the sum of the packets dropped in and out; when the reading
    gives nothing or raises, whatever the exception, the three gauges
    read 0. The other gauges are left as they were. *)
Theorem interface_stats_never_fail (E : env) (w : world) :
  let g := gauges (snd (get_network_interface_stats E w)) in
  fst (get_network_interface_stats E w) = Ok tt
  /\ (forall c,
        net_io_counters E (stats_reads w) = NetIO c ->
        bytes_received_gauge g = PInt (bytes_recv c)
        /\ bytes_transmitted_gauge g = PInt (bytes_sent c)
        /\ packets_dropped_gauge g = PInt (dropin c + dropout c))
  /\ (net_io_counters E (stats_reads w) = NetNone
      \/ (exists e, net_io_counters E (stats_reads w) = NetRaise e) ->
      bytes_received_gauge g = PInt 0
      /\ bytes_transmitted_gauge g = PInt 0
      /\ packets_dropped_gauge g = PInt 0)
  /\ PING_LATENCY_GAUGE g = PING_LATENCY_GAUGE (gauges w)
  /\ PACKET_LOSS_GAUGE g = PACKET_LOSS_GAUGE (gauges w)
  /\ TRACEROUTE_HOPS_GAUGE g = TRACEROUTE_HOPS_GAUGE (gauges w)
  /\ TRACEROUTE_HOP_LATENCY g = TRACEROUTE_HOP_LATENCY (gauges w)
  /\ APPLICATION_RESPONSE_TIME_GAUGE g = APPLICATION_RESPONSE_TIME_GAUGE (gauges w).
Proof.
  unfold get_network_interface_stats, zero_interface_gauges, try_except, bind,
    psutil_net_io_counters, set_gauge, print, modify, any_exception.
  destruct (net_io_counters E (stats_reads w)) as [c| |e]; cbn;
    (split; [reflexivity|]);
    (split; [intros c' Hc; try discriminate; injection Hc as <-; repeat split|]);
    (split; [intros [H | (e' & H)]; try discriminate; repeat split
            | repeat split]).
Qed.

Lemma interface_stats_never_fail_witness :
  packets_dropped_gauge
    (gauges (snd (get_network_interface_stats Sample.healthy Sample.world0)))
  = PInt 3.
Proof.
  destruct (interface_stats_never_fail Sample.healthy Sample.world0)
    as (_ & H & _).
  apply (H Sample.counters). reflexivity.
Defined.

(** ** More on what the groups hold *)

(** A pattern only adds groups of its own numbers, on top of the groups
    it was given. *)
Lemma den_caps (r : Re.re) : forall pos t c c',
  den r pos t c c' ->
  exists ex, c' = (ex ++ c)%list /\ Forall (fun kv => In (fst kv) (grp_ids r)) ex.
Proof.
  induction r as [|p|g p|r1 IH1 r2 IH2|r1 IH1 r2 IH2|i r IH|];
    intros pos t c c' H; cbn [den grp_ids] in *.
  - destruct H as [_ ->]. now exists [].
  - destruct H as [_ ->]. now exists [].
  - destruct H as [_ ->]. now exists [].
  - destruct H as (t1 & t2 & c1 & _ & H1 & H2).
    apply IH1 in H1 as (ex1 & -> & F1). apply IH2 in H2 as (ex2 & -> & F2).
    exists (ex2 ++ ex1)%list. split; [now rewrite app_assoc|].
    apply Forall_app. split; eapply Forall_impl; try eassumption;
      intros kv Hin; apply in_or_app; auto.
  - destruct H as [H | H]; [apply IH1 in H | apply IH2 in H];
      destruct H as (ex & -> & F); exists ex; (split; [reflexivity|]);
      eapply Forall_impl; try eassumption; intros kv Hin; apply in_or_app; auto.
  - destruct H as (c0 & H & ->). apply IH in H as (ex & -> & F).
    exists ((i, t) :: ex). split; [reflexivity|].
    constructor; [now left|].
    eapply Forall_impl; try eassumption. intros kv Hin. now right.
  - destruct H as (_ & _ & ->). now exists [].
Qed.

Lemma group_skip (ex c : Re.caps) (i : nat) :
  Forall (fun kv => fst kv <> i) ex -> Re.group (ex ++ c)%list i = Re.group c i.
Proof.
  induction 1 as [|[j s] ex Hj _ IH]; [reflexivity|].
  cbn in *. destruct (Nat.eqb_spec i j); [congruence | assumption].
Qed.

(** The hop number of a hop line: group 1 of a pattern that starts with
    [^\s*(\d+)] and has no other group 1 is a nonempty run of digits. *)
Lemma hop_number_group (rest : Re.re) (out : string) (m : Re.caps) :
  ~ In 1%nat (grp_ids rest) ->
  Re.search
    (Re.Seq Re.Bol (Re.Seq (Re.star Re.sp) (Re.Seq (Re.Grp 1 (Re.plus Re.d)) rest)))
    out = Some m ->
  Re.group m 1 <> EmptyString /\ all_chars PyStr.is_digit (Re.group m 1) = true.
Proof.
  intros Hrest (pos & t & D)%search_sound.
  destruct D as (t0 & t0' & c0 & _ & (_ & _ & ->) & D).
  destruct D as (t1 & t1' & c1 & _ & (_ & ->) & D).
  destruct D as (t2 & t2' & c2 & _ & (c3 & D2 & ->) & D).
  apply den_plus in D2 as (Hne & Hd & ->).
  apply den_caps in D as (ex & -> & F).
  rewrite group_skip.
  - cbn. auto.
  - eapply Forall_impl; [exact F|]. intros kv Hin Heq. apply Hrest.
    now rewrite <- Heq.
Qed.

Lemma win_hop_group out m :
  Re.search Pat.win_hop out = Some m ->
  exists n, PyStr.py_int (Re.group m 1) = Some n /\ 0 <= n.
Proof.
  intros H. eapply hop_number_group in H as [Hne Hd].
  - destruct (py_int_digits _ Hd Hne). eauto.
  - cbn. intuition discriminate.
Qed.

Lemma unix_hop_group out m :
  Re.search Pat.unix_hop out = Some m ->
  exists n, PyStr.py_int (Re.group m 1) = Some n /\ 0 <= n.
Proof.
  intros H. eapply hop_number_group in H as [Hne Hd].
  - destruct (py_int_digits _ Hd Hne). eauto.
  - cbn. intuition discriminate.
Qed.

Lemma win_avg_group out m :
  Re.search Pat.win_avg out = Some m ->
  exists n, PyStr.py_int (Re.group m 1) = Some n /\ 0 <= n.
Proof.
  intros (pos & t & D)%search_sound.
  destruct D as (t0 & t' & c' & _ & D0 & t1 & t2 & c1 & _ & (c0 & D1 & ->) & D2).
  apply den_lit in D0 as ->. apply den_lit in D2 as ->.
  apply den_plus in D1 as (Hne & Hd & ->).
  cbn. destruct (py_int_digits _ Hd Hne). eauto.
Qed.

Lemma py_float_nonneg (s : string) (q : Q) :
  PyStr.py_float s = Some q -> (0 <= q)%Q.
Proof.
  unfold PyStr.py_float.
  destruct (PyStr.span_digits s) as [ip r].
  assert (forall t p, (0 <= PyStr.digits_value 0 t # p)%Q) as Hpos.
  { intros t p. unfold Qle. cbn. pose proof (digits_value_nonneg t 0). lia. }
  assert (forall z p, Some (z # p) = Some q -> (0 <= z # p)%Q -> (0 <= q)%Q)
    as Hsome.
  { now intros z p [= <-]. }
  destruct r as [|a r].
  - destruct ip; [discriminate|]. intros H. eapply Hsome; [exact H | apply Hpos].
  - destruct (Ascii.ascii_dec a ".") as [-> | Hne].
    + destruct (PyStr.span_digits r) as [fp r''].
      destruct r''; [|discriminate].
      destruct ip, fp; try discriminate; intros H;
        (eapply Hsome; [exact H | apply Hpos]).
    + destruct a as [[] [] [] [] [] [] [] []]; try discriminate.
      now destruct Hne.
Qed.

(** ** More on [check_connection] *)

(** X8. When the latency pattern matches a text that [float] rejects
    (two dots in a row, say), the [ValueError] is caught and
    [check_connection] reports total loss, whatever loss the output
    states. *)
Theorem unreadable_latency_is_total_loss (E : env) (host : string) (w : world)
    (rc : Z) (out : string) (m : Re.caps) :
  is_windows E = false ->
  spawn E (length (procs w)) (ping_command E host) = Exited rc out ->
  Re.search Pat.unix_avg out = Some m ->
  PyStr.py_float (Re.group m 1) = None ->
  fst (check_connection E host w)
  = Ok {| success := false; packet_loss := 100; avg_latency := minus_one |}.
Proof.
  intros Hw Ho Hm Hf. rewrite check_connection_eq, Ho. cbn [fst].
  unfold parse_avg, avg_pattern. rewrite Hw, Hm, Hf. cbn.
  now destruct (parse_loss E out).
Qed.

Lemma unreadable_latency_is_total_loss_witness :
  fst (check_connection
         (Sample.linux
            (Exited 0
               (Sample.line "4 packets transmitted, 4 received, 0% packet loss, time 3004ms"
                ++ Sample.line "rtt min/avg/max/mdev = 11.1/12..3/13.5/0.9 ms"))
            (Exited 0 Sample.path_reply) (Response 200))
         INTERNET_HOST Sample.world0)
  = Ok {| success := false; packet_loss := 100; avg_latency := minus_one |}.
Proof.
  apply (unreadable_latency_is_total_loss _ _ _ 0
           (Sample.line "4 packets transmitted, 4 received, 0% packet loss, time 3004ms"
            ++ Sample.line "rtt min/avg/max/mdev = 11.1/12..3/13.5/0.9 ms")
           [(1%nat, "12..3")]);
    vm_compute; reflexivity.
Defined.

(** X9. The [avg_latency] that [check_connection] returns is the
    sentinel -1 itself or a number that is not negative: a latency read
    from the output is never mistaken for the sentinel. *)
Theorem ping_latency_sentinel_is_unambiguous (E : env) (host : string)
    (w : world) (r : ping_result) :
  fst (check_connection E host w) = Ok r ->
  sentinel_or_nonneg (avg_latency r).
Proof.
  rewrite check_connection_eq. cbn [fst].
  assert (forall out a, parse_avg E out = Some a -> sentinel_or_nonneg a) as Havg.
  { intros out a. unfold parse_avg, avg_pattern.
    destruct (is_windows E).
    - destruct (Re.search Pat.win_avg out) as [m|] eqn:Hm.
      + destruct (win_avg_group out m Hm) as (n & -> & Hn).
        intros [= <-]. right. unfold Qle. cbn. lia.
      + intros [= <-]. now left.
    - destruct (Re.search Pat.unix_avg out) as [m|].
      + destruct (PyStr.py_float (Re.group m 1)) as [q|] eqn:Hq; [|discriminate].
        intros [= <-]. right. now apply py_float_nonneg in Hq.
      + intros [= <-]. now left. }
  destruct (spawn E _ _) as [rc out|e].
  - destruct (parse_loss E out) as [l|]; [|intros [= <-]; now left].
    destruct (parse_avg E out) as [a|] eqn:Ha; intros [= <-]; [|now left].
    cbn. eauto.
  - destruct (one_of ping_handled e); [|discriminate].
    intros [= <-]. now left.
Qed.

Lemma ping_latency_sentinel_is_unambiguous_witness :
  sentinel_or_nonneg (PFloat (123 # 10)).
Proof.
  apply (ping_latency_sentinel_is_unambiguous Sample.healthy INTERNET_HOST
           Sample.world0 Sample.nominal).
  reflexivity.
Defined.

(** ** More on [run_traceroute] *)

Lemma search_win_hop_nonempty line m :
  Re.search Pat.win_hop line = Some m -> line <> EmptyString.
Proof. intros H ->. discriminate. Qed.

(** X10. On Windows, the first line of the output that is a hop line,
    when it is the line of a hop that answered, ends [run_traceroute] by
    a [TypeError] (the match object is called, [match(3)]), which no
    handler of the function catches: the caller gets the exception. *)
Theorem windows_answered_hop_raises (E : env) (host : string) (w : world)
    (out : string) (before after : list string) (line : string) (m : Re.caps) :
  is_windows E = true ->
  spawn E (length (procs w)) (traceroute_command E host) = Exited 0 out ->
  PyStr.splitlines out = (before ++ line :: after)%list ->
  existsb (hop_line E) before = false ->
  Re.search Pat.win_hop line = Some m ->
  fst (run_traceroute E host w) = Raise TypeError.
Proof.
  intros Hw Ho Hlines Hbefore Hm.
  rewrite run_traceroute_eq, Ho, Hlines. cbn [Z.eqb].
  assert (forall s, for_each (before ++ line :: after) (trace_line E) s
                    = (Raise TypeError, s)) as ->; [|reflexivity].
  clear Hlines Ho. intros [acc w0]. revert acc w0 Hbefore.
  induction before as [|l0 before IH]; intros acc w0 Hbefore.
  - cbn [app for_each]. unfold bind.
    assert (trace_line E line (acc, w0) = (Raise TypeError, (acc, w0))) as ->;
      [|reflexivity].
    unfold trace_line. pose proof (search_win_hop_nonempty line m Hm) as Hne.
    destruct line as [|a line]; [now destruct Hne|].
    rewrite Hw, Hm. destruct (win_hop_group _ m Hm) as (n & Hn & _).
    unfold bind, int. now rewrite Hn.
  - cbn [existsb] in Hbefore. apply orb_false_elim in Hbefore as [H0 Hb].
    cbn [app for_each]. unfold bind at 1.
    destruct (trace_line_spec E l0 acc w0) as (more & _ & _ & Hskip).
    rewrite (Hskip H0). cbv beta iota. now apply IH.
Qed.

Lemma windows_answered_hop_raises_witness :
  fst (run_traceroute
         {| system_os := "Windows";
            spawn := fun _ _ =>
              Exited 0
                (Sample.line "Tracing route to dns.google [8.8.8.8]"
                 ++ Sample.line "  1    1ms    1ms    1ms  router.lan [192.168.1.1]");
            http_get := http_get Sample.healthy;
            start_server := start_server Sample.healthy;
            net_io_counters := net_io_counters Sample.healthy;
            time_time := time_time Sample.healthy;
            str_now := str_now Sample.healthy;
            strftime_now := strftime_now Sample.healthy;
            str_float := str_float Sample.healthy;
            fmt_2f := fmt_2f Sample.healthy;
            str_exn := str_exn Sample.healthy |}
         INTERNET_HOST Sample.world0)
  = Raise TypeError.
Proof.
  apply (windows_answered_hop_raises _ _ _
           (Sample.line "Tracing route to dns.google [8.8.8.8]"
            ++ Sample.line "  1    1ms    1ms    1ms  router.lan [192.168.1.1]")
           ["Tracing route to dns.google [8.8.8.8]"] []
           "  1    1ms    1ms    1ms  router.lan [192.168.1.1]"
           [(3%nat, "192.168.1.1"); (2%nat, "router.lan"); (1%nat, "1")]);
    vm_compute; reflexivity.
Defined.

Lemma sentinel_or_nonneg_timed_out n :
  sentinel_or_nonneg (latency (timed_out_hop n)).
Proof. now left. Qed.

(** A line keeps the records read so far and adds at most a record
    whose latency is the sentinel or is not negative. *)
Lemma trace_line_latency E line acc w :
  Forall (fun h => sentinel_or_nonneg (latency h)) acc ->
  Forall (fun h => sentinel_or_nonneg (latency h))
    (fst (snd (trace_line E line (acc, w)))).
Proof.
  intros Hacc.
  assert (forall h, sentinel_or_nonneg (latency h) ->
            Forall (fun h => sentinel_or_nonneg (latency h)) (acc ++ [h])%list)
    as Hadd.
  { intros h Hh. apply Forall_app. split; [assumption | now constructor]. }
  unfold trace_line. destruct line as [|a line]; [exact Hacc|].
  set (l := String a line).
  destruct (is_windows E).
  - destruct (Re.search Pat.win_hop l) as [m|].
    + unfold bind, int, raise, ret. now destruct (PyStr.py_int _).
    + destruct (Re.search Pat.win_timeout l); [|exact Hacc].
      unfold bind, first, int, append_hop, set_local, modify, raise, ret.
      destruct (PyStr.split _) as [|tok ?]; cbn; [exact Hacc|].
      destruct (PyStr.py_int tok); cbn; [|exact Hacc].
      apply Hadd, sentinel_or_nonneg_timed_out.
  - destruct (Re.search Pat.unix_hop l) as [m|].
    + unfold bind, int, float, lift, append_hop, set_local, modify, raise, ret.
      destruct (PyStr.py_int _); cbn; [|exact Hacc].
      destruct (PyStr.py_float _) as [q|] eqn:Hq; cbn; [|exact Hacc].
      destruct (get_whois_info E _ w) as [[i|e] w1]; cbn; [|exact Hacc].
      apply Hadd. right. cbn. now apply py_float_nonneg in Hq.
    + destruct (Re.search Pat.unix_timeout l); [|exact Hacc].
      unfold bind, first, int, append_hop, set_local, modify, raise, ret.
      destruct (PyStr.split _) as [|tok ?]; cbn; [exact Hacc|].
      destruct (PyStr.py_int tok); cbn; [|exact Hacc].
      apply Hadd, sentinel_or_nonneg_timed_out.
Qed.

Lemma trace_lines_latency E lines : forall acc w,
  Forall (fun h => sentinel_or_nonneg (latency h)) acc ->
  Forall (fun h => sentinel_or_nonneg (latency h))
    (fst (snd (for_each lines (trace_line E) (acc, w)))).
Proof.
  induction lines as [|line lines IH]; intros acc w Hacc; [exact Hacc|].
  cbn [for_each]. unfold bind.
  pose proof (trace_line_latency E line acc w Hacc) as H.
  destruct (trace_line E line (acc, w)) as [[[]|e] [acc1 w1]]; cbn [fst snd] in *.
  - now apply IH.
  - exact H.
Qed.

(** X11. Every record [run_traceroute] returns has for latency the
    sentinel -1 itself or a number that is not negative: the test
    [hop['latency'] != -1] of the loop tells exactly the hops whose
    latency was read. *)
Theorem hop_latency_sentinel_is_unambiguous (E : env) (host : string)
    (w : world) (l : list hop_record) :
  fst (run_traceroute E host w) = Ok l ->
  Forall (fun h => sentinel_or_nonneg (latency h)) l.
Proof.
  rewrite run_traceroute_eq.
  assert (Forall (fun h => sentinel_or_nonneg (latency h)) [failed_hop]) as Hf.
  { constructor; [now left | constructor]. }
  destruct (spawn E _ _) as [rc out|e].
  - destruct (Z.eqb rc 0); [|now intros [= <-]].
    pose proof (trace_lines_latency E (PyStr.splitlines out) []
                  (traceroute_logged E host out w) (List.Forall_nil _)) as H.
    destruct (for_each _ _ _) as [[[]|e] [l' w']]; cbn [fst snd] in *.
    + now intros [= <-].
    + destruct (one_of traceroute_handled e); [|discriminate].
      intros [= <-]. apply Forall_app. split; assumption.
  - destruct (one_of traceroute_handled e); [|discriminate].
    now intros [= <-].
Qed.

Lemma hop_latency_sentinel_is_unambiguous_witness :
  Forall (fun h => sentinel_or_nonneg (latency h))
    [Sample.gateway; Sample.silent;
     {| hop := 3; hostname := "dns.google"; ip := "8.8.8.8";
        latency := PFloat (95 # 10);
        whois := {| org_name := "Google LLC"; country := "US" |} |}].
Proof.
  apply (hop_latency_sentinel_is_unambiguous Sample.healthy INTERNET_HOST
           Sample.world0).
  vm_compute. reflexivity.
Defined.

(** ** More on the update of the metrics *)

(** X12. Updating the metrics twice with the same results leaves the
    gauges as the first update left them: nothing accumulates. *)
Theorem update_metrics_idempotent (p : ping_result) (tr : list hop_record)
    (app : pynum) (w : world) :
  gauges (snd (update_metrics p tr app (snd (update_metrics p tr app w))))
  = gauges (snd (update_metrics p tr app w)).
Proof.
  rewrite !update_metrics_eq. cbn. unfold published. cbn.
  now destruct (known app).
Qed.

Lemma hop_series_app tr1 tr2 m :
  hop_series (tr1 ++ tr2) m = hop_series tr2 (hop_series tr1 m).
Proof. apply fold_left_app. Qed.

Lemma hop_series_other (tr : list hop_record) (l : string * string * string) :
  forall m,
    (forall h, In h tr -> known (latency h) = true -> labels_of h <> l) ->
    hop_series tr m !! l = m !! l.
Proof.
  induction tr as [|h tr IH]; intros m H; [reflexivity|].
  rewrite hop_series_cons, IH.
  - destruct (known (latency h)) eqn:Hk; [|reflexivity].
    apply lookup_insert_ne. apply H; [now left | assumption].
  - intros h' Hin. apply H. now right.
Qed.

(** X13. When several hop records of an iteration carry the same
    labels, the series holds the latency of the last of them whose
    latency is known. *)
Theorem last_hop_wins (p : ping_result) (tr1 tr2 : list hop_record)
    (h : hop_record) (app : pynum) (w : world) :
  known (latency h) = true ->
  (forall h', In h' tr2 -> known (latency h') = true ->
              labels_of h' <> labels_of h) ->
  TRACEROUTE_HOP_LATENCY
    (gauges (snd (update_metrics p (tr1 ++ h :: tr2) app w)))
  !! labels_of h
  = Some (latency h).
Proof.
  intros Hk Hlast. rewrite update_metrics_eq. cbn.
  rewrite hop_series_app, hop_series_cons, Hk, (hop_series_other tr2 _ _ Hlast).
  apply lookup_insert_eq.
Qed.

Lemma last_hop_wins_witness :
  TRACEROUTE_HOP_LATENCY
    (gauges (snd (update_metrics Sample.nominal
                    [Sample.gateway;
                     {| hop := 1; hostname := "gw.local"; ip := "192.168.1.1";
                        latency := PFloat (2500 # 1000); whois := default_whois |};
                     Sample.silent]
                    minus_one Sample.world0)))
  !! ("1", "192.168.1.1", "gw.local")
  = Some (PFloat (2500 # 1000)).
Proof.
  apply (last_hop_wins Sample.nominal [Sample.gateway] [Sample.silent]
           {| hop := 1; hostname := "gw.local"; ip := "192.168.1.1";
              latency := PFloat (2500 # 1000); whois := default_whois |}
           minus_one Sample.world0).
  - reflexivity.
  - intros h' [<- | []] Hk. discriminate.
Defined.

(** ** More on [check_application_response_time] *)

(** X14. When the request is answered with a status outside 400..599,
    [check_application_response_time] makes that one request and returns
    the time between its two readings of the clock, in milliseconds; if
    the clock did not go back, the update of the metrics stores this
    value in the application gauge. An exception that is not an error of
    [requests] is not caught. *)
Theorem application_probe_measures (E : env) (url : string) (w : world) :
  let elapsed :=
    ((time_time E (S (clock_reads w)) - time_time E (clock_reads w))
     * (1000 # 1))%Q in
  (forall st,
     http_get E (length (requests w)) url = Response st ->
     ~ 400 <= st < 600 ->
     fst (check_application_response_time E url w) = Ok (PFloat elapsed)
     /\ requests (snd (check_application_response_time E url w))
        = (requests w ++ [url])%list
     /\ ((time_time E (clock_reads w) <= time_time E (S (clock_reads w)))%Q ->
         forall p tr w1,
           APPLICATION_RESPONSE_TIME_GAUGE
             (gauges (snd (update_metrics p tr (PFloat elapsed) w1)))
           = PFloat elapsed))
  /\ (forall e,
        http_get E (length (requests w)) url = HttpRaise e ->
        e <> RequestException ->
        fst (check_application_response_time E url w) = Raise e).
Proof.
  intros elapsed. rewrite check_application_response_time_eq. cbv zeta. split.
  - intros st -> Hst.
    assert ((Z.leb 400 st && Z.ltb st 600)%bool = false) as ->.
    { destruct (Z.leb_spec 400 st), (Z.ltb_spec st 600); try reflexivity. lia. }
    repeat split. intros Hclock p tr w1.
    rewrite update_metrics_eq. cbn.
    assert (known (PFloat elapsed) = true) as ->; [|reflexivity].
    unfold known, num_eqb. apply negb_true_iff.
    destruct (Qeq_bool _ _) eqn:Hq; [|reflexivity].
    apply Qeq_bool_iff in Hq. cbn [num_Q minus_one] in Hq.
    assert (0 <= elapsed)%Q as Hpos.
    { unfold elapsed. apply Qmult_le_0_compat; [|discriminate].
      now apply -> Qle_minus_iff. }
    rewrite Hq in Hpos. now destruct Hpos.
  - intros e -> He. now destruct e.
Qed.

Lemma application_probe_measures_witness :
  fst (check_application_response_time Sample.healthy APPLICATION_URL
         Sample.world0)
  = Ok (PFloat ((time_time Sample.healthy 1 - time_time Sample.healthy 0)
                * (1000 # 1))%Q).
Proof.
  destruct (application_probe_measures Sample.healthy APPLICATION_URL
              Sample.world0) as [H _].
  apply (H 200); [reflexivity | lia].
Defined.

(** ** More on [main] *)



Lemma loop_iteration_sleeps E w w' :
  loop_iteration E w = (Ok tt, w') ->
  sleeps w' = (sleeps w ++ [INTERVAL])%list.
Proof.
  unfold loop_iteration. intros H.
  apply bind_Ok_inv in H as (t & w0 & Ht & H). injection Ht as <- <-.
  apply bind_Ok_inv in H as (p & w1 & Hp & H).
  apply bind_Ok_inv in H as (tr & w2 & Htr & H).
  apply bind_Ok_inv in H as ([] & w3 & Hst & H).
  apply bind_Ok_inv in H as (app & w4 & Happ & H).
  rewrite process_results_eq in H. injection H as <-.
  pose proof (check_connection_keeps sleeps (fun _ _ => eq_refl)
                (fun _ _ => eq_refl) E INTERNET_HOST (set_clock_reads S w)) as K1.
  rewrite Hp in K1. cbn [snd] in K1.
  pose proof (run_traceroute_keeps sleeps (fun _ _ => eq_refl)
                (fun _ _ => eq_refl) (fun _ _ => eq_refl)
                (fun _ _ => eq_refl) E INTERNET_HOST w1) as K2.
  rewrite Htr in K2. cbn [snd] in K2.
  pose proof (get_network_interface_stats_keeps sleeps (fun _ _ => eq_refl)
                (fun _ _ => eq_refl) (fun _ _ => eq_refl) E w2) as K3.
  rewrite Hst in K3. cbn [snd] in K3.
  pose proof (check_application_response_time_keeps sleeps (fun _ _ => eq_refl)
                (fun _ _ => eq_refl) (fun _ _ => eq_refl) E APPLICATION_URL w3)
    as K4.
  rewrite Happ in K4. cbn [snd] in K4.
  cbn [sleeps set_sleeps].
  assert (forall f (x : world),
            sleeps ((if should_log (packet_loss p) tr then set_files f
                     else fun w => w) x) = sleeps x) as Hlog.
  { intros f x. now destruct (should_log _ _). }
  rewrite Hlog. cbn. now rewrite K4, K3, K2, K1.
Qed.

(** X16. The loop waits [INTERVAL] seconds once at the end of every
    iteration, and nowhere else: after [n] iterations, [n] waits of 10
    seconds have been added. *)
Theorem one_sleep_per_iteration (E : env) (n : nat) (w w' : world) :
  iterations E n w = (Ok tt, w') ->
  sleeps w' = (sleeps w ++ repeat INTERVAL n)%list.
Proof.
  revert w. induction n as [|n IH]; intros w H.
  - injection H as <-. cbn. now rewrite app_nil_r.
  - cbn [iterations] in H. apply bind_Ok_inv in H as ([] & w1 & H1 & H).
    apply loop_iteration_sleeps in H1. apply IH in H.
    rewrite H, H1, <- app_assoc. reflexivity.
Qed.

Lemma one_sleep_per_iteration_witness :
  sleeps (snd (iterations Sample.healthy 2 Sample.world0)) = [10; 10].
Proof.
  apply (one_sleep_per_iteration Sample.healthy 2 Sample.world0).
  vm_compute. reflexivity.
Defined.

(** X17. An exception of the ping command that [check_connection] does
    not name (a [PermissionError], say) is not caught anywhere in the
    loop: the iteration ends by that exception before the trace, with
    no gauge written, no file written and no alert. *)
Theorem unnamed_ping_error_ends_the_iteration (E : env) (w : world) (e : exn) :
  spawn E (length (procs w)) (ping_command E INTERNET_HOST) = ProcRaise e ->
  one_of [TimeoutExpired; FileNotFoundError; IndexError; ValueError] e = false ->
  fst (loop_iteration E w) = Raise e
  /\ gauges (snd (loop_iteration E w)) = gauges w
  /\ files (snd (loop_iteration E w)) = files w
  /\ threads (snd (loop_iteration E w)) = threads w
  /\ procs (snd (loop_iteration E w))
     = (procs w ++ [ping_command E INTERNET_HOST])%list.
Proof.
  intros Ho He.
  assert (loop_iteration E w
          = (Raise e, ping_started E INTERNET_HOST (set_clock_reads S w))) as ->.
  { unfold loop_iteration, bind at 1, read_clock, bind at 1.
    rewrite check_connection_eq. cbn [procs set_clock_reads].
    rewrite Ho. unfold ping_handled. now rewrite He. }
  repeat split.
Qed.

Lemma unnamed_ping_error_ends_the_iteration_witness :
  fst (loop_iteration
         (Sample.linux (ProcRaise OtherError) (Exited 0 Sample.path_reply)
            (Response 200))
         Sample.world0)
  = Raise OtherError.
Proof.
  apply (unnamed_ping_error_ends_the_iteration
           (Sample.linux (ProcRaise OtherError) (Exited 0 Sample.path_reply)
              (Response 200))
           Sample.world0 OtherError); reflexivity.
Defined.

(** X18. In an iteration that completes while the path command is
    missing, times out or ends with an error status, the hop-count gauge
    reads 1, for the one synthetic record, the per-hop series is empty,
    and an entry is appended to the report log whatever the packet loss:
    the latency of the synthetic record is the sentinel. *)
Theorem failed_trace_is_counted_and_logged (E : env) (w w' : world) :
  loop_iteration E w = (Ok tt, w') ->
  traceroute_command_fails
    (spawn E (S (length (procs w))) (traceroute_command E INTERNET_HOST)) ->
  TRACEROUTE_HOPS_GAUGE (gauges w') = PInt 1
  /\ TRACEROUTE_HOP_LATENCY (gauges w') = ∅
  /\ exists entry,
       files w' !! LOG_FILE
       = Some (default [] (files w !! LOG_FILE) ++ [entry])%list.
Proof.
  unfold loop_iteration. intros H Hfail.
  apply bind_Ok_inv in H as (t & w0 & Ht & H). injection Ht as <- <-.
  apply bind_Ok_inv in H as (p & w1 & Hp & H).
  apply bind_Ok_inv in H as (tr & w2 & Htr & H).
  apply bind_Ok_inv in H as ([] & w3 & Hst & H).
  apply bind_Ok_inv in H as (app & w4 & Happ & H).
  rewrite process_results_eq in H. injection H as <-.
  rewrite check_connection_eq in Hp. injection Hp as _ <-.
  rewrite run_traceroute_eq in Htr.
  replace (length (procs (ping_started E INTERNET_HOST (set_clock_reads S w))))
    with (S (length (procs w))) in Htr
    by (cbn; rewrite length_app; cbn; lia).
  assert (tr = [failed_hop]
          /\ files w2 = files w) as [-> Hf2].
  { destruct Hfail as [Ho | [Ho | (rc & out & Ho & Hrc)]]; rewrite Ho in Htr.
    - injection Htr as <- <-. now split.
    - injection Htr as <- <-. now split.
    - apply Z.eqb_neq in Hrc. rewrite Hrc in Htr. injection Htr as <- <-.
      now split. }
  pose proof (get_network_interface_stats_keeps files (fun _ _ => eq_refl)
                (fun _ _ => eq_refl) (fun _ _ => eq_refl) E w2) as K3.
  rewrite Hst in K3. cbn [snd] in K3.
  pose proof (check_application_response_time_keeps files (fun _ _ => eq_refl)
                (fun _ _ => eq_refl) (fun _ _ => eq_refl) E APPLICATION_URL w3)
    as K4.
  rewrite Happ in K4. cbn [snd] in K4.
  assert (should_log (packet_loss p) [failed_hop] = true) as ->.
  { unfold should_log. cbn. apply orb_true_r. }
  cbn. repeat split. eexists. rewrite lookup_insert_eq, K4, K3, Hf2. reflexivity.
Qed.

Lemma failed_trace_is_counted_and_logged_witness :
  TRACEROUTE_HOPS_GAUGE
    (gauges (snd (loop_iteration
                    (Sample.linux (Exited 0 Sample.ping_reply)
                       (ProcRaise FileNotFoundError) (Response 200))
                    Sample.world0)))
  = PInt 1.
Proof.
  destruct (failed_trace_is_counted_and_logged
              (Sample.linux (Exited 0 Sample.ping_reply)
                 (ProcRaise FileNotFoundError) (Response 200))
              Sample.world0
              (snd (loop_iteration
                      (Sample.linux (Exited 0 Sample.ping_reply)
                         (ProcRaise FileNotFoundError) (Response 200))
                      Sample.world0))) as [H _].
  - vm_compute. reflexivity.
  - left. reflexivity.
  - exact H.
Defined.

(** ** Silent hops *)

(** Where the match lies in the text. *)
Lemma search_from_located r s : forall pos m,
  Re.search_from r s pos = Some m ->
  exists pre t post,
    s = pre ++ t ++ post /\ den r (pos + String.length pre) t [] m.
Proof.
  induction s as [|a s IH]; intros pos m H; cbn [Re.search_from] in H.
  - destruct (Re.match_at r EmptyString pos) as [y|] eqn:Hm; [|discriminate].
    injection H as ->. apply mt_sound in Hm as (t & s' & c' & Hs & D & Hk).
    injection Hk as ->. exists EmptyString, t, s'.
    cbn [String.length]. now rewrite Nat.add_0_r.
  - destruct (Re.match_at r (String a s) pos) as [y|] eqn:Hm.
    + injection H as ->. apply mt_sound in Hm as (t & s' & c' & Hs & D & Hk).
      injection Hk as ->. exists EmptyString, t, s'.
      cbn [String.length]. now rewrite Nat.add_0_r.
    + apply IH in H as (pre & t & post & -> & D).
      exists (String a pre), t, post. split; [reflexivity|].
      cbn [String.length]. now rewrite Nat.add_succ_r.
Qed.

(** A line that matches [^\s*\d+\s+...] is white space, then a nonempty
    run of digits, then a white space character. *)
Lemma numbered_line_shape (D rest : Re.re) (line : string) (m : Re.caps) :
  (forall pos t c c',
     den D pos t c c' ->
     t <> EmptyString /\ all_chars PyStr.is_digit t = true) ->
  Re.search
    (Re.Seq Re.Bol (Re.Seq (Re.star Re.sp) (Re.Seq D (Re.Seq (Re.plus Re.sp) rest))))
    line = Some m ->
  exists ws ds s1 r,
    line = ws ++ ds ++ String s1 r
    /\ all_chars PyStr.is_space ws = true
    /\ ds <> EmptyString /\ all_chars PyStr.is_digit ds = true
    /\ PyStr.is_space s1 = true.
Proof.
  intros HD (pre & t & post & -> & Dn)%search_from_located.
  destruct Dn as (t0 & t0' & c0 & -> & (Hpos & -> & _) & Dn).
  destruct pre; [|discriminate]. clear Hpos.
  destruct Dn as (ws & t1 & c1 & -> & (Hws & _) & Dn).
  destruct Dn as (ds & t2 & c2 & -> & Dd & Dn).
  apply HD in Dd as [Hne Hd].
  destruct Dn as (sps & t3 & c3 & -> & Ds & _).
  apply den_plus in Ds as (Hsne & Hs & _).
  destruct sps as [|s1 sps]; [now destruct Hsne|].
  cbn in Hs. apply andb_prop in Hs as [Hs1 _].
  exists ws, ds, s1, (sps ++ t3 ++ post).
  repeat split; try assumption.
  rewrite !append_nil_l, !append_assoc, append_cons. reflexivity.
Qed.

Lemma unix_timeout_shape line m :
  Re.search Pat.unix_timeout line = Some m ->
  exists ws ds s1 r,
    line = ws ++ ds ++ String s1 r
    /\ all_chars PyStr.is_space ws = true
    /\ ds <> EmptyString /\ all_chars PyStr.is_digit ds = true
    /\ PyStr.is_space s1 = true.
Proof.
  apply numbered_line_shape. intros pos t c c' H.
  apply den_plus in H as (? & ? & _). auto.
Qed.

Lemma win_timeout_shape line m :
  Re.search Pat.win_timeout line = Some m ->
  exists ws ds s1 r,
    line = ws ++ ds ++ String s1 r
    /\ all_chars PyStr.is_space ws = true
    /\ ds <> EmptyString /\ all_chars PyStr.is_digit ds = true
    /\ PyStr.is_space s1 = true.
Proof.
  apply numbered_line_shape. intros pos t c c' (c0 & H & _).
  apply den_plus in H as (? & ? & _). auto.
Qed.

Lemma split_from_cons (cur : option string) (c : ascii) (s : string) :
  PyStr.split_from cur (String c s)
  = if PyStr.is_space c
    then match cur with
         | Some w => w :: PyStr.split_from None s
         | None => PyStr.split_from None s
         end
    else PyStr.split_from
           (Some (match cur with
                  | Some w => w ++ String c EmptyString
                  | None => String c EmptyString
                  end)) s.
Proof. reflexivity. Qed.

(** [split] does not see the white space [strip] removes. *)
Lemma split_from_rstrip (s : string) : forall cur,
  PyStr.split_from cur (PyStr.rstrip s) = PyStr.split_from cur s.
Proof.
  induction s as [|c s IH]; intros cur; [reflexivity|].
  rewrite (split_from_cons cur c s). cbn [PyStr.rstrip].
  destruct (PyStr.rstrip s) as [|d r] eqn:Hr.
  - destruct (PyStr.is_space c) eqn:Hc.
    + rewrite <- !IH. now destruct cur.
    + rewrite split_from_cons, Hc, <- IH. reflexivity.
  - rewrite split_from_cons.
    destruct (PyStr.is_space c); [destruct cur|]; now rewrite IH.
Qed.

Lemma split_from_lstrip (s : string) :
  PyStr.split_from None (PyStr.lstrip s) = PyStr.split_from None s.
Proof.
  induction s as [|c s IH]; [reflexivity|].
  cbn [PyStr.lstrip PyStr.split_from].
  destruct (PyStr.is_space c) eqn:Hc; [assumption|].
  cbn [PyStr.split_from]. now rewrite Hc.
Qed.

Lemma split_strip (s : string) : PyStr.split (PyStr.strip s) = PyStr.split s.
Proof.
  unfold PyStr.split, PyStr.strip. now rewrite split_from_rstrip, split_from_lstrip.
Qed.

Lemma split_from_spaces (ws s : string) :
  all_chars PyStr.is_space ws = true ->
  PyStr.split_from None (ws ++ s) = PyStr.split_from None s.
Proof.
  induction ws as [|c ws IH]; intros H; [reflexivity|].
  cbn in H. apply andb_prop in H as [Hc Hws].
  rewrite append_cons. cbn [PyStr.split_from]. rewrite Hc. now apply IH.
Qed.

Lemma split_from_word (ds : string) : forall w s1 r,
  all_chars PyStr.is_digit ds = true -> PyStr.is_space s1 = true ->
  PyStr.split_from (Some w) (ds ++ String s1 r)
  = (w ++ ds) :: PyStr.split_from None r.
Proof.
  induction ds as [|c ds IH]; intros w s1 r Hd Hs.
  - rewrite append_nil_l. cbn [PyStr.split_from]. rewrite Hs.
    f_equal. clear. induction w as [|a w IHw]; [reflexivity|].
    now rewrite append_cons, <- IHw.
  - cbn in Hd. apply andb_prop in Hd as [Hc Hd].
    rewrite append_cons. cbn [PyStr.split_from].
    rewrite (digit_not_space c Hc), (IH _ _ _ Hd Hs).
    now rewrite append_assoc.
Qed.

(** The first word of a numbered line is its number. *)
Lemma numbered_line_first_word ws ds s1 r :
  all_chars PyStr.is_space ws = true ->
  ds <> EmptyString -> all_chars PyStr.is_digit ds = true ->
  PyStr.is_space s1 = true ->
  exists words,
    PyStr.split (PyStr.strip (ws ++ ds ++ String s1 r)) = ds :: words.
Proof.
  intros Hws Hne Hd Hs. rewrite split_strip. unfold PyStr.split.
  rewrite (split_from_spaces _ _ Hws).
  destruct ds as [|c ds]; [now destruct Hne|].
  cbn in Hd. apply andb_prop in Hd as [Hc Hd].
  rewrite append_cons. cbn [PyStr.split_from]. rewrite (digit_not_space c Hc).
  rewrite (split_from_word ds _ s1 r Hd Hs). eauto.
Qed.

(** X19. A line of a hop that did not answer is white space, then a
    nonempty run of digits, then a white space character (and three
    stars further on): the run of digits is the hop number the line
    starts with. Such a line always adds one record, "Timed Out" with
    latency -1, whose hop is the number these digits write: reading the
    number off the line never fails, and the world is left as it was. *)
Theorem silent_hop_is_recorded (E : env) (line : string)
    (acc : list hop_record) (w : world) :
  silent_line E line = true ->
  exists ws ds s1 rest,
    line = ws ++ ds ++ String s1 rest
    /\ all_chars PyStr.is_space ws = true
    /\ ds <> EmptyString
    /\ all_chars PyStr.is_digit ds = true
    /\ PyStr.is_space s1 = true
    /\ PyStr.py_int ds = Some (PyStr.digits_value 0 ds)
    /\ trace_line E line (acc, w)
       = (Ok tt,
          ((acc ++ [{| hop := PyStr.digits_value 0 ds; hostname := "Timed Out";
                       ip := "Timed Out"; latency := minus_one;
                       whois := default_whois |}])%list, w)).
Proof.
  unfold silent_line, trace_line. intros H.
  assert (exists m ws ds s1 r,
            (if is_windows E then Re.search Pat.win_hop line = None
                                  /\ Re.search Pat.win_timeout line = Some m
             else Re.search Pat.unix_hop line = None
                  /\ Re.search Pat.unix_timeout line = Some m)
            /\ line = ws ++ ds ++ String s1 r
            /\ all_chars PyStr.is_space ws = true
            /\ ds <> EmptyString /\ all_chars PyStr.is_digit ds = true
            /\ PyStr.is_space s1 = true)
    as (m & ws & ds & s1 & r & Hm & Hline & Hws & Hne & Hd & Hs).
  { destruct (is_windows E); apply andb_prop in H as [H1 H2].
    - destruct (Re.search Pat.win_hop line); [discriminate|].
      destruct (Re.search Pat.win_timeout line) as [m|] eqn:Hm; [|discriminate].
      destruct (win_timeout_shape line m Hm) as (ws & ds & s1 & r & Hsh).
      exists m, ws, ds, s1, r. auto.
    - destruct (Re.search Pat.unix_hop line); [discriminate|].
      destruct (Re.search Pat.unix_timeout line) as [m|] eqn:Hm; [|discriminate].
      destruct (unix_timeout_shape line m Hm) as (ws & ds & s1 & r & Hsh).
      exists m, ws, ds, s1, r. auto. }
  destruct (numbered_line_first_word ws ds s1 r Hws Hne Hd Hs) as (words & Hw).
  destruct (py_int_digits ds Hd Hne) as [Hint _].
  exists ws, ds, s1, r. repeat split; try assumption.
  rewrite <- Hline in Hw.
  destruct line as [|a line].
  { destruct ws; [|discriminate]. now destruct ds. }
  destruct (is_windows E); destruct Hm as [-> ->];
    unfold bind, first, int, append_hop, set_local, modify, ret;
    rewrite Hw; cbn; rewrite Hint; reflexivity.
Qed.

(** The line of hop 12: the digits are "12", not a shorter run. *)
Lemma silent_hop_is_recorded_witness :
  exists ws ds s1 rest,
    "12  * * *" = ws ++ ds ++ String s1 rest
    /\ all_chars PyStr.is_space ws = true
    /\ ds <> EmptyString
    /\ all_chars PyStr.is_digit ds = true
    /\ PyStr.is_space s1 = true
    /\ PyStr.py_int ds = Some (PyStr.digits_value 0 ds)
    /\ trace_line Sample.healthy "12  * * *" ([Sample.gateway], Sample.world0)
       = (Ok tt,
          ([Sample.gateway;
            {| hop := PyStr.digits_value 0 ds; hostname := "Timed Out";
               ip := "Timed Out"; latency := minus_one;
               whois := default_whois |}], Sample.world0)).
Proof.
  apply (silent_hop_is_recorded Sample.healthy "12  * * *" [Sample.gateway]
           Sample.world0).
  reflexivity.
Defined.

(** ** An iteration, step by step *)

(** An iteration that completes went through its four probes. *)
Lemma loop_iteration_steps E w w' :
  loop_iteration E w = (Ok tt, w') ->
  exists p tr app w1 w2 w3 w4,
    check_connection E INTERNET_HOST (set_clock_reads S w) = (Ok p, w1)
    /\ run_traceroute E INTERNET_HOST w1 = (Ok tr, w2)
    /\ get_network_interface_stats E w2 = (Ok tt, w3)
    /\ check_application_response_time E APPLICATION_URL w3 = (Ok app, w4)
    /\ process_results E (strftime_now E (clock_reads w)) p tr app w4
       = (Ok tt, w').
Proof.
  unfold loop_iteration. intros H.
  apply bind_Ok_inv in H as (t & w0 & Ht & H). injection Ht as <- <-.
  apply bind_Ok_inv in H as (p & w1 & Hp & H).
  apply bind_Ok_inv in H as (tr & w2 & Htr & H).
  apply bind_Ok_inv in H as ([] & w3 & Hst & H).
  apply bind_Ok_inv in H as (app & w4 & Happ & H).
  exists p, tr, app, w1, w2, w3, w4. auto.
Qed.

(** A view that sees neither the console, the processes, the clock,
    the files, the counters read nor the gauges is the same before the
    application probe as at the start of the iteration. *)
Lemma probes_keep_view {X} (f : world -> X) E w p tr w1 w2 w3 :
  (forall g w, f (set_console g w) = f w) ->
  (forall g w, f (set_procs g w) = f w) ->
  (forall g w, f (set_clock_reads g w) = f w) ->
  (forall g w, f (set_files g w) = f w) ->
  (forall g w, f (set_stats_reads g w) = f w) ->
  (forall g w, f (set_gauges g w) = f w) ->
  check_connection E INTERNET_HOST (set_clock_reads S w) = (Ok p, w1) ->
  run_traceroute E INTERNET_HOST w1 = (Ok tr, w2) ->
  get_network_interface_stats E w2 = (Ok tt, w3) ->
  f w3 = f w.
Proof.
  intros Hc Hp Hk Hf Hs Hg H1 H2 H3.
  pose proof (check_connection_keeps f Hc Hp E INTERNET_HOST
                (set_clock_reads S w)) as K1.
  rewrite H1 in K1. cbn [snd] in K1.
  pose proof (run_traceroute_keeps f Hc Hp Hk (fun chunk w0 => Hf _ w0)
                E INTERNET_HOST w1) as K2.
  rewrite H2 in K2. cbn [snd] in K2.
  pose proof (get_network_interface_stats_keeps f Hc Hs Hg E w2) as K3.
  rewrite H3 in K3. cbn [snd] in K3.
  now rewrite K3, K2, K1, Hk.
Qed.

(** X20. An iteration that completes makes exactly one request, to the
    application URL, reads the interface counters exactly once, and
    starts at most one alert thread: none, the yellow one or the red
    one. *)
Theorem iteration_effects (E : env) (w w' : world) :
  loop_iteration E w = (Ok tt, w') ->
  requests w' = (requests w ++ [APPLICATION_URL])%list
  /\ stats_reads w' = S (stats_reads w)
  /\ (threads w' = threads w
      \/ threads w' = (threads w ++ [YELLOW_SOUND_PATH])%list
      \/ threads w' = (threads w ++ [RED_SOUND_PATH])%list).
Proof.
  intros (p & tr & app & w1 & w2 & w3 & w4 & H1 & H2 & H3 & H4 & H5)%loop_iteration_steps.
  rewrite process_results_eq in H5. injection H5 as <-.
  assert (forall (X : Type) (f : world -> X) g (x : world),
            (forall h y, f (set_files h y) = f y) ->
            f ((if should_log (packet_loss p) tr then set_files g
                else fun w => w) x) = f x) as Hlog.
  { intros X f g x Hf. destruct (should_log _ _); [apply Hf | reflexivity]. }
  split; [|split].
  - cbn [requests set_sleeps]. rewrite Hlog by reflexivity. cbn.
    pose proof (probes_keep_view requests E w p tr w1 w2 w3
                  (fun _ _ => eq_refl) (fun _ _ => eq_refl) (fun _ _ => eq_refl)
                  (fun _ _ => eq_refl) (fun _ _ => eq_refl) (fun _ _ => eq_refl)
                  H1 H2 H3) as K.
    rewrite check_application_response_time_eq in H4. cbv zeta in H4.
    destruct (http_get E _ _) as [st|e].
    + destruct (Z.leb 400 st && Z.ltb st 600)%bool; injection H4 as _ <-;
        cbn; now rewrite K.
    + destruct (exn_eqb e RequestException); [|discriminate].
      injection H4 as _ <-. cbn. now rewrite K.
  - cbn [stats_reads set_sleeps]. rewrite Hlog by reflexivity. cbn.
    pose proof (check_application_response_time_keeps stats_reads
                  (fun _ _ => eq_refl) (fun _ _ => eq_refl) (fun _ _ => eq_refl)
                  E APPLICATION_URL w3) as K4.
    rewrite H4 in K4. cbn [snd] in K4. rewrite K4.
    pose proof (check_connection_keeps stats_reads (fun _ _ => eq_refl)
                  (fun _ _ => eq_refl) E INTERNET_HOST (set_clock_reads S w)) as K1.
    rewrite H1 in K1. cbn [snd] in K1.
    pose proof (run_traceroute_keeps stats_reads (fun _ _ => eq_refl)
                  (fun _ _ => eq_refl) (fun _ _ => eq_refl)
                  (fun _ _ => eq_refl) E INTERNET_HOST w1) as K2.
    rewrite H2 in K2. cbn [snd] in K2.
    assert (stats_reads w3 = S (stats_reads w2)) as ->.
    { revert H3. unfold get_network_interface_stats, zero_interface_gauges,
        try_except, bind, psutil_net_io_counters, set_gauge, print, modify,
        any_exception.
      destruct (net_io_counters E (stats_reads w2)); cbn; now intros [= <-]. }
    now rewrite K2, K1.
  - cbn [threads set_sleeps]. rewrite Hlog by reflexivity. cbn.
    pose proof (check_application_response_time_keeps threads
                  (fun _ _ => eq_refl) (fun _ _ => eq_refl) (fun _ _ => eq_refl)
                  E APPLICATION_URL w3) as K4.
    rewrite H4 in K4. cbn [snd] in K4. rewrite K4.
    rewrite (probes_keep_view threads E w p tr w1 w2 w3
               (fun _ _ => eq_refl) (fun _ _ => eq_refl) (fun _ _ => eq_refl)
               (fun _ _ => eq_refl) (fun _ _ => eq_refl) (fun _ _ => eq_refl)
               H1 H2 H3).
    unfold alert_for. destruct (Z.eqb (packet_loss p) 0).
    + left. apply app_nil_r.
    + destruct (Z.gtb (packet_loss p) 0 && Z.ltb (packet_loss p) 100)%bool; auto.
Qed.

Lemma iteration_effects_witness :
  requests (snd (loop_iteration Sample.healthy Sample.world0))
  = [APPLICATION_URL].
Proof.
  apply (iteration_effects Sample.healthy Sample.world0
           (snd (loop_iteration Sample.healthy Sample.world0))).
  vm_compute. reflexivity.
Defined.

(** X21. An iteration that completes writes to two files at most: it
    appends at most one entry to the report log, and every file other
    than the report log and [traceroute_log.txt] is left as it was. *)
Theorem iteration_files (E : env) (w w' : world) :
  loop_iteration E w = (Ok tt, w') ->
  (files w' !! LOG_FILE = files w !! LOG_FILE
   \/ exists entry,
        files w' !! LOG_FILE
        = Some (default [] (files w !! LOG_FILE) ++ [entry])%list)
  /\ forall name,
       name <> LOG_FILE -> name <> "traceroute_log.txt" ->
       files w' !! name = files w !! name.
Proof.
  intros (p & tr & app & w1 & w2 & w3 & w4 & H1 & H2 & H3 & H4 & H5)%loop_iteration_steps.
  rewrite process_results_eq in H5. injection H5 as <-.
  assert (forall name, name <> "traceroute_log.txt" ->
            files w4 !! name = files w !! name) as Hfiles.
  { intros name Hname.
    pose proof (check_application_response_time_keeps files
                  (fun _ _ => eq_refl) (fun _ _ => eq_refl) (fun _ _ => eq_refl)
                  E APPLICATION_URL w3) as K4.
    rewrite H4 in K4. cbn [snd] in K4. rewrite K4.
    pose proof (get_network_interface_stats_keeps files (fun _ _ => eq_refl)
                  (fun _ _ => eq_refl) (fun _ _ => eq_refl) E w2) as K3.
    rewrite H3 in K3. cbn [snd] in K3. rewrite K3.
    pose proof (run_traceroute_keeps (fun w => files w !! name)
                  (fun _ _ => eq_refl) (fun _ _ => eq_refl) (fun _ _ => eq_refl))
      as K2.
    specialize (K2 (fun chunk w0 => lookup_insert_ne _ _ _ _ (not_eq_sym Hname))
                  E INTERNET_HOST w1).
    rewrite H2 in K2. cbn [snd] in K2. rewrite K2.
    pose proof (check_connection_keeps files (fun _ _ => eq_refl)
                  (fun _ _ => eq_refl) E INTERNET_HOST (set_clock_reads S w)) as K1.
    rewrite H1 in K1. cbn [snd] in K1. now rewrite K1. }
  cbn [files set_sleeps].
  destruct (should_log (packet_loss p) tr); cbn; split.
  - right. eexists. rewrite lookup_insert_eq, Hfiles by discriminate.
    reflexivity.
  - intros name Hn Ht. rewrite lookup_insert_ne by congruence. now apply Hfiles.
  - left. now apply Hfiles.
  - intros name Hn Ht. now apply Hfiles.
Qed.

Lemma iteration_files_witness :
  files (snd (loop_iteration Sample.healthy Sample.world0)) !! "notes.txt"
  = files Sample.world0 !! "notes.txt".
Proof.
  apply (iteration_files Sample.healthy Sample.world0
           (snd (loop_iteration Sample.healthy Sample.world0))).
  - vm_compute. reflexivity.
  - discriminate.
  - discriminate.
Defined.

(** ** The ownership fields *)

Lemma rstrip_cons (c : ascii) (s : string) :
  PyStr.rstrip (String c s)
  = match PyStr.rstrip s with
    | EmptyString =>
        if PyStr.is_space c then EmptyString else String c EmptyString
    | t => String c t
    end.
Proof. reflexivity. Qed.

Lemma rstrip_idem (s : string) : PyStr.rstrip (PyStr.rstrip s) = PyStr.rstrip s.
Proof.
  induction s as [|c s IH]; [reflexivity|].
  rewrite rstrip_cons. destruct (PyStr.rstrip s) as [|d r] eqn:Hr.
  - destruct (PyStr.is_space c) eqn:Hc; [reflexivity|].
    rewrite rstrip_cons. cbn. now rewrite Hc.
  - rewrite rstrip_cons. now rewrite IH.
Qed.

(** What [lstrip] leaves is empty or starts with a character that is
    not white space, and [rstrip] keeps that. *)
Lemma lstrip_head (s : string) :
  match PyStr.lstrip s with
  | EmptyString => True
  | String c _ => PyStr.is_space c = false
  end.
Proof.
  induction s as [|c s IH]; [exact I|]. cbn.
  destruct (PyStr.is_space c) eqn:Hc; [exact IH | exact Hc].
Qed.

Lemma rstrip_head (s : string) :
  match s with
  | EmptyString => True
  | String c _ => PyStr.is_space c = false
  end ->
  match PyStr.rstrip s with
  | EmptyString => True
  | String c _ => PyStr.is_space c = false
  end.
Proof.
  destruct s as [|c s]; [trivial|]. intros Hc. rewrite rstrip_cons.
  destruct (PyStr.rstrip s); [now rewrite Hc | exact Hc].
Qed.

Lemma strip_idem (s : string) : PyStr.strip (PyStr.strip s) = PyStr.strip s.
Proof.
  unfold PyStr.strip.
  pose proof (rstrip_head _ (lstrip_head s)) as H.
  assert (PyStr.lstrip (PyStr.rstrip (PyStr.lstrip s))
          = PyStr.rstrip (PyStr.lstrip s)) as ->.
  { destruct (PyStr.rstrip (PyStr.lstrip s)) as [|c r]; [reflexivity|].
    cbn. now rewrite H. }
  apply rstrip_idem.
Qed.

Lemma all_chars_lstrip p (s : string) :
  all_chars p s = true -> all_chars p (PyStr.lstrip s) = true.
Proof.
  induction s as [|c s IH]; [trivial|]. intros H. cbn.
  destruct (PyStr.is_space c); [|exact H].
  cbn in H. apply andb_prop in H as [_ H]. now apply IH.
Qed.

Lemma all_chars_rstrip p (s : string) :
  all_chars p s = true -> all_chars p (PyStr.rstrip s) = true.
Proof.
  induction s as [|c s IH]; [trivial|]. intros H.
  cbn in H. apply andb_prop in H as [Hc H]. rewrite rstrip_cons.
  specialize (IH H). destruct (PyStr.rstrip s).
  - destruct (PyStr.is_space c); [reflexivity|]. cbn. now rewrite Hc.
  - cbn. cbn in IH. now rewrite Hc, IH.
Qed.

Lemma whois_value_group (label : Re.re) (out : string) (m : Re.caps) :
  Re.search
    (Re.Seq (Re.Grp 1 label)
       (Re.Seq (Re.chr ":") (Re.Seq (Re.plus Re.sp) (Re.Grp 2 (Re.plus Re.dot)))))
    out = Some m ->
  all_chars Re.dot (Re.group m 2) = true.
Proof.
  intros (pos & t & D)%search_sound.
  destruct D as (t1 & t1' & c1 & _ & _ & D).
  destruct D as (t2 & t2' & c2 & _ & _ & D).
  destruct D as (t3 & t3' & c3 & _ & _ & D).
  destruct D as (c4 & D & ->).
  apply den_plus in D as (_ & Hd & _). exact Hd.
Qed.

(** *** Where a value lies in the answer *)

Lemma search_from_at r s : forall pos m,
  Re.search_from r s pos = Some m ->
  exists pre s',
    s = pre ++ s' /\ Re.match_at r s' (pos + String.length pre) = Some m.
Proof.
  induction s as [|a s IH]; intros pos m H; cbn [Re.search_from] in H.
  - destruct (Re.match_at r EmptyString pos) as [y|] eqn:Hm; [|discriminate].
    injection H as ->. exists EmptyString, EmptyString.
    cbn [String.length]. now rewrite Nat.add_0_r.
  - destruct (Re.match_at r (String a s) pos) as [y|] eqn:Hm.
    + injection H as ->. exists EmptyString, (String a s).
      cbn [String.length]. now rewrite Nat.add_0_r.
    + apply IH in H as (pre & s' & -> & Hm').
      exists (String a pre), s'. split; [reflexivity|].
      cbn [String.length]. now rewrite Nat.add_succ_r.
Qed.

Lemma mt_seq {A} (r1 r2 : Re.re) s pos c (k : @Re.cont A) :
  Re.mt (Re.Seq r1 r2) s pos c k
  = Re.mt r1 s pos c (fun s' pos' c' => Re.mt r2 s' pos' c' k).
Proof. reflexivity. Qed.

(** A greedy repetition before a rest that cannot fail takes every
    character it can. *)
Lemma rep_greedy_max {A} p s : forall pos c (k : @Re.cont A) x,
  (forall s' pos' c', k s' pos' c' <> None) ->
  Re.rep_greedy p s pos c k = Some x ->
  exists t s',
    s = t ++ s' /\ all_chars p t = true
    /\ (s' = EmptyString \/ exists a s'', s' = String a s'' /\ p a = false)
    /\ k s' (pos + String.length t)%nat c = Some x.
Proof.
  induction s as [|a s IH]; intros pos c k x Hk H; cbn [Re.rep_greedy] in H.
  - exists EmptyString, EmptyString. cbn [String.length].
    rewrite Nat.add_0_r. auto.
  - destruct (p a) eqn:Hp.
    + destruct (Re.rep_greedy p s (S pos) c k) as [y|] eqn:Hr.
      * injection H as ->. apply IH in Hr as (t & s' & -> & Ht & Hend & Hx);
          [|assumption].
        exists (String a t), s'. cbn [String.length all_chars].
        rewrite Hp, Ht, Nat.add_succ_r. auto.
      * exfalso. clear H. revert pos Hr. clear IH.
        induction s as [|b s IHs]; intros pos Hr; cbn [Re.rep_greedy] in Hr.
        -- now apply Hk in Hr.
        -- destruct (p b).
           ++ destruct (Re.rep_greedy p s (S (S pos)) c k) eqn:Hr';
                [discriminate|]. now apply Hk in Hr.
           ++ now apply Hk in Hr.
    + exists EmptyString, (String a s). cbn [String.length].
      rewrite Nat.add_0_r. repeat split; eauto.
Qed.

(** A group [(.+)] that ends the pattern holds the rest of the line. *)
Lemma value_to_end_of_line (i : nat) s pos c m :
  Re.mt (Re.Grp i (Re.plus Re.dot)) s pos c (fun _ _ c' => Some c') = Some m ->
  exists v post,
    s = v ++ post /\ v <> EmptyString /\ all_chars Re.dot v = true
    /\ (post = EmptyString \/ exists post', post = String PyStr.LF post')
    /\ m = (i, v) :: c.
Proof.
  unfold Re.plus. cbn [Re.mt]. destruct s as [|a s]; [discriminate|].
  destruct (Re.dot a) eqn:Ha; [|discriminate]. intros H.
  apply rep_greedy_max in H as (t & post & -> & Ht & Hend & Hm);
    [|discriminate].
  injection Hm as <-.
  replace (S (pos + String.length t) - pos)%nat with (S (String.length t))
    by lia.
  rewrite substring_append, <- append_cons.
  exists (String a t), post. cbn [all_chars]. rewrite Ha, Ht.
  repeat split; [discriminate|].
  destruct Hend as [-> | (b & post' & -> & Hb)]; [now left | right].
  exists post'. f_equal. unfold Re.dot in Hb.
  apply negb_false_iff, Ascii.eqb_eq in Hb. exact Hb.
Qed.

Lemma den_chr_text a pos t c c' :
  den (Re.chr a) pos t c c' -> t = String a EmptyString.
Proof. intros [(b & -> & Hb) _]. apply Ascii.eqb_eq in Hb. now subst. Qed.

Lemma den_lit_ci (s : string) : forall pos t c c',
  den (Re.lit_ci s) pos t c c' -> lower t = lower s.
Proof.
  assert (forall a pos t c c',
            den (Re.chr_ci a) pos t c c' -> lower t = lower (String a EmptyString))
    as Hone.
  { intros a pos t c c' [(b & -> & Hb) _]. apply Ascii.eqb_eq in Hb.
    cbn. now rewrite Hb. }
  induction s as [|a s IH]; intros pos t c c' H.
  - now destruct H as [-> _].
  - destruct s as [|b s]; [now apply Hone in H|].
    destruct H as (t1 & t2 & c1 & -> & H1 & H2).
    apply Hone in H1. apply IH in H2.
    destruct t1 as [|x t1]; [discriminate|]. destruct t1; [|discriminate].
    rewrite append_cons, append_nil_l. cbn [lower] in *.
    injection H1 as ->. now rewrite H2.
Qed.

(** The match of a pattern [(label):\s+(.+)]: group 2 is a value of the
    text under the label. *)
Lemma whois_value_located (label : Re.re) (labels : list string)
    (out : string) (m : Re.caps) :
  (forall pos t c c', den label pos t c c' -> In (lower t) labels) ->
  Re.search
    (Re.Seq (Re.Grp 1 label)
       (Re.Seq (Re.chr ":") (Re.Seq (Re.plus Re.sp) (Re.Grp 2 (Re.plus Re.dot)))))
    out = Some m ->
  labelled_value labels out (Re.group m 2).
Proof.
  intros Hlabel (pre & s & -> & H)%search_from_at.
  unfold Re.match_at in H. rewrite mt_seq in H.
  apply mt_sound in H as (lab & s1 & c1 & -> & (c0 & Dl & ->) & H).
  rewrite mt_seq in H.
  apply mt_sound in H as (t2 & s2 & c2 & -> & D2 & H).
  pose proof (den_chr_text _ _ _ _ _ D2) as ->. apply den_chr in D2 as ->.
  rewrite mt_seq in H.
  apply mt_sound in H as (sps & s3 & c3 & -> & D3 & H).
  apply den_plus in D3 as (Hsne & Hsp & ->).
  apply value_to_end_of_line in H as (v & post & -> & Hvne & Hv & Hend & ->).
  cbn [Re.group Nat.eqb].
  exists pre, lab, sps, post. repeat split; try assumption.
  eapply Hlabel, Dl.
Qed.

Lemma whois_org_located out m :
  Re.search Pat.whois_org out = Some m ->
  labelled_value ["orgname"; "organization"; "descr"] out (Re.group m 2).
Proof.
  apply whois_value_located. intros pos t c c' [H | [H | H]];
    apply den_lit_ci in H; rewrite H; cbn; auto.
Qed.

Lemma whois_country_located out m :
  Re.search Pat.whois_country out = Some m ->
  labelled_value ["country"] out (Re.group m 2).
Proof.
  apply whois_value_located. intros pos t c c' [H | H];
    apply den_lit_ci in H; rewrite H; cbn; auto.
Qed.

(** X22. The organisation [get_whois_info] returns is the default "N/A",
    or the stripped value the answer of the lookup gives under one of
    the labels OrgName, organization or descr, in any case: what
    follows the label, a colon and white space, up to the end of the
    line. The country is "N/A" or the stripped value under the label
    country. Both hold no line feed and no white space at either end. *)
Theorem ownership_fields_are_trimmed (E : env) (ip_address : string)
    (w : world) (i : whois_info) :
  fst (get_whois_info E ip_address w) = Ok i ->
  (org_name i = "N/A"
   \/ exists out v,
        spawn E (length (procs w)) (whois_command ip_address) = Exited 0 out
        /\ labelled_value ["orgname"; "organization"; "descr"] out v
        /\ org_name i = PyStr.strip v)
  /\ (country i = "N/A"
      \/ exists out v,
           spawn E (length (procs w)) (whois_command ip_address) = Exited 0 out
           /\ labelled_value ["country"] out v
           /\ country i = PyStr.strip v)
  /\ PyStr.strip (org_name i) = org_name i
  /\ all_chars Re.dot (org_name i) = true
  /\ PyStr.strip (country i) = country i
  /\ all_chars Re.dot (country i) = true.
Proof.
  assert (forall r out,
            (forall m, Re.search r out = Some m ->
                       all_chars Re.dot (Re.group m 2) = true) ->
            let v := match Re.search r out with
                     | Some m => PyStr.strip (Re.group m 2)
                     | None => "N/A"
                     end in
            PyStr.strip v = v /\ all_chars Re.dot v = true) as Hfield.
  { intros r out Hr. destruct (Re.search r out) as [m|]; cbn.
    - split; [apply strip_idem|].
      unfold PyStr.strip. apply all_chars_rstrip, all_chars_lstrip, Hr.
      reflexivity.
    - split; reflexivity. }
  rewrite get_whois_info_eq.
  destruct (PyStr.startswith_any _ _);
    [intros [= <-]; repeat split; now left|]. cbv zeta.
  destruct (spawn E _ _) as [rc out|e].
  - destruct (Z.eqb_spec rc 0) as [-> | Hrc];
      [|intros [= <-]; repeat split; now left].
    intros [= <-]. unfold parse_whois. cbn [org_name country fst].
    destruct (Hfield Pat.whois_org out) as [? ?].
    { intros m. apply whois_value_group. }
    destruct (Hfield Pat.whois_country out) as [? ?].
    { intros m. apply whois_value_group. }
    repeat split; try assumption.
    + destruct (Re.search Pat.whois_org out) as [m|] eqn:Hm; [|now left].
      right. exists out, (Re.group m 2). repeat split.
      now apply whois_org_located.
    + destruct (Re.search Pat.whois_country out) as [m|] eqn:Hm; [|now left].
      right. exists out, (Re.group m 2). repeat split.
      now apply whois_country_located.
  - destruct (one_of _ e); [|discriminate].
    intros [= <-]. repeat split; now left.
Qed.

Lemma ownership_fields_are_trimmed_witness :
  ("Google LLC" = "N/A"
   \/ exists out v,
        Exited 0 Sample.whois_reply = Exited 0 out
        /\ labelled_value ["orgname"; "organization"; "descr"] out v
        /\ "Google LLC" = PyStr.strip v)
  /\ ("US" = "N/A"
      \/ exists out v,
           Exited 0 Sample.whois_reply = Exited 0 out
           /\ labelled_value ["country"] out v
           /\ "US" = PyStr.strip v)
  /\ PyStr.strip "Google LLC" = "Google LLC"
  /\ all_chars Re.dot "Google LLC" = true
  /\ PyStr.strip "US" = "US"
  /\ all_chars Re.dot "US" = true.
Proof.
  apply (ownership_fields_are_trimmed Sample.healthy "8.8.8.8" Sample.world0
           {| org_name := "Google LLC"; country := "US" |}).
  vm_compute. reflexivity.
Defined.

(** ** Answered hops *)

(** X23. Away from Windows, a line of a hop that answered, whose
    latency [float] reads, adds exactly one record when the ownership
    lookup returns: the hop number, which [int] always reads, the host
    name, the address, the first latency of the line and the ownership. *)
Theorem answered_hop_is_recorded (E : env) (line : string) (m : Re.caps)
    (q : Q) (i : whois_info) (acc : list hop_record) (w w1 : world) :
  is_windows E = false ->
  Re.search Pat.unix_hop line = Some m ->
  PyStr.py_float (Re.group m 4) = Some q ->
  get_whois_info E (Re.group m 3) w = (Ok i, w1) ->
  exists n,
    PyStr.py_int (Re.group m 1) = Some n /\ 0 <= n
    /\ trace_line E line (acc, w)
       = (Ok tt,
          ((acc ++ [{| hop := n; hostname := Re.group m 2; ip := Re.group m 3;
                       latency := PFloat q; whois := i |}])%list, w1)).
Proof.
  intros Hw Hm Hq Hi. destruct (unix_hop_group line m Hm) as (n & Hn & Hpos).
  exists n. repeat split; try assumption.
  unfold trace_line.
  destruct line as [|a line]; [discriminate|].
  rewrite Hw, Hm.
  unfold bind, int, float, lift, append_hop, set_local, modify, ret.
  rewrite Hn, Hq. cbn. now rewrite Hi.
Qed.

Lemma answered_hop_is_recorded_witness :
  exists n,
    PyStr.py_int "3" = Some n /\ 0 <= n
    /\ trace_line Sample.healthy
         " 3  dns.google (8.8.8.8)  9.5 ms  9.1 ms  9.0 ms" ([], Sample.world0)
       = (Ok tt,
          ([{| hop := n; hostname := "dns.google"; ip := "8.8.8.8";
               latency := PFloat (95 # 10);
               whois := {| org_name := "Google LLC"; country := "US" |} |}],
           set_procs (fun p => (p ++ [["whois"; "8.8.8.8"]])%list) Sample.world0)).
Proof.
  apply (answered_hop_is_recorded Sample.healthy
           " 3  dns.google (8.8.8.8)  9.5 ms  9.1 ms  9.0 ms"
           [(4%nat, "9.5"); (3%nat, "8.8.8.8"); (2%nat, "dns.google");
            (1%nat, "3")]
           (95 # 10) {| org_name := "Google LLC"; country := "US" |}
           [] Sample.world0);
    vm_compute; reflexivity.
Defined.
